(** * pdf_converter_bot: a shallow embedding of [bot.py]

    The development follows the layout of the source file: the name
    sanitizer, the backend locator, the conversion backends, the dispatcher
    [convert_to_pdf] and the three conversation handlers.  Python values are
    modelled as follows.

    - A Python [str] is a list of Unicode code points ([list N]).
    - A [pathlib.Path] is the list of its parts; [Path("")] is the empty
      list, which pathlib prints as "." and which denotes the current
      directory.
    - The file system is an ordered list of directory entries; every write
      stamps the entry with a logical clock that is then advanced.
    - Functions with effects live in a state-and-exception monad over a
      [World] (file system, clock, child processes, replies sent,
      [context.user_data]).
    - What the program calls but does not define (the office engine, the
      image and text encoders, the Telegram transport) is a parameter of
      the section. *)

From Stdlib Require Import ZArith NArith List Ascii String Bool Lia DecimalString DecimalNat.
From stdpp Require Import base decidable option list gmap strings.

(* ===================================================================== *)
(** ** Python strings *)
(* ===================================================================== *)

Module PyStr.

Definition str := list N.
Definition bytes := list N.

(** An ASCII literal of the source as a list of code points. *)
Definition lit (s : string) : str :=
  List.map N_of_ascii (list_ascii_of_string s).

(** [str.isspace] for one code point; this is also what [\s] matches in a
    [str] pattern. *)
Definition isspace (c : N) : bool :=
  ((9 <=? c) && (c <=? 13) || (28 <=? c) && (c <=? 32) ||
   (c =? 133) || (c =? 160) || (c =? 5760) ||
   (8192 <=? c) && (c <=? 8202) ||
   (c =? 8232) || (c =? 8233) || (c =? 8239) || (c =? 8287) ||
   (c =? 12288))%N.

Fixpoint lstrip (s : str) : str :=
  match s with
  | c :: t => if isspace c then lstrip t else s
  | [] => []
  end.

Definition rstrip (s : str) : str := rev (lstrip (rev s)).

(** [s.strip()] *)
Definition strip (s : str) : str := rstrip (lstrip s).

(** [s[:n]] for a Python integer [n]: a negative bound counts from the
    end. *)
Definition slice_to (s : str) (n : Z) : str :=
  if (0 <=? n)%Z then take (Z.to_nat n) s
  else take (length s - Z.to_nat (- n)) s.

(** Does [s] end with [suf]? *)
Definition endswith (s suf : str) : bool :=
  bool_decide (drop (length s - length suf) s = suf).

(** [str.lower] on the code points whose image the program can observe:
    the ASCII capitals, and the two non-ASCII capitals whose lower case
    contains an ASCII letter (KELVIN SIGN, and I WITH DOT ABOVE).  All
    other code points lower to code points outside ASCII and are kept. *)
Definition lower_char (c : N) : list N :=
  (if (65 <=? c) && (c <=? 90) then [c + 32]
   else if c =? 8490 then [107]
   else if c =? 304 then [105; 775]
   else [c])%N.

Definition lower (s : str) : str := concat (List.map lower_char s).

End PyStr.
Import PyStr.

(* ===================================================================== *)
(** ** The name sanitizer (bot.py, lines 41-52) *)
(* ===================================================================== *)

(** The character class [[A-Za-z0-9 _-]]. *)
Definition allowed (c : N) : bool :=
  ((65 <=? c) && (c <=? 90) || (97 <=? c) && (c <=? 122) ||
   (48 <=? c) && (c <=? 57) || (c =? 32) || (c =? 95) || (c =? 45))%N.

Definition clean (c : N) : Prop := allowed c = true.

(** [re.sub(CLASS+, rep, s)]: every maximal run of code points of the class
    [cls] becomes the single code point [rep].  [in_run] tells that the
    previous code point already belonged to the run being replaced. *)
Fixpoint sub_runs (cls : N -> bool) (rep : N) (in_run : bool) (s : str) : str :=
  match s with
  | [] => []
  | c :: t =>
      if cls c then
        if in_run then sub_runs cls rep true t
        else rep :: sub_runs cls rep true t
      else c :: sub_runs cls rep false t
  end.

(** One pattern character of [\.pdf] under [re.IGNORECASE]. *)
Definition ci_match (pat c : N) : bool :=
  ((c =? pat) || ((97 <=? pat) && (pat <=? 122) && (c =? pat - 32)))%N.

(** Does [s] spell [.pdf], ignoring case? *)
Definition is_dot_pdf (s : str) : bool :=
  match s with
  | [a; b; c; d] =>
      ci_match 46 a && ci_match 112 b && ci_match 100 c && ci_match 102 d
  | _ => false
  end.

(** [re.sub(r"\.pdf$", "", s, flags=re.IGNORECASE)].  Without
    [re.MULTILINE], [$] matches at the end of the string and also just
    before a newline that ends the string. *)
Definition sub_pdf_suffix (s : str) : str :=
  let n := length s in
  if is_dot_pdf (drop (n - 4) s) then take (n - 4) s
  else if is_dot_pdf (take 4 (drop (n - 5) s)) && bool_decide (drop (n - 1) s = [10%N])
       then take (n - 5) s ++ [10%N]
  else s.

Definition default_max_len : Z := 64%Z.

Definition sanitize_filename (name : str) (max_len : Z) : str :=
  let name := strip name in
  if bool_decide (name = []) then lit "converted"
  else
    let name := sub_pdf_suffix name in
    let name := sub_runs (fun c => negb (allowed c)) 95 false name in
    let name := strip (sub_runs isspace 32 false name) in
    let name := if bool_decide (name = []) then lit "converted" else name in
    slice_to name max_len.

(* ===================================================================== *)
(** ** pathlib paths *)
(* ===================================================================== *)

Module PyPath.

(** The parts of a path, as [PurePath.parts]: an absolute path starts with
    the part "/". *)
Definition Path := list str.

Fixpoint split_on (sep : N) (s : str) : list str :=
  match s with
  | [] => [[]]
  | c :: t =>
      if (c =? sep)%N then [] :: split_on sep t
      else match split_on sep t with
           | h :: r => (c :: h) :: r
           | [] => [[c]]
           end
  end.

(** [Path(s)]: empty parts and "." parts are dropped, so that [Path("")]
    and [Path(".")] are both the path without parts. *)
Definition path_of_str (s : str) : Path :=
  let parts :=
    List.filter
      (fun p => negb (bool_decide (p = []) || bool_decide (p = lit ".")))
      (split_on 47 s) in
  match s with
  | 47%N :: _ => lit "/" :: parts
  | _ => parts
  end.

Definition is_absolute (p : Path) : bool :=
  match p with
  | r :: _ => bool_decide (r = lit "/")
  | [] => false
  end.

Fixpoint join_parts (ps : list str) : str :=
  match ps with
  | [] => []
  | [x] => x
  | x :: t => x ++ 47%N :: join_parts t
  end.

(** [str(p)] *)
Definition str_of_path (p : Path) : str :=
  match p with
  | [] => lit "."
  | r :: t => if bool_decide (r = lit "/") then 47%N :: join_parts t
              else join_parts p
  end.

(** [p / s]: an absolute right operand replaces the left one. *)
Definition joinpath (p : Path) (s : str) : Path :=
  let q := path_of_str s in
  if is_absolute q then q else p ++ q.

(** [p.parent] *)
Definition parent (p : Path) : Path := removelast p.

(** [p.name]: the final part, empty for "." and for the root. *)
Definition name (p : Path) : str :=
  match last p with
  | Some n => if bool_decide (n = lit "/") then [] else n
  | None => []
  end.

(** [s.rfind(c)] *)
Fixpoint rfind (c : N) (s : str) : option nat :=
  match s with
  | [] => None
  | x :: t =>
      match rfind c t with
      | Some i => Some (S i)
      | None => if (x =? c)%N then Some 0%nat else None
      end
  end.

(** [p.suffix]: from the last dot of the name on, unless that dot is the
    first or the last character. *)
Definition suffix (p : Path) : str :=
  let n := name p in
  match rfind 46 n with
  | Some i => if (0 <? i)%nat && (i <? length n - 1)%nat then drop i n else []
  | None => []
  end.

(** [p.stem]: the name without its suffix. *)
Definition stem (p : Path) : str :=
  let n := name p in
  match rfind 46 n with
  | Some i => if (0 <? i)%nat && (i <? length n - 1)%nat then take i n else n
  | None => n
  end.

(** [d] is [p] or one of its ancestors.  The path without parts is the
    current directory, which is an ancestor of the relative paths only. *)
Definition within (d p : Path) : bool :=
  bool_decide (take (length d) p = d) &&
  (negb (bool_decide (d = [])) || negb (is_absolute p)).

(** [p] is an entry of the directory [d] itself. *)
Definition child_of (d p : Path) : bool :=
  bool_decide (p <> []) && bool_decide (parent p = d).

End PyPath.
Import PyPath.

(* ===================================================================== *)
(** ** The file system *)
(* ===================================================================== *)

Module FileSystem.

Record node := Node { n_dir : bool; n_data : bytes; n_mtime : nat }.

(** Directory entries in the order in which the system lists them. *)
Definition FS := list (Path * node).

Fixpoint fs_lookup (p : Path) (fs : FS) : option node :=
  match fs with
  | [] => None
  | (q, nd) :: t => if bool_decide (q = p) then Some nd else fs_lookup p t
  end.

(** Create or overwrite the entry [p]; a new entry is listed last. *)
Fixpoint fs_put (p : Path) (nd : node) (fs : FS) : FS :=
  match fs with
  | [] => [(p, nd)]
  | (q, old) :: t =>
      if bool_decide (q = p) then (q, nd) :: t else (q, old) :: fs_put p nd t
  end.

(** Remove [d] and everything below it; the current directory itself
    cannot be removed, only emptied. *)
Definition fs_remove_tree (d : Path) (fs : FS) : FS :=
  List.filter
    (fun e => negb (within d (fst e)) || bool_decide (fst e = []))
    fs.

Definition fs_exists (p : Path) (fs : FS) : bool :=
  match fs_lookup p fs with Some _ => true | None => false end.

Definition fs_is_dir (p : Path) (fs : FS) : bool :=
  match fs_lookup p fs with Some nd => n_dir nd | None => false end.

Definition fs_mtime (p : Path) (fs : FS) : nat :=
  match fs_lookup p fs with Some nd => n_mtime nd | None => 0%nat end.

(** [d.glob("*.pdf")]: the entries of [d] whose name ends in ".pdf", in
    listing order. *)
Definition glob_pdf (d : Path) (fs : FS) : list Path :=
  List.map fst
    (List.filter
       (fun e => child_of d (fst e) && endswith (name (fst e)) (lit ".pdf"))
       fs).

(** [sorted(ps, key=mtime, reverse=True)]: a stable sort, so among entries
    of equal time the listing order is kept. *)
Fixpoint insert_desc (key : Path -> nat) (x : Path) (l : list Path) : list Path :=
  match l with
  | [] => [x]
  | y :: t =>
      if (key x <? key y)%nat then y :: insert_desc key x t else x :: l
  end.

Fixpoint sorted_desc (key : Path -> nat) (l : list Path) : list Path :=
  match l with
  | [] => []
  | x :: t => insert_desc key x (sorted_desc key t)
  end.

End FileSystem.
Import FileSystem.

(* ===================================================================== *)
(** ** Worlds, exceptions and the effect monad *)
(* ===================================================================== *)

(** The exceptions that the modelled calls raise. *)
Inductive exn :=
| TimeoutExpired (cmd : list str) (timeout : Z)
| CalledProcessError (returncode : Z) (cmd : list str) (stderr : bytes)
| RuntimeError (msg : string)
| SameFileError (src dst : Path)
| FileNotFoundError (p : Path)
| IsADirectoryError (p : Path)
| NotADirectoryError (p : Path)
| TypeError
| ImageOpenError
| TelegramError.

Inductive result (A : Type) :=
| Ok (a : A)
| Raise (e : exn).
Arguments Ok {A} a.
Arguments Raise {A} e.

Inductive proc_status := Running | Exited (code : Z) | Killed.

(** The texts the bot sends, one constructor per literal of the source. *)
Inductive Text :=
| TxtWelcome
| TxtCancelled
| TxtSendDocumentOrPhoto
| TxtTooBig
| TxtDownloadFailed (e : exn)
| TxtGotIt (suggested : str)
| TxtLostContext
| TxtConverting
| TxtDone
| TxtTimedOut
| TxtLibreOfficeFailed (e : exn)
| TxtConversionFailed (e : exn).

Inductive Reply :=
| ReplyText (t : Text)
| ReplyDocument (filename : str) (data : bytes).

Record World := mkWorld {
  w_fs : FS;                                 (* files and directories *)
  w_clock : nat;                             (* time of the next write *)
  w_procs : list (list str * proc_status);   (* children spawned so far *)
  w_sent : list Reply;                       (* replies delivered, oldest first *)
  w_net : list bool;                         (* fate of the next sends; none left: delivered *)
  w_user_data : gmap string str;             (* context.user_data *)
  w_tmp : nat                                (* serial of the next temporary name *)
}.

Definition M (A : Type) : Type := World -> result A * World.

Definition ret {A} (a : A) : M A := fun w => (Ok a, w).

Definition raise {A} (e : exn) : M A := fun w => (Raise e, w).

Definition bind {A B} (m : M A) (k : A -> M B) : M B :=
  fun w =>
    match m w with
    | (Ok a, w') => k a w'
    | (Raise e, w') => (Raise e, w')
    end.

(** [try: m  except Exception as e: h e] *)
Definition try_except {A} (m : M A) (h : exn -> M A) : M A :=
  fun w =>
    match m w with
    | (Ok a, w') => (Ok a, w')
    | (Raise e, w') => h e w'
    end.

(** [try: m  finally: fin] *)
Definition try_finally {A} (m : M A) (fin : M unit) : M A :=
  fun w =>
    match m w with
    | (r, w') =>
        match fin w' with
        | (Ok _, w'') => (r, w'')
        | (Raise e, w'') => (Raise e, w'')
        end
    end.

Declare Scope py_scope.
Delimit Scope py_scope with py.
Notation "x <- c1 ;; c2" := (bind c1 (fun x => c2))
  (at level 100, c1 at next level, right associativity) : py_scope.
Notation "c1 ;; c2" := (bind c1 (fun _ => c2))
  (at level 100, right associativity) : py_scope.
Local Open Scope py_scope.

Definition set_fs (fs : FS) (w : World) : World :=
  mkWorld fs (w_clock w) (w_procs w) (w_sent w) (w_net w) (w_user_data w) (w_tmp w).

Definition set_user_data (ud : gmap string str) (w : World) : World :=
  mkWorld (w_fs w) (w_clock w) (w_procs w) (w_sent w) (w_net w) ud (w_tmp w).

(** The entry [p] is written now and the clock advances. *)
Definition stamp (p : Path) (dir : bool) (data : bytes) (w : World) : World :=
  mkWorld (fs_put p (Node dir data (w_clock w)) (w_fs w)) (S (w_clock w))
          (w_procs w) (w_sent w) (w_net w) (w_user_data w) (w_tmp w).

(** [p.exists()] *)
Definition path_exists (p : Path) : M bool :=
  fun w => (Ok (fs_exists p (w_fs w)), w).

(** [p.read_bytes()], [open(p, "rb").read()] *)
Definition read_bytes (p : Path) : M bytes :=
  fun w =>
    match fs_lookup p (w_fs w) with
    | None => (Raise (FileNotFoundError p), w)
    | Some nd =>
        if n_dir nd then (Raise (IsADirectoryError p), w)
        else (Ok (n_data nd), w)
    end.

(** [p.write_bytes(data)]: the directory of [p] must exist and [p] must not
    be a directory.  Paths are looked up part by part: a ".." part is not
    resolved. *)
Definition write_bytes (p : Path) (data : bytes) : M unit :=
  fun w =>
    if fs_is_dir p (w_fs w) then (Raise (IsADirectoryError p), w)
    else
      match fs_lookup (parent p) (w_fs w) with
      | None => (Raise (FileNotFoundError p), w)
      | Some nd =>
          if n_dir nd then (Ok tt, stamp p false data w)
          else (Raise (NotADirectoryError p), w)
      end.

(** [shutil.copyfile(src, dst)]: refuses to copy a file onto itself. *)
Definition copyfile (src dst : Path) : M unit :=
  fun w =>
    if bool_decide (src = dst) && fs_exists src (w_fs w)
    then (Raise (SameFileError src dst), w)
    else (data <- read_bytes src ;; write_bytes dst data) w.

(** [shutil.rmtree(d, ignore_errors=True)]: on anything but a directory
    the error is swallowed and nothing is removed. *)
Definition rmtree (d : Path) : M unit :=
  fun w =>
    if fs_is_dir d (w_fs w) then (Ok tt, set_fs (fs_remove_tree d (w_fs w)) w)
    else (Ok tt, w).

(** [context.user_data.clear()] *)
Definition user_data_clear : M unit :=
  fun w => (Ok tt, set_user_data ∅ w).

(** [context.user_data[k] = v] *)
Definition user_data_set (k : string) (v : str) : M unit :=
  fun w => (Ok tt, set_user_data (<[k := v]> (w_user_data w)) w).

(** [context.user_data.get(k, "")] *)
Definition user_data_get (k : string) : M str :=
  fun w => (Ok (default [] (w_user_data w !! k)), w).

(** One outbound call to the chat transport. *)
Definition send (r : Reply) : M unit :=
  fun w =>
    match w_net w with
    | false :: rest =>
        (Raise TelegramError,
         mkWorld (w_fs w) (w_clock w) (w_procs w) (w_sent w) rest
                 (w_user_data w) (w_tmp w))
    | _ =>
        (Ok tt,
         mkWorld (w_fs w) (w_clock w) (w_procs w) (w_sent w ++ [r])
                 (tail (w_net w)) (w_user_data w) (w_tmp w))
    end.

(** [msg.reply_text(t)] *)
Definition reply_text (t : Text) : M unit := send (ReplyText t).

(** [msg.reply_document(InputFile(f, filename=...))] *)
Definition reply_document (filename : str) (data : bytes) : M unit :=
  send (ReplyDocument filename data).

(** The time that a library reads when it is called. *)
Definition time_now : M nat :=
  fun w => (Ok (w_clock w), w).

(* ===================================================================== *)
(** ** What the program calls but does not define *)
(* ===================================================================== *)

(** What a child process does when left alone: how long it runs, what it
    writes, and how it exits. *)
Record Behaviour := mkBehaviour {
  b_seconds : Z;
  b_writes : list (Path * bytes);
  b_returncode : Z;
  b_stderr : bytes
}.

Record Host := mkHost {
  (* the program started by a command line, given the files it can see *)
  host_exec : list str -> FS -> Behaviour;
  (* shutil.which *)
  host_which : str -> option str;
  (* Path.home() *)
  host_home : Path;
  (* tempfile.gettempdir() *)
  host_tmpdir : Path;
  (* img2pdf.convert, called at the time given: as the code calls it
     (without nodate) it writes the current date into the PDF; None when
     the image cannot be decoded *)
  host_img2pdf : nat -> bytes -> option bytes;
  (* the PDF that reportlab saves, at the time given, for the text drawn by
     convert_text_to_pdf: a Canvas made without invariant writes the
     current time into the PDF *)
  host_reportlab : nat -> bytes -> bytes;
  (* bot.get_file followed by download_to_drive; None when either fails *)
  host_download : str -> option bytes
}.

(** The writes of a finished child, in order, each at its own clock tick. *)
Fixpoint apply_writes (ws : list (Path * bytes)) (w : World) : World :=
  match ws with
  | [] => w
  | (p, data) :: t => apply_writes t (stamp p false data w)
  end.

Definition add_proc (cmd : list str) (st : proc_status) (w : World) : World :=
  mkWorld (w_fs w) (w_clock w) (w_procs w ++ [(cmd, st)]) (w_sent w)
          (w_net w) (w_user_data w) (w_tmp w).

Inductive state := WAIT_FILE | WAIT_NAME | END.

Record Document := mkDocument {
  doc_file_id : str;
  doc_file_name : option str;
  doc_file_size : option Z
}.

Record PhotoSize := mkPhotoSize {
  photo_file_id : str;
  photo_file_size : option Z
}.

Record Message := mkMessage {
  msg_document : option Document;
  msg_photo : list PhotoSize;
  msg_text : option str
}.

Inductive Update :=
| CmdStart
| CmdCancel
| Incoming (m : Message).

Definition IMAGE_EXTS : list str :=
  [lit ".png"; lit ".jpg"; lit ".jpeg"; lit ".webp"].

Definition TEXT_EXTS : list str :=
  [lit ".txt"; lit ".md"; lit ".log"; lit ".csv"].

Definition OFFICE_EXTS : list str :=
  [lit ".doc"; lit ".docx"; lit ".ppt"; lit ".pptx"; lit ".xls"; lit ".xlsx";
   lit ".odt"; lit ".ods"; lit ".odp"; lit ".rtf"].

(** [x in S] *)
Definition mem (x : str) (S : list str) : bool := bool_decide (x ∈ S).

(** The four arms of the dispatcher. *)
Inductive Strategy := PassThrough | Image | PlainText | OfficeSuite.

(** The arm that [convert_to_pdf] takes for a lower-cased extension
    (bot.py, lines 152-165). *)
Definition classify (ext : str) : Strategy :=
  if bool_decide (ext = lit ".pdf") then PassThrough
  else if mem ext IMAGE_EXTS then Image
  else if mem ext TEXT_EXTS then PlainText
  else OfficeSuite.

Definition MAX_DECLARED_SIZE : Z := (20 * 1024 * 1024)%Z.

(** [file_size and file_size > 20 * 1024 * 1024] *)
Definition looks_too_big (file_size : option Z) : bool :=
  match file_size with
  | None => false
  | Some n => negb (n =? 0)%Z && (MAX_DECLARED_SIZE <? n)%Z
  end.

(** [x or d] for an optional string: [None] and the empty string are
    false. *)
Definition str_or (x : option str) (d : str) : str :=
  match x with
  | Some (c :: t) => c :: t
  | _ => d
  end.

Definition not_found_msg : string :=
  "LibreOffice not found. Install LibreOffice, or make sure 'soffice' is available.".

Definition no_pdf_msg : string :=
  "LibreOffice conversion finished but no PDF was created.".

Definition default_timeout_sec : Z := 90%Z.

Section Bot.

Variable host : Host.

(** [subprocess.run(cmd, check=True, stdout=PIPE, stderr=PIPE,
    timeout=timeout)], after the documentation of the subprocess module:
    when the timeout expires the child is killed and waited for, and
    [TimeoutExpired] is raised; a child that ends with a non-zero code
    raises [CalledProcessError].  What a child had written before it was
    killed is not modelled. *)
Definition subprocess_run (cmd : list str) (timeout : Z) : M unit :=
  fun w =>
    let b := host_exec host cmd (w_fs w) in
    if (timeout <? b_seconds b)%Z then
      (Raise (TimeoutExpired cmd timeout), add_proc cmd Killed w)
    else
      let w' := add_proc cmd (Exited (b_returncode b)) (apply_writes (b_writes b) w) in
      if (b_returncode b =? 0)%Z then (Ok tt, w')
      else (Raise (CalledProcessError (b_returncode b) cmd (b_stderr b)), w').

(** [tempfile.mkdtemp(prefix=prefix)]; the random part of the name is the
    serial number of the world. *)
Definition mkdtemp (prefix : str) : M Path :=
  fun w =>
    let d := host_tmpdir host ++
             [prefix ++ lit (NilEmpty.string_of_uint (Nat.to_uint (w_tmp w)))] in
    let w1 := stamp d true [] w in
    (Ok d,
     mkWorld (w_fs w1) (w_clock w1) (w_procs w1) (w_sent w1) (w_net w1)
             (w_user_data w1) (S (w_tmp w1))).

(** bot.py, lines 54-73 *)
Definition mac_candidates : list str :=
  [lit "/Applications/LibreOffice.app/Contents/MacOS/soffice";
   str_of_path
     (joinpath (host_home host)
        (lit "Applications/LibreOffice.app/Contents/MacOS/soffice"))].

Fixpoint first_existing (cs : list str) (fs : FS) : option str :=
  match cs with
  | [] => None
  | c :: t => if fs_exists (path_of_str c) fs then Some c else first_existing t fs
  end.

Definition find_soffice : M (option str) :=
  fun w =>
    let p := match host_which host (lit "soffice") with
             | Some (c :: t) => Some (c :: t)
             | _ => host_which host (lit "libreoffice")
             end in
    match p with
    | Some (c :: t) => (Ok (Some (c :: t)), w)
    | _ => (Ok (first_existing mac_candidates (w_fs w)), w)
    end.

(** bot.py, lines 105-110 *)
Definition convert_image_to_pdf (input_path pdf_path : Path) : M unit :=
  img_bytes <- read_bytes input_path ;;
  now <- time_now ;;
  match host_img2pdf host now img_bytes with
  | None => raise ImageOpenError
  | Some pdf_bytes => write_bytes pdf_path pdf_bytes
  end.

(** bot.py, lines 75-103; the drawing itself is reportlab's. *)
Definition convert_text_to_pdf (input_path pdf_path : Path) : M unit :=
  text <- read_bytes input_path ;;
  now <- time_now ;;
  write_bytes pdf_path (host_reportlab host now text).

Definition soffice_cmd (soffice : str) (input_path out_dir : Path) : list str :=
  [soffice; lit "--headless"; lit "--nologo"; lit "--nofirststartwizard";
   lit "--norestore"; lit "--convert-to"; lit "pdf";
   str_of_path input_path; lit "--outdir"; str_of_path out_dir].

(** bot.py, lines 136-145: the file the engine is expected to have
    written, else the newest PDF of the directory. *)
Definition discover_output (input_path out_dir : Path) : M Path :=
  let expected := joinpath out_dir (stem input_path ++ lit ".pdf") in
  ex <- path_exists expected ;;
  if ex then ret expected
  else
    fun w =>
      let pdfs := sorted_desc (fun p => fs_mtime p (w_fs w))
                              (glob_pdf out_dir (w_fs w)) in
      match pdfs with
      | [] => (Raise (RuntimeError no_pdf_msg), w)
      | p :: _ => (Ok p, w)
      end.

(** bot.py, lines 112-145 *)
Definition convert_office_to_pdf (input_path out_dir : Path) (timeout_sec : Z)
  : M Path :=
  soffice <- find_soffice ;;
  match soffice with
  | Some (c :: t) =>
      let soffice := c :: t in
      let cmd := soffice_cmd soffice input_path out_dir in
      subprocess_run cmd timeout_sec ;;
      discover_output input_path out_dir
  | _ => raise (RuntimeError not_found_msg)
  end.

(** bot.py, lines 147-169.  The last test of the source is
    [ext in OFFICE_EXTS or True]; a call that fell through it would hand
    [None] to the caller, whose [open] raises [TypeError]. *)
Definition convert_to_pdf (input_path work_dir : Path) : M Path :=
  let ext := lower (suffix input_path) in
  let pdf_path := joinpath work_dir (lit "output.pdf") in
  if bool_decide (ext = lit ".pdf") then
    copyfile input_path pdf_path ;; ret pdf_path
  else if mem ext IMAGE_EXTS then
    convert_image_to_pdf input_path pdf_path ;; ret pdf_path
  else if mem ext TEXT_EXTS then
    convert_text_to_pdf input_path pdf_path ;; ret pdf_path
  else if mem ext OFFICE_EXTS || true then
    out_pdf <- convert_office_to_pdf input_path work_dir default_timeout_sec ;;
    copyfile out_pdf pdf_path ;; ret pdf_path
  else raise TypeError.

(** bot.py, lines 171-176 *)
Definition start : M state :=
  reply_text TxtWelcome ;; ret WAIT_FILE.

(** bot.py, lines 178-181 *)
Definition cancel : M state :=
  user_data_clear ;;
  reply_text TxtCancelled ;;
  ret END.

(** bot.py, lines 188-205: the file id, the name and the declared size
    of the upload carried by the message, a document before a photo. *)
Definition upload_of (msg : Message) : option (str * str * option Z) :=
  match msg_document msg with
  | Some doc =>
      Some (doc_file_id doc, str_or (doc_file_name doc) (lit "file"),
            doc_file_size doc)
  | None =>
      match last (msg_photo msg) with
      | Some photo =>
          Some (photo_file_id photo, lit "photo.jpg", photo_file_size photo)
      | None => None
      end
  end.

(** bot.py, lines 215-237: the workspace, the download and the prompt for
    a name. *)
Definition accept_upload (file_id original_name : str) : M state :=
  work_dir <- mkdtemp (lit "tg_pdf_") ;;
  let input_path := joinpath work_dir original_name in
  early <-
    try_except
      (match host_download host file_id with
       | None => raise TelegramError
       | Some data => write_bytes input_path data
       end ;;
       ret None)
      (fun e =>
         rmtree work_dir ;;
         reply_text (TxtDownloadFailed e) ;;
         ret (Some WAIT_FILE)) ;;
  match early with
  | Some s => ret s
  | None =>
      user_data_set "work_dir" (str_of_path work_dir) ;;
      user_data_set "input_path" (str_of_path input_path) ;;
      let suggested :=
        sanitize_filename (stem (path_of_str original_name)) default_max_len in
      reply_text (TxtGotIt suggested) ;;
      ret WAIT_NAME
  end.

(** bot.py, lines 183-237 *)
Definition receive_file (msg : Message) : M state :=
  match upload_of msg with
  | None => reply_text TxtSendDocumentOrPhoto ;; ret WAIT_FILE
  | Some (file_id, original_name, file_size) =>
      if looks_too_big file_size then
        reply_text TxtTooBig ;; ret WAIT_FILE
      else accept_upload file_id original_name
  end.

(** The [except] clauses of bot.py, lines 262-270. *)
Definition conversion_failed (e : exn) : M unit :=
  match e with
  | TimeoutExpired _ _ => reply_text TxtTimedOut
  | CalledProcessError _ _ _ => reply_text (TxtLibreOfficeFailed e)
  | _ => reply_text (TxtConversionFailed e)
  end.

(** bot.py, lines 239-276 *)
Definition receive_name_and_convert (msg : Message) : M state :=
  let desired := sanitize_filename (str_or (msg_text msg) []) default_max_len in
  wd <- user_data_get "work_dir" ;;
  ip <- user_data_get "input_path" ;;
  let work_dir := path_of_str wd in
  let input_path := path_of_str ip in
  wd_exists <- path_exists work_dir ;;
  ip_exists <- path_exists input_path ;;
  if negb wd_exists || negb ip_exists then
    reply_text TxtLostContext ;;
    user_data_clear ;;
    ret END
  else
    reply_text TxtConverting ;;
    try_finally
      (try_except
         (pdf_path <- convert_to_pdf input_path work_dir ;;
          let out_name := desired ++ lit ".pdf" in
          f <- read_bytes pdf_path ;;
          reply_document out_name f ;;
          reply_text TxtDone)
         conversion_failed)
      (user_data_clear ;; rmtree work_dir) ;;
    ret END.

(** The messages that [filters.Document.ALL | filters.PHOTO] lets through. *)
Definition is_upload (m : Message) : bool :=
  match msg_document m, msg_photo m with
  | None, [] => false
  | _, _ => true
  end.

(** The messages that [filters.TEXT & ~filters.COMMAND] lets through.  A
    command is read as a text that starts with "/"; Telegram marks a
    command by an entity, which a text such as "/ report" does not
    carry. *)
Definition is_plain_text (m : Message) : bool :=
  match msg_text m with
  | Some (c :: _) => negb (c =? 47)%N
  | _ => false
  end.

(** The handler table of bot.py, lines 285-296: the handlers of the
    current state first, then the entry point (re-entry is allowed), then
    the fallback; outside a conversation the entry point and the
    stand-alone [cancel] handler.  An update nobody handles leaves the
    state as it is. *)
Definition dispatch (s : state) (u : Update) : M state :=
  match s, u with
  | WAIT_FILE, Incoming m => if is_upload m then receive_file m else ret s
  | WAIT_NAME, Incoming m =>
      if is_plain_text m then receive_name_and_convert m else ret s
  | END, Incoming _ => ret s
  | _, CmdStart => start
  | _, CmdCancel => cancel
  end.

(** One update: a handler that raises leaves the conversation where it
    was. *)
Definition handle (s : state) (u : Update) (w : World) : state * World :=
  match dispatch s u w with
  | (Ok s', w') => (s', w')
  | (Raise _, w') => (s, w')
  end.

Fixpoint run (s : state) (us : list Update) (w : World) : state * World :=
  match us with
  | [] => (s, w)
  | u :: rest => let '(s', w') := handle s u w in run s' rest w'
  end.

End Bot.

(** The time and the data of the last write to [q] among [ws], the first
    of which happens at time [k]. *)
Fixpoint last_write (q : Path) (ws : list (Path * bytes)) (k : nat)
  : option (bytes * nat) :=
  match ws with
  | [] => None
  | (p, data) :: t =>
      match last_write q t (S k) with
      | Some r => Some r
      | None => if bool_decide (p = q) then Some (data, k) else None
      end
  end.

(** Every reply that [m] sends satisfies [P]. *)
Definition says (P : Reply -> Prop) {A} (m : M A) : Prop :=
  forall w, exists rs,
    w_sent (snd (m w)) = w_sent w ++ rs /\ Forall P rs.

(** No child of the bot is running. *)
Definition none_running (w : World) : Prop :=
  Forall (fun p => snd p <> Running) (w_procs w).

(* ===================================================================== *)
(** ** Concrete hosts and worlds *)
(* ===================================================================== *)

Module Scenario.

Definition tmp : Path := [lit "/"; lit "tmp"].
Definition job : Path := tmp ++ [lit "tg_pdf_0"].
Definition pdf_magic : bytes := lit "%PDF".

(** A host without an office engine. *)
Definition bare_host : Host :=
  mkHost (fun _ _ => mkBehaviour 0 [] 0 [])
         (fun _ => None)
         [lit "/"; lit "home"; lit "bot"]
         tmp
         (fun _ img => match img with [] => None | _ => Some (pdf_magic ++ img) end)
         (fun _ text => pdf_magic ++ text)
         (fun _ => Some (lit "hello")).

(** A host whose engine takes [secs] seconds and then writes the files
    [outs] into the job directory. *)
Definition office_host (secs : Z) (outs : list (str * bytes)) : Host :=
  mkHost (fun _ _ =>
            mkBehaviour secs (List.map (fun o => (job ++ [fst o], snd o)) outs) 0 [])
         (fun n => if bool_decide (n = lit "soffice")
                   then Some (lit "/usr/bin/soffice") else None)
         [lit "/"; lit "home"; lit "bot"]
         tmp
         (fun _ img => match img with [] => None | _ => Some (pdf_magic ++ img) end)
         (fun _ text => pdf_magic ++ text)
         (fun _ => Some (lit "hello")).

(** A host without an office engine whose two encoders write the time of
    the call into the PDF, as img2pdf and reportlab do when called as the
    code calls them. *)
Definition dating_host : Host :=
  mkHost (fun _ _ => mkBehaviour 0 [] 0 [])
         (fun _ => None)
         [lit "/"; lit "home"; lit "bot"]
         tmp
         (fun now img =>
            match img with
            | [] => None
            | _ => Some (pdf_magic ++ [N.of_nat now] ++ img)
            end)
         (fun now text => pdf_magic ++ [N.of_nat now] ++ text)
         (fun _ => Some (lit "hello")).

Definition dir_node : node := Node true [] 0.

(** The process runs in a directory that holds one file of its own. *)
Definition base_fs : FS :=
  [([], dir_node); (tmp, dir_node); ([lit "bot.py"], Node false (lit "import") 0)].

Definition fresh_world : World := mkWorld base_fs 1 [] [] [] ∅ 0.

(** A world in which the job directory holds the single file [name]. *)
Definition job_world (name : string) (data : bytes) : World :=
  mkWorld (base_fs ++ [(job, Node true [] 1); (job ++ [lit name], Node false data 2)])
          3 [] [] [] ∅ 1.

(** The same, with a transport that delivers two replies and loses the
    third. *)
Definition flaky_world : World := mkWorld base_fs 1 [] [] [true; true; false] ∅ 0.

Definition document (name : string) (size : option Z) : Message :=
  mkMessage (Some (mkDocument (lit "file-1") (Some (lit name)) size)) [] None.

Definition text (s : string) : Message := mkMessage None [] (Some (lit s)).

End Scenario.

Definition double_space (s : str) : Prop :=
  exists a b, s = a ++ 32%N :: 32%N :: b.

Definition safe_name (s : str) : Prop :=
  s <> [] /\ Forall clean s /\ head s <> Some 32%N /\ last s <> Some 32%N /\
  ~ double_space s.
(** The same, as a test. *)
Fixpoint has_double_space (s : str) : bool :=
  match s with
  | a :: t =>
      match t with
      | b :: _ => ((a =? 32)%N && (b =? 32)%N) || has_double_space t
      | [] => false
      end
  | [] => false
  end.

(* ===================================================================== *)
(** ** The drawing loop of the text backend (bot.py, lines 80-101) *)
(* ===================================================================== *)

(** The line boundaries of [str.splitlines]. *)
Definition is_linebreak (c : N) : bool :=
  ((10 <=? c) && (c <=? 13) || (28 <=? c) && (c <=? 30) ||
   (c =? 133) || (c =? 8232) || (c =? 8233))%N.

(** [s.splitlines()], with [cur] the line being read, last character
    first.  A carriage return followed by a line feed is one boundary, and
    a boundary at the very end opens no further line. *)
Fixpoint splitlines_from (cur : str) (s : str) : list str :=
  match s with
  | [] => match cur with [] => [] | _ => [rev cur] end
  | c :: t =>
      if is_linebreak c then
        rev cur ::
        (if (c =? 13)%N then
           match t with
           | c' :: t' =>
               if (c' =? 10)%N then splitlines_from [] t' else splitlines_from [] t
           | [] => splitlines_from [] t
           end
         else splitlines_from [] t)
      else splitlines_from (c :: cur) t
  end.

Definition not_linebreak (c : N) : bool := negb (is_linebreak c).

Definition splitlines (s : str) : list str := splitlines_from [] s.

Fixpoint lstrip_newline (s : str) : str :=
  match s with
  | c :: t => if (c =? 10)%N then lstrip_newline t else s
  | [] => []
  end.

(** [s.rstrip("\n")] *)
Definition rstrip_newline (s : str) : str := rev (lstrip_newline (rev s)).

Definition max_chars_per_line : nat := 95.

Section TextLayout.

(** The vertical cursor [y] of the loop: where it starts on a page
    ([height - margin]), how one line moves it ([y -= line_height]) and
    the test for the bottom margin ([y < margin]). *)
Variable Cursor : Type.
Variable top : Cursor.
Variable down : Cursor -> Cursor.
Variable below : Cursor -> bool.

(** The calls made on the canvas; [drawString] is always called with
    [margin] for its first argument. *)
Inductive Draw :=
| DrawString (y : Cursor) (s : str)
| ShowPage.

(** [y -= line_height; if y < margin: c.showPage(); y = height - margin] *)
Definition advance (y : Cursor) : list Draw * Cursor :=
  let y' := down y in
  if below y' then ([ShowPage], top) else ([], y').

(** One pass of the [for] loop for one line, the [while] loop running at
    most [fuel] times. *)
Fixpoint draw_line_fuel (fuel : nat) (line : str) (y : Cursor)
  : list Draw * Cursor :=
  if (max_chars_per_line <? length line)%nat then
    match fuel with
    | O => ([], y)
    | S fuel' =>
        let '(brk, y1) := advance y in
        let '(ops, y2) :=
          draw_line_fuel fuel' (drop max_chars_per_line line) y1 in
        (DrawString y (take max_chars_per_line line) :: brk ++ ops, y2)
    end
  else
    let '(brk, y1) := advance y in
    (DrawString y line :: brk, y1).

(** Every turn of the [while] loop shortens the line, so its length is
    fuel enough. *)
Definition draw_line (line : str) (y : Cursor) : list Draw * Cursor :=
  draw_line_fuel (length line) line y.

Fixpoint draw_lines (lines : list str) (y : Cursor) : list Draw * Cursor :=
  match lines with
  | [] => ([], y)
  | raw_line :: rest =>
      let '(ops, y1) := draw_line (rstrip_newline raw_line) y in
      let '(ops', y2) := draw_lines rest y1 in
      (ops ++ ops', y2)
  end.

(** The calls made for a text, up to [c.save()]. *)
Definition draw_text (text : str) : list Draw :=
  fst (draw_lines (splitlines text) top).

(** The strings drawn, in order, and the number of page breaks. *)
Fixpoint strings (ops : list Draw) : list str :=
  match ops with
  | [] => []
  | DrawString _ s :: t => s :: strings t
  | ShowPage :: t => strings t
  end.

Fixpoint positions (ops : list Draw) : list Cursor :=
  match ops with
  | [] => []
  | DrawString y _ :: t => y :: positions t
  | ShowPage :: t => positions t
  end.

Fixpoint page_breaks (ops : list Draw) : nat :=
  match ops with
  | [] => O
  | DrawString _ _ :: t => page_breaks t
  | ShowPage :: t => S (page_breaks t)
  end.

End TextLayout.

Arguments DrawString {Cursor} y s.
Arguments ShowPage {Cursor}.
Arguments strings {Cursor} ops.
Arguments positions {Cursor} ops.
Arguments page_breaks {Cursor} ops.

(** The cursor in exact arithmetic.  A4 is 297 mm high and a point is 1/72
    inch, so the page is 297 * 72 / 25.4 = 106920 / 127 points high; in
    units of 1/127 point the margin of 50 points is 6350 and the line
    height of 14 points is 1778.  (The source computes in binary floating
    point; the cursor is never closer than a tenth of a point to the margin
    it is compared with.) *)
Definition a4_height : Z := 106920%Z.
Definition margin : Z := 6350%Z.
Definition line_height : Z := 1778%Z.

Definition draw_text_exact (text : str) : list (Draw Z) :=
  draw_text Z (a4_height - margin)%Z (fun y => y - line_height)%Z
            (fun y => y <? margin)%Z text.

(** The height of the cursor for the line of index [k] of a page. *)
Definition cursor_at (k : nat) : Z :=
  (a4_height - margin - line_height * Z.of_nat k)%Z.

Definition lines_per_page : nat := 53.

(** The calls [ops], made with [j] lines already on the page, break the
    page after every 53rd line and leave the cursor at [y']. *)
Definition paged (j : nat) (ops : list (Draw Z)) (y' : Z) : Prop :=
  let n := length (strings ops) in
  page_breaks ops = ((j + n) / lines_per_page)%nat /\
  y' = cursor_at ((j + n) mod lines_per_page) /\
  positions ops =
  List.map (fun i => cursor_at ((j + i) mod lines_per_page)) (seq 0 n).

(** [shutil.which(name)], read as the test [if p:] reads it. *)
Definition on_path (host : Host) (name : string) : option str :=
  match host_which host (lit name) with
  | Some (c :: t) => Some (c :: t)
  | _ => None
  end.

(** A part as [Path(...)] leaves it: not empty, not ".", without "/". *)
Definition wf_part (s : str) : Prop :=
  s <> [] /\ s <> lit "." /\ ~ In 47%N s.

Definition keep_part (p : str) : bool :=
  negb (bool_decide (p = []) || bool_decide (p = lit ".")).

(** The directory that [mkdtemp] makes next. *)
Definition next_tmp (host : Host) (w : World) : Path :=
  host_tmpdir host ++
  [lit "tg_pdf_" ++ lit (NilEmpty.string_of_uint (Nat.to_uint (w_tmp w)))].

(** bot.py, lines 223-226: what the file step does when the download
    raises. *)
Definition download_failed (d : Path) (e : exn) : M (option state) :=
  rmtree d ;; reply_text (TxtDownloadFailed e) ;; ret (Some WAIT_FILE).

(** bot.py, lines 228-237: what the file step does after the download. *)
Definition download_done (d input_path : Path) (original_name : str) : M state :=
  user_data_set "work_dir" (str_of_path d) ;;
  user_data_set "input_path" (str_of_path input_path) ;;
  reply_text (TxtGotIt (sanitize_filename (stem (path_of_str original_name))
                          default_max_len)) ;;
  ret WAIT_NAME.

(** [m] leaves the directory [d] a directory. *)
Definition keeps_dir (d : Path) {A} (m : M A) : Prop :=
  forall w, fs_is_dir d (w_fs w) = true -> fs_is_dir d (w_fs (snd (m w))) = true.

(** No child process ever writes to the path [d] itself. *)
Definition spares (host : Host) (d : Path) : Prop :=
  forall cmd fs, ~ In d (List.map fst (b_writes (host_exec host cmd fs))).

(** A reply that is no document, or a document whose file name is a
    non-empty stem of at most 64 allowed characters followed by ".pdf". *)
Definition safely_named (r : Reply) : Prop :=
  match r with
  | ReplyText _ => True
  | ReplyDocument filename _ =>
      exists stem : str,
        filename = stem ++ lit ".pdf" /\ stem <> [] /\
        (Z.of_nat (length stem) <= 64)%Z /\ Forall clean stem
  end.

Module Faults.

(** A host whose engine is found and ends at once with code 77, having
    written nothing but a complaint. *)
Definition crashing_host : Host :=
  mkHost (fun _ _ => mkBehaviour 1 [] 77 (lit "boom"))
         (fun n => if bool_decide (n = lit "soffice")
                   then Some (lit "/usr/bin/soffice") else None)
         [lit "/"; lit "home"; lit "bot"]
         Scenario.tmp
         (fun _ _ => None)
         (fun _ text => Scenario.pdf_magic ++ text)
         (fun _ => Some (lit "hello")).

(** The world that the file step leaves after the upload of "notes.txt". *)
Definition pending_world : World :=
  snd (receive_file Scenario.bare_host (Scenario.document "notes.txt" None)
         Scenario.fresh_world).

End Faults.

(* ===================================================================== *)
(** * Properties *)
(* ===================================================================== *)

Local Open Scope py_scope.

(** ** The name sanitizer *)

Section Sanitizer.

Variable P : N -> Prop.

Lemma lstrip_Forall (s : str) : Forall P s -> Forall P (lstrip s).
Proof.
  induction 1 as [|c t Hc Ht IH]; simpl; [constructor|].
  destruct (isspace c); auto.
Qed.

Lemma strip_Forall (s : str) : Forall P s -> Forall P (strip s).
Proof.
  intros H. unfold strip, rstrip.
  apply Forall_rev, lstrip_Forall, Forall_rev, lstrip_Forall, H.
Qed.

Lemma slice_to_Forall (s : str) (n : Z) : Forall P s -> Forall P (slice_to s n).
Proof. intros H. unfold slice_to. destruct (0 <=? n)%Z; apply Forall_take, H. Qed.

Lemma sub_runs_Forall (cls : N -> bool) (rep : N) (b : bool) (s : str) :
  P rep -> (forall c, cls c = false -> P c) ->
  Forall P (sub_runs cls rep b s).
Proof.
  intros Hrep Hkeep. revert b.
  induction s as [|c t IH]; intros b; simpl; [constructor|].
  destruct (cls c) eqn:E.
  - destruct b; [apply IH | constructor; [exact Hrep | apply IH]].
  - constructor; [apply Hkeep, E | apply IH].
Qed.

Lemma sub_runs_Forall_keep (cls : N -> bool) (rep : N) (b : bool) (s : str) :
  P rep -> Forall P s -> Forall P (sub_runs cls rep b s).
Proof.
  intros Hrep H. revert b.
  induction H as [|c t Hc Ht IH]; intros b; simpl; [constructor|].
  destruct (cls c).
  - destruct b; [apply IH | constructor; [exact Hrep | apply IH]].
  - constructor; [exact Hc | apply IH].
Qed.

End Sanitizer.

Lemma converted_clean : Forall clean (lit "converted").
Proof. repeat constructor. Qed.

Lemma sanitize_filename_clean (s : str) (max_len : Z) :
  Forall clean (sanitize_filename s max_len).
Proof.
  unfold sanitize_filename.
  case_bool_decide; [apply converted_clean|].
  apply slice_to_Forall.
  case_bool_decide; [apply converted_clean|].
  apply strip_Forall, sub_runs_Forall_keep; [reflexivity|].
  apply sub_runs_Forall; [reflexivity|].
  intros c Hc. unfold clean. destruct (allowed c); [reflexivity | discriminate].
Qed.

Lemma slice_to_length (s : str) (n : Z) :
  (0 <= n)%Z -> (length (slice_to s n) <= Z.to_nat n)%nat.
Proof.
  intros Hn. unfold slice_to.
  destruct (Z.leb_spec 0 n); [|lia]. rewrite length_take. lia.
Qed.

Lemma slice_to_nonempty (s : str) (n : Z) :
  (0 < n)%Z -> s <> [] -> slice_to s n <> [].
Proof.
  intros Hn Hs. unfold slice_to.
  destruct (Z.leb_spec 0 n); [|lia].
  destruct s as [|c t]; [congruence|].
  destruct (Z.to_nat n) eqn:E; [lia|]. simpl. congruence.
Qed.

Lemma sanitize_filename_nonempty (s : str) (max_len : Z) :
  (0 < max_len)%Z -> sanitize_filename s max_len <> [].
Proof.
  intros Hn. unfold sanitize_filename.
  case_bool_decide; [discriminate|].
  apply slice_to_nonempty; [exact Hn|].
  case_bool_decide; [discriminate | assumption].
Qed.

Lemma sanitize_filename_length (s : str) (max_len : Z) :
  (9 <= max_len)%Z -> (length (sanitize_filename s max_len) <= Z.to_nat max_len)%nat.
Proof.
  intros Hn. unfold sanitize_filename.
  case_bool_decide; [simpl; lia|].
  apply slice_to_length. lia.
Qed.

(** C6.  For every text [s], [sanitize_filename s] with the default bound of
    64 is a value (the function is total), it is not empty, it has at most
    64 characters, and each of its characters is a letter, a digit, a
    space, an underscore or a hyphen; an empty or all-blank [s], and an
    [s] that is nothing but ".pdf", give "converted". *)
Theorem sanitize_filename_safe (s : str) :
  sanitize_filename s default_max_len <> [] /\
  (length (sanitize_filename s default_max_len) <= 64)%nat /\
  Forall (fun c => allowed c = true) (sanitize_filename s default_max_len) /\
  (strip s = [] \/ is_dot_pdf (strip s) = true ->
   sanitize_filename s default_max_len = lit "converted").
Proof.
  split; [apply sanitize_filename_nonempty; reflexivity|].
  split; [apply (sanitize_filename_length s 64); lia|].
  split; [apply sanitize_filename_clean|].
  intros [H|H]; unfold sanitize_filename.
  - rewrite H. reflexivity.
  - destruct (strip s) as [|a [|b [|c [|d [|e t]]]]]; try discriminate H.
    unfold sub_pdf_suffix. cbn [length Nat.sub drop take]. rewrite H.
    reflexivity.
Qed.

Lemma sanitize_filename_safe_witness :
  sanitize_filename (lit "  .PDF ") default_max_len = lit "converted".
Proof.
  apply (proj2 (proj2 (proj2 (sanitize_filename_safe (lit "  .PDF "))))).
  right. vm_compute. reflexivity.
Defined.

Example sanitize_report : sanitize_filename (lit "Report.PDF") 64 = lit "Report".
Proof. vm_compute. reflexivity. Qed.

Example sanitize_adversarial :
  sanitize_filename ([9%N] ++ lit "../etc/pass wd" ++ [0%N; 233%N; 128512%N; 10%N]) 64
  = lit "_etc_pass wd_".
Proof. vm_compute. reflexivity. Qed.

(** Outside the default: a bound of zero gives the empty string, and the
    early return for blank input is not truncated. *)
Example sanitize_zero_bound : sanitize_filename (lit "abc") 0 = [].
Proof. vm_compute. reflexivity. Qed.

Example sanitize_blank_small_bound : sanitize_filename (lit "  ") 3 = lit "converted".
Proof. vm_compute. reflexivity. Qed.

(** ** The format classifier *)

Lemma mem_true (x : str) (S : list str) : mem x S = true <-> x ∈ S.
Proof. unfold mem. apply bool_decide_eq_true. Qed.

Lemma mem_false (x : str) (S : list str) : mem x S = false <-> x ∉ S.
Proof. unfold mem. apply bool_decide_eq_false. Qed.

(** The dispatcher takes the arm that [classify] names. *)
Lemma convert_to_pdf_arms (host : Host) (input_path work_dir : Path) :
  convert_to_pdf host input_path work_dir =
  let pdf_path := joinpath work_dir (lit "output.pdf") in
  match classify (lower (suffix input_path)) with
  | PassThrough => copyfile input_path pdf_path ;; ret pdf_path
  | Image => convert_image_to_pdf host input_path pdf_path ;; ret pdf_path
  | PlainText => convert_text_to_pdf host input_path pdf_path ;; ret pdf_path
  | OfficeSuite =>
      out_pdf <- convert_office_to_pdf host input_path work_dir default_timeout_sec ;;
      copyfile out_pdf pdf_path ;; ret pdf_path
  end.
Proof.
  unfold convert_to_pdf, classify.
  case_bool_decide; [reflexivity|].
  destruct (mem _ IMAGE_EXTS); [reflexivity|].
  destruct (mem _ TEXT_EXTS); [reflexivity|].
  rewrite orb_true_r. reflexivity.
Qed.

(** C9.  The classifier sends ".pdf" to the pass-through arm, every
    extension of the image set (".png" among them) to the image arm, every
    extension of the text set (".txt" among them) to the text arm, and
    every other extension (".docx", the unknown ".xyz") to the office
    engine; and this is the choice the dispatcher makes: on every input
    [convert_to_pdf] is the backend of the arm that the classifier names
    for the lower-cased extension of the input, for each of the four
    arms. *)
Theorem classify_table :
  classify (lit ".pdf") = PassThrough /\
  (forall e, e ∈ IMAGE_EXTS -> classify e = Image) /\
  classify (lit ".png") = Image /\
  (forall e, e ∈ TEXT_EXTS -> classify e = PlainText) /\
  classify (lit ".txt") = PlainText /\
  (forall e, e <> lit ".pdf" -> e ∉ IMAGE_EXTS -> e ∉ TEXT_EXTS ->
             classify e = OfficeSuite) /\
  classify (lit ".docx") = OfficeSuite /\
  classify (lit ".xyz") = OfficeSuite /\
  (forall host input_path work_dir,
     convert_to_pdf host input_path work_dir =
     let pdf_path := joinpath work_dir (lit "output.pdf") in
     match classify (lower (suffix input_path)) with
     | PassThrough => copyfile input_path pdf_path ;; ret pdf_path
     | Image => convert_image_to_pdf host input_path pdf_path ;; ret pdf_path
     | PlainText => convert_text_to_pdf host input_path pdf_path ;; ret pdf_path
     | OfficeSuite =>
         out_pdf <- convert_office_to_pdf host input_path work_dir
                      default_timeout_sec ;;
         copyfile out_pdf pdf_path ;; ret pdf_path
     end).
Proof.
  split; [reflexivity|].
  split.
  { intros e He. unfold classify.
    case_bool_decide as Hpdf.
    - subst e. apply mem_true in He. discriminate He.
    - apply mem_true in He. rewrite He. reflexivity. }
  split; [reflexivity|].
  split.
  { intros e He. unfold classify.
    case_bool_decide as Hpdf.
    - subst e. apply mem_true in He. discriminate He.
    - destruct (mem e IMAGE_EXTS) eqn:Hi.
      + apply mem_true in Hi.
        assert (Hall : Forall (fun x => x ∉ IMAGE_EXTS) TEXT_EXTS).
        { repeat constructor; apply mem_false; reflexivity. }
        rewrite Forall_forall in Hall. destruct (Hall e He Hi).
      + apply mem_true in He. rewrite He. reflexivity. }
  split; [reflexivity|].
  split.
  { intros e Hpdf Hi Ht. unfold classify.
    rewrite bool_decide_eq_false_2 by exact Hpdf.
    apply mem_false in Hi, Ht. rewrite Hi, Ht. reflexivity. }
  split; [reflexivity|].
  split; [reflexivity|].
  intros host input_path work_dir.
  unfold convert_to_pdf, classify.
  case_bool_decide; [reflexivity|].
  destruct (mem _ IMAGE_EXTS); [reflexivity|].
  destruct (mem _ TEXT_EXTS); [reflexivity|].
  rewrite orb_true_r. reflexivity.
Qed.

Lemma classify_table_witness :
  classify (lit ".jpeg") = Image /\ classify (lit ".csv") = PlainText /\
  classify (lit ".tar") = OfficeSuite /\
  convert_to_pdf Scenario.bare_host (Scenario.job ++ [lit "Scan.JPEG"]) Scenario.job
  = (convert_image_to_pdf Scenario.bare_host (Scenario.job ++ [lit "Scan.JPEG"])
       (Scenario.job ++ [lit "output.pdf"]) ;;
     ret (Scenario.job ++ [lit "output.pdf"])).
Proof.
  destruct classify_table as (_ & Himg & _ & Htxt & _ & Hoff & _ & _ & Harms).
  split; [apply Himg; apply mem_true; reflexivity|].
  split; [apply Htxt; apply mem_true; reflexivity|].
  split; [apply Hoff; [discriminate | apply mem_false; reflexivity
                      | apply mem_false; reflexivity]|].
  exact (Harms Scenario.bare_host (Scenario.job ++ [lit "Scan.JPEG"]) Scenario.job).
Defined.

(** ** The file system *)

Lemma fs_lookup_put (p q : Path) (nd : node) (fs : FS) :
  fs_lookup q (fs_put p nd fs) =
  if bool_decide (p = q) then Some nd else fs_lookup q fs.
Proof.
  induction fs as [|[r old] t IH]; simpl.
  - repeat case_bool_decide; congruence.
  - destruct (decide (r = p)) as [->|Hrp].
    + rewrite bool_decide_eq_true_2 by reflexivity. simpl.
      case_bool_decide; reflexivity.
    + rewrite bool_decide_eq_false_2 by exact Hrp. simpl.
      rewrite IH. repeat case_bool_decide; congruence.
Qed.

Lemma fs_lookup_put_eq (p : Path) (nd : node) (fs : FS) :
  fs_lookup p (fs_put p nd fs) = Some nd.
Proof. rewrite fs_lookup_put, bool_decide_eq_true_2; reflexivity. Qed.

Lemma fs_lookup_put_ne (p q : Path) (nd : node) (fs : FS) :
  p <> q -> fs_lookup q (fs_put p nd fs) = fs_lookup q fs.
Proof. intros H. rewrite fs_lookup_put, bool_decide_eq_false_2; auto. Qed.

Lemma fs_lookup_In (p : Path) (fs : FS) :
  fs_lookup p fs <> None <-> exists nd, In (p, nd) fs.
Proof.
  induction fs as [|[q old] t IH]; simpl.
  - split; [congruence | intros [? []]].
  - case_bool_decide as E.
    + subst q. split; [eauto | congruence].
    + rewrite IH. split; intros [nd H]; exists nd; [auto|].
      destruct H as [H|H]; [congruence | exact H].
Qed.

Lemma fs_remove_tree_lookup (d p : Path) (fs : FS) :
  within d p = true -> p <> [] -> fs_lookup p (fs_remove_tree d fs) = None.
Proof.
  intros Hin Hp.
  destruct (fs_lookup p (fs_remove_tree d fs)) eqn:E; [|reflexivity].
  assert (H : fs_lookup p (fs_remove_tree d fs) <> None) by congruence.
  apply fs_lookup_In in H. destruct H as [nd H].
  unfold fs_remove_tree in H. apply filter_In in H. destruct H as [_ H].
  simpl in H. rewrite Hin in H. simpl in H.
  apply bool_decide_eq_true in H. contradiction.
Qed.

Lemma within_refl (d : Path) : d <> [] -> within d d = true.
Proof.
  intros H. unfold within. rewrite firstn_all.
  rewrite bool_decide_eq_true_2 by reflexivity.
  rewrite (bool_decide_eq_false_2 (d = [])) by exact H. reflexivity.
Qed.

(** ** The backend locator and the missing engine *)

Lemma find_soffice_pure (host : Host) (w : World) :
  snd (find_soffice host w) = w.
Proof.
  unfold find_soffice.
  destruct (host_which host (lit "soffice")) as [[|c t]|];
    destruct (host_which host (lit "libreoffice")) as [[|c' t']|]; reflexivity.
Qed.

Lemma find_soffice_eq (host : Host) (w : World) (r : option str) :
  fst (find_soffice host w) = Ok r -> find_soffice host w = (Ok r, w).
Proof.
  intros H. rewrite (surjective_pairing (find_soffice host w)).
  rewrite H, find_soffice_pure. reflexivity.
Qed.

Lemma str_of_path_nonempty (p : Path) (x : str) :
  x <> [] -> str_of_path (p ++ [x]) <> [].
Proof.
  intros Hx. destruct p as [|r t]; simpl.
  - case_bool_decide; [discriminate | exact Hx].
  - case_bool_decide as Hroot; [discriminate|].
    destruct (t ++ [x]) eqn:E; [destruct t; discriminate|].
    intros Hnil. apply app_eq_nil in Hnil. destruct Hnil as [_ Hnil].
    discriminate.
Qed.

(** The locator answers with a path that is not the empty string, or with
    [None]. *)
Lemma find_soffice_nonempty (host : Host) (w : World) (soffice : str) :
  fst (find_soffice host w) = Ok (Some soffice) -> soffice <> [].
Proof.
  unfold find_soffice.
  assert (Hmac : forall cs, Forall (fun c => c <> []) cs ->
                            first_existing cs (w_fs w) = Some soffice ->
                            soffice <> []).
  { induction 1 as [|c cs Hc Hcs IH]; simpl; [discriminate|].
    destruct (fs_exists (path_of_str c) (w_fs w)); [congruence | exact IH]. }
  assert (Hcands : Forall (fun c => c <> []) (mac_candidates host)).
  { unfold mac_candidates. constructor; [discriminate|].
    constructor; [|constructor].
    change (joinpath (host_home host)
              (lit "Applications/LibreOffice.app/Contents/MacOS/soffice"))
      with (host_home host ++
            ([lit "Applications"; lit "LibreOffice.app"; lit "Contents"; lit "MacOS"]
             ++ [lit "soffice"])).
    rewrite app_assoc. apply str_of_path_nonempty. discriminate. }
  destruct (host_which host (lit "soffice")) as [[|c t]|];
    destruct (host_which host (lit "libreoffice")) as [[|c' t']|]; simpl;
    try (intros [= <-]; discriminate); intros [= H]; exact (Hmac _ Hcands H).
Qed.

(** C5.  When the locator finds no office engine, the office backend
    fails with the "LibreOffice not found" error and leaves the world as
    it was, so no process has been started; the dispatcher passes the
    error on for every input that goes to the office arm, a ".docx" file
    for one. *)
Theorem engine_not_found (host : Host) (input_path work_dir : Path) (w : World) :
  fst (find_soffice host w) = Ok None ->
  (forall timeout_sec,
     convert_office_to_pdf host input_path work_dir timeout_sec w =
     (Raise (RuntimeError not_found_msg), w)) /\
  (classify (lower (suffix input_path)) = OfficeSuite ->
   convert_to_pdf host input_path work_dir w =
   (Raise (RuntimeError not_found_msg), w)) /\
  (lower (suffix input_path) = lit ".docx" ->
   convert_to_pdf host input_path work_dir w =
   (Raise (RuntimeError not_found_msg), w) /\
   w_procs (snd (convert_to_pdf host input_path work_dir w)) = w_procs w).
Proof.
  intros Hloc. apply find_soffice_eq in Hloc.
  assert (Hoffice : forall t,
            convert_office_to_pdf host input_path work_dir t w =
            (Raise (RuntimeError not_found_msg), w)).
  { intros t. unfold convert_office_to_pdf, bind. rewrite Hloc. reflexivity. }
  assert (Hconv : classify (lower (suffix input_path)) = OfficeSuite ->
                  convert_to_pdf host input_path work_dir w =
                  (Raise (RuntimeError not_found_msg), w)).
  { intros Hc. rewrite convert_to_pdf_arms. cbv zeta. rewrite Hc.
    unfold bind at 1. rewrite Hoffice. reflexivity. }
  split; [exact Hoffice|]. split; [exact Hconv|].
  intros Hext.
  assert (Hc : classify (lower (suffix input_path)) = OfficeSuite)
    by (rewrite Hext; reflexivity).
  rewrite (Hconv Hc). split; reflexivity.
Qed.

Lemma engine_not_found_witness :
  convert_to_pdf Scenario.bare_host
    (Scenario.job ++ [lit "letter.docx"]) Scenario.job
    (Scenario.job_world "letter.docx" (lit "dear"))
  = (Raise (RuntimeError not_found_msg),
     Scenario.job_world "letter.docx" (lit "dear")).
Proof.
  apply (engine_not_found Scenario.bare_host
           (Scenario.job ++ [lit "letter.docx"]) Scenario.job
           (Scenario.job_world "letter.docx" (lit "dear"))).
  - vm_compute. reflexivity.
  - vm_compute. reflexivity.
Defined.

(** ** The office backend under a timeout *)

(** C4.  An office conversion whose engine needs more than the timeout
    raises exactly [TimeoutExpired]: the child is recorded as killed, so
    that no child is running afterwards, the dispatcher (which uses the
    default of 90 seconds) passes the exception on unchanged, and the name
    step answers it with the timeout message, not with the generic one. *)
Theorem office_timeout (host : Host) (input_path out_dir : Path)
    (timeout_sec : Z) (soffice : str) (w : World) :
  fst (find_soffice host w) = Ok (Some soffice) ->
  (timeout_sec <
   b_seconds (host_exec host (soffice_cmd soffice input_path out_dir) (w_fs w)))%Z ->
  none_running w ->
  let cmd := soffice_cmd soffice input_path out_dir in
  let w' := add_proc cmd Killed w in
  convert_office_to_pdf host input_path out_dir timeout_sec w =
    (Raise (TimeoutExpired cmd timeout_sec), w') /\
  none_running w' /\
  w_fs w' = w_fs w /\
  (timeout_sec = default_timeout_sec ->
   classify (lower (suffix input_path)) = OfficeSuite ->
   convert_to_pdf host input_path out_dir w =
     (Raise (TimeoutExpired cmd default_timeout_sec), w')) /\
  conversion_failed (TimeoutExpired cmd timeout_sec) = reply_text TxtTimedOut /\
  default_timeout_sec = 90%Z.
Proof.
  intros Hloc Hslow Hrun cmd w'.
  pose proof (find_soffice_nonempty host w soffice Hloc) as Hso.
  apply find_soffice_eq in Hloc.
  assert (Hoffice : convert_office_to_pdf host input_path out_dir timeout_sec w =
                    (Raise (TimeoutExpired cmd timeout_sec), w')).
  { unfold convert_office_to_pdf, bind. rewrite Hloc.
    destruct soffice as [|c t]; [congruence|].
    unfold subprocess_run. fold cmd.
    apply Z.ltb_lt in Hslow. fold cmd in Hslow. rewrite Hslow. reflexivity. }
  split; [exact Hoffice|].
  split.
  { unfold none_running, w', add_proc. simpl.
    apply Forall_app. split; [exact Hrun|].
    constructor; [discriminate | constructor]. }
  split; [reflexivity|].
  split.
  { intros -> Hc. rewrite convert_to_pdf_arms. cbv zeta. rewrite Hc.
    unfold bind at 1. rewrite Hoffice. reflexivity. }
  split; reflexivity.
Qed.

Lemma office_timeout_witness :
  convert_to_pdf (Scenario.office_host 120 [])
    (Scenario.job ++ [lit "slides.pptx"]) Scenario.job
    (Scenario.job_world "slides.pptx" (lit "deck"))
  = (Raise (TimeoutExpired
              (soffice_cmd (lit "/usr/bin/soffice")
                 (Scenario.job ++ [lit "slides.pptx"]) Scenario.job) 90),
     add_proc (soffice_cmd (lit "/usr/bin/soffice")
                 (Scenario.job ++ [lit "slides.pptx"]) Scenario.job)
              Killed (Scenario.job_world "slides.pptx" (lit "deck"))).
Proof.
  refine (proj1 (proj2 (proj2 (proj2
            (office_timeout (Scenario.office_host 120 [])
               (Scenario.job ++ [lit "slides.pptx"]) Scenario.job 90
               (lit "/usr/bin/soffice")
               (Scenario.job_world "slides.pptx" (lit "deck")) _ _ _)))) _ _).
  - vm_compute. reflexivity.
  - vm_compute. reflexivity.
  - constructor.
  - reflexivity.
  - vm_compute. reflexivity.
Defined.

(** ** Output discovery *)

Lemma fs_exists_In (p : Path) (fs : FS) :
  fs_exists p fs = true <-> exists nd, In (p, nd) fs.
Proof.
  rewrite <- fs_lookup_In. unfold fs_exists.
  destruct (fs_lookup p fs); split; congruence.
Qed.

Lemma glob_pdf_In (d p : Path) (fs : FS) :
  In p (glob_pdf d fs) <->
  fs_exists p fs = true /\ child_of d p = true /\
  endswith (name p) (lit ".pdf") = true.
Proof.
  unfold glob_pdf. rewrite in_map_iff, fs_exists_In. split.
  - intros [[q nd] [Hq H]]. simpl in Hq. subst q.
    apply filter_In in H. destruct H as [H Hf]. simpl in Hf.
    apply andb_true_iff in Hf. destruct Hf as [Hc He]. eauto.
  - intros [[nd H] [Hc He]]. exists (p, nd). split; [reflexivity|].
    apply filter_In. simpl. rewrite Hc, He. auto.
Qed.

Lemma insert_desc_not_nil (key : Path -> nat) (x : Path) (l : list Path) :
  insert_desc key x l <> [].
Proof. destruct l; simpl; [|destruct (_ <? _)%nat]; discriminate. Qed.

Lemma sorted_desc_nil (key : Path -> nat) (l : list Path) :
  sorted_desc key l = [] -> l = [].
Proof.
  destruct l as [|x t]; [reflexivity|]. simpl. intros H.
  destruct (insert_desc_not_nil _ _ _ H).
Qed.

(** The first path of the sorted list is a path of the list, and none has
    a later time. *)
Lemma sorted_desc_head (key : Path -> nat) (l : list Path) (h : Path) (r : list Path) :
  sorted_desc key l = h :: r ->
  In h l /\ forall q, In q l -> (key q <= key h)%nat.
Proof.
  revert h r. induction l as [|x t IH]; intros h r; simpl; [discriminate|].
  destruct (sorted_desc key t) as [|y s] eqn:E.
  - apply sorted_desc_nil in E. subst t. simpl. intros [= <- <-].
    split; [auto|]. intros q [->|[]]. lia.
  - destruct (IH y s eq_refl) as [Hy Hmax]. simpl.
    destruct (Nat.ltb_spec (key x) (key y)); intros [= <- <-].
    + split; [auto|]. intros q [->|Hq]; [lia | auto].
    + split; [auto|]. intros q [->|Hq]; [lia|].
      specialize (Hmax q Hq). lia.
Qed.

(** A path that is strictly newer than all others comes first. *)
Lemma sorted_desc_newest (key : Path -> nat) (l : list Path) (m : Path) :
  In m l ->
  (forall q, In q l -> q <> m -> (key q < key m)%nat) ->
  exists r, sorted_desc key l = m :: r.
Proof.
  intros Hm Hnew.
  destruct (sorted_desc key l) as [|h r] eqn:E.
  - apply sorted_desc_nil in E. subst l. destruct Hm.
  - destruct (sorted_desc_head _ _ _ _ E) as [Hh Hmax].
    destruct (decide (h = m)) as [->|Hne]; [eauto|].
    specialize (Hnew h Hh Hne). specialize (Hmax m Hm). lia.
Qed.

Lemma subprocess_run_done (host : Host) (cmd : list str) (timeout : Z) (w : World) :
  (b_seconds (host_exec host cmd (w_fs w)) <= timeout)%Z ->
  b_returncode (host_exec host cmd (w_fs w)) = 0%Z ->
  subprocess_run host cmd timeout w =
  (Ok tt, add_proc cmd (Exited 0)
            (apply_writes (b_writes (host_exec host cmd (w_fs w))) w)).
Proof.
  intros Hfast Hzero. unfold subprocess_run.
  apply Z.ltb_ge in Hfast. rewrite Hfast, Hzero. reflexivity.
Qed.

(** C7.  After the engine has ended with exit code 0 within the timeout:
    if the file named after the stem of the input, with ".pdf" added,
    exists in the output directory, it is the result; otherwise the result
    is a "*.pdf" entry of the output directory than which none was
    modified later; and when the directory holds no such entry the
    backend raises the "no PDF was created" error. *)
Theorem output_discovery (host : Host) (input_path out_dir : Path)
    (timeout_sec : Z) (soffice : str) (w : World) :
  fst (find_soffice host w) = Ok (Some soffice) ->
  (b_seconds (host_exec host (soffice_cmd soffice input_path out_dir) (w_fs w))
   <= timeout_sec)%Z ->
  b_returncode (host_exec host (soffice_cmd soffice input_path out_dir) (w_fs w))
  = 0%Z ->
  let cmd := soffice_cmd soffice input_path out_dir in
  let w' := add_proc cmd (Exited 0)
              (apply_writes (b_writes (host_exec host cmd (w_fs w))) w) in
  let expected := joinpath out_dir (stem input_path ++ lit ".pdf") in
  let pdfs := glob_pdf out_dir (w_fs w') in
  let mtime := fun p => fs_mtime p (w_fs w') in
  (fs_exists expected (w_fs w') = true ->
   convert_office_to_pdf host input_path out_dir timeout_sec w = (Ok expected, w')) /\
  (fs_exists expected (w_fs w') = false -> pdfs <> [] ->
   exists p,
     convert_office_to_pdf host input_path out_dir timeout_sec w = (Ok p, w') /\
     In p pdfs /\ forall q, In q pdfs -> (mtime q <= mtime p)%nat) /\
  (fs_exists expected (w_fs w') = false -> pdfs = [] ->
   convert_office_to_pdf host input_path out_dir timeout_sec w =
   (Raise (RuntimeError no_pdf_msg), w')) /\
  (forall p, In p pdfs <->
             fs_exists p (w_fs w') = true /\ child_of out_dir p = true /\
             endswith (name p) (lit ".pdf") = true).
Proof.
  intros Hloc Hfast Hzero cmd w' expected pdfs mtime.
  pose proof (find_soffice_nonempty host w soffice Hloc) as Hso.
  apply find_soffice_eq in Hloc.
  assert (Hrun : convert_office_to_pdf host input_path out_dir timeout_sec w =
                 discover_output input_path out_dir w').
  { unfold convert_office_to_pdf, bind at 1. rewrite Hloc.
    destruct soffice as [|c t]; [congruence|].
    unfold bind. fold cmd.
    rewrite (subprocess_run_done host cmd timeout_sec w Hfast Hzero).
    reflexivity. }
  rewrite Hrun. unfold discover_output, bind, path_exists. fold expected.
  split; [intros ->; reflexivity|].
  split.
  { intros -> Hne. fold pdfs. fold mtime.
    destruct (sorted_desc mtime pdfs) as [|p r] eqn:E.
    - apply sorted_desc_nil in E. contradiction.
    - exists p. split; [reflexivity|].
      exact (sorted_desc_head mtime pdfs p r E). }
  split.
  { intros -> Hnil. fold pdfs. rewrite Hnil. reflexivity. }
  intros p. apply glob_pdf_In.
Qed.

Lemma output_discovery_witness :
  fst (convert_office_to_pdf
         (Scenario.office_host 5
            [(lit "memo.pdf", Scenario.pdf_magic); (lit "log.pdf", lit "x")])
         (Scenario.job ++ [lit "memo.docx"]) Scenario.job 90
         (Scenario.job_world "memo.docx" (lit "memo")))
  = Ok (Scenario.job ++ [lit "memo.pdf"]).
Proof.
  refine (f_equal fst
            (proj1 (output_discovery
                      (Scenario.office_host 5
                         [(lit "memo.pdf", Scenario.pdf_magic); (lit "log.pdf", lit "x")])
                      (Scenario.job ++ [lit "memo.docx"]) Scenario.job 90
                      (lit "/usr/bin/soffice")
                      (Scenario.job_world "memo.docx" (lit "memo")) _ _ _) _)).
  - vm_compute. reflexivity.
  - vm_compute. discriminate.
  - vm_compute. reflexivity.
  - vm_compute. reflexivity.
Defined.

(** With an unexpected name the newest PDF is taken, and without any PDF
    the backend fails. *)
Example discovery_falls_back :
  fst (convert_office_to_pdf
         (Scenario.office_host 5
            [(lit "a.pdf", lit "first"); (lit "b.pdf", lit "second");
             (lit "notes.txt", lit "third")])
         (Scenario.job ++ [lit "memo.docx"]) Scenario.job 90
         (Scenario.job_world "memo.docx" (lit "memo")))
  = Ok (Scenario.job ++ [lit "b.pdf"]).
Proof. vm_compute. reflexivity. Qed.

Example discovery_finds_nothing :
  fst (convert_office_to_pdf (Scenario.office_host 5 [])
         (Scenario.job ++ [lit "memo.xyz"]) Scenario.job 90
         (Scenario.job_world "memo.xyz" (lit "memo")))
  = Raise (RuntimeError no_pdf_msg).
Proof. vm_compute. reflexivity. Qed.

(** ** The size gate of the file step *)

Lemma looks_too_big_spec (file_size : option Z) :
  looks_too_big file_size = true <->
  exists n, file_size = Some n /\ (20 * 1024 * 1024 < n)%Z.
Proof.
  unfold looks_too_big, MAX_DECLARED_SIZE. destruct file_size as [n|].
  - rewrite andb_true_iff, negb_true_iff, Z.eqb_neq, Z.ltb_lt. split.
    + intros [_ H]. eauto.
    + intros [m [[= <-] H]]. lia.
  - split; [discriminate | intros [n [[=] _]]].
Qed.

Lemma send_fs (r : Reply) (w : World) : w_fs (snd (send r w)) = w_fs w.
Proof. unfold send. destruct (w_net w) as [|[|] rest]; reflexivity. Qed.

Lemma removelast_snoc (p : Path) (x : str) : parent (p ++ [x]) = p.
Proof. unfold parent. apply removelast_last. Qed.

Lemma snoc_ne (p : Path) (x : str) : p <> p ++ [x].
Proof.
  intros H. apply (f_equal (@length str)) in H.
  rewrite length_app in H. simpl in H. lia.
Qed.

(** The upload is stored under its name in a new directory, whatever its
    length. *)
Lemma accept_upload_stores (host : Host) (file_id original_name part : str)
    (data : bytes) (w : World) :
  host_download host file_id = Some data ->
  path_of_str original_name = [part] -> part <> lit "/" ->
  let work_dir :=
    host_tmpdir host ++
    [lit "tg_pdf_" ++ lit (NilEmpty.string_of_uint (Nat.to_uint (w_tmp w)))] in
  fs_lookup (work_dir ++ [part]) (w_fs w) = None ->
  fs_lookup (work_dir ++ [part])
            (w_fs (snd (accept_upload host file_id original_name w)))
  = Some (Node false data (S (w_clock w))).
Proof.
  intros Hdl Hname Hrel work_dir Hfresh.
  unfold accept_upload, mkdtemp. unfold bind at 1. fold work_dir.
  assert (Hjoin : joinpath work_dir original_name = work_dir ++ [part]).
  { unfold joinpath. rewrite Hname. simpl.
    rewrite bool_decide_eq_false_2 by exact Hrel. reflexivity. }
  rewrite Hjoin, Hdl.
  unfold bind at 1, try_except, bind at 1, write_bytes, fs_is_dir.
  cbn [w_fs stamp]. rewrite removelast_snoc.
  rewrite (fs_lookup_put_ne work_dir) by apply snoc_ne.
  rewrite Hfresh, fs_lookup_put_eq. cbn [n_dir].
  unfold bind, ret, user_data_set, reply_text.
  cbn [fst snd].
  match goal with
  | |- context [send ?r ?w0] =>
      pose proof (send_fs r w0) as Hs; destruct (send r w0) as [[u|e] w1]
  end; cbn [snd] in *; rewrite Hs; cbn [w_fs set_user_data stamp w_clock];
    apply fs_lookup_put_eq.
Qed.

(** The replies of a handler, traced through the monad. *)

Section Says.

Variable P : Reply -> Prop.

Lemma says_silent {A} (m : M A) :
  (forall w, w_sent (snd (m w)) = w_sent w) -> says P m.
Proof.
  intros H w. exists []. rewrite H, app_nil_r. split; [reflexivity | constructor].
Qed.

Lemma says_ret {A} (a : A) : says P (ret a).
Proof. apply says_silent. reflexivity. Qed.

Lemma says_raise {A} (e : exn) : says P (@raise A e).
Proof. apply says_silent. reflexivity. Qed.

Lemma says_bind {A B} (m : M A) (k : A -> M B) :
  says P m -> (forall a, says P (k a)) -> says P (bind m k).
Proof.
  intros Hm Hk w. unfold bind.
  destruct (Hm w) as (rs & Hs & Hrs). destruct (m w) as [[a|e] w1]; simpl in Hs.
  - destruct (Hk a w1) as (rs' & Hs' & Hrs').
    exists (rs ++ rs'). rewrite Hs', Hs, app_assoc.
    split; [reflexivity | apply Forall_app; auto].
  - exists rs. auto.
Qed.

Lemma says_try_except {A} (m : M A) (h : exn -> M A) :
  says P m -> (forall e, says P (h e)) -> says P (try_except m h).
Proof.
  intros Hm Hh w. unfold try_except.
  destruct (Hm w) as (rs & Hs & Hrs). destruct (m w) as [[a|e] w1]; simpl in Hs.
  - exists rs. auto.
  - destruct (Hh e w1) as (rs' & Hs' & Hrs').
    exists (rs ++ rs'). rewrite Hs', Hs, app_assoc.
    split; [reflexivity | apply Forall_app; auto].
Qed.

Lemma says_send (r : Reply) : P r -> says P (send r).
Proof.
  intros Hr w. unfold send. destruct (w_net w) as [|[|] rest]; simpl.
  - exists [r]. auto.
  - exists [r]. auto.
  - exists []. rewrite app_nil_r. auto.
Qed.

Lemma says_write_bytes (p : Path) (data : bytes) : says P (write_bytes p data).
Proof.
  apply says_silent. intros w. unfold write_bytes.
  destruct (fs_is_dir p (w_fs w)); [reflexivity|].
  destruct (fs_lookup (parent p) (w_fs w)) as [nd|]; [|reflexivity].
  destruct (n_dir nd); reflexivity.
Qed.

Lemma says_rmtree (d : Path) : says P (rmtree d).
Proof.
  apply says_silent. intros w. unfold rmtree.
  destruct (fs_is_dir d (w_fs w)); reflexivity.
Qed.

Lemma says_accept_upload (host : Host) (file_id original_name : str) :
  P (ReplyText (TxtGotIt
       (sanitize_filename (stem (path_of_str original_name)) default_max_len))) ->
  (forall e, P (ReplyText (TxtDownloadFailed e))) ->
  says P (accept_upload host file_id original_name).
Proof.
  intros Hgot Hfail. unfold accept_upload.
  apply says_bind; [apply says_silent; reflexivity | intros work_dir].
  apply says_bind.
  - apply says_try_except.
    + apply says_bind; [|intros; apply says_ret].
      destruct (host_download host file_id);
        [apply says_write_bytes | apply says_raise].
    + intros e. apply says_bind; [apply says_rmtree | intros _].
      apply says_bind; [apply says_send, Hfail | intros _; apply says_ret].
  - intros [s|]; [apply says_ret|].
    apply says_bind; [apply says_silent; reflexivity | intros _].
    apply says_bind; [apply says_silent; reflexivity | intros _].
    apply says_bind; [apply says_send, Hgot | intros _; apply says_ret].
Qed.

End Says.

(** C10.  The upload is turned away as too big exactly when the message
    declares a size and that size is strictly greater than 20 * 1024 *
    1024 bytes; otherwise the handler goes on to the workspace and the
    download and never sends the size refusal.  In particular a message
    without a declared size, or with a declared size of zero, is accepted,
    and since the download takes no size at all the file is stored
    whatever its length. *)
Theorem oversize_gate (host : Host) (msg : Message)
    (file_id original_name : str) (file_size : option Z) (w : World) :
  upload_of msg = Some (file_id, original_name, file_size) ->
  (looks_too_big file_size = true <->
   exists n, file_size = Some n /\ (20 * 1024 * 1024 < n)%Z) /\
  (looks_too_big file_size = true ->
   receive_file host msg w = (reply_text TxtTooBig ;; ret WAIT_FILE) w) /\
  (looks_too_big file_size = false ->
   receive_file host msg w = accept_upload host file_id original_name w /\
   says (fun r => r <> ReplyText TxtTooBig) (receive_file host msg)) /\
  (file_size = None \/ file_size = Some 0%Z ->
   receive_file host msg w = accept_upload host file_id original_name w /\
   forall data part,
     host_download host file_id = Some data ->
     path_of_str original_name = [part] -> part <> lit "/" ->
     let work_dir :=
       host_tmpdir host ++
       [lit "tg_pdf_" ++ lit (NilEmpty.string_of_uint (Nat.to_uint (w_tmp w)))] in
     fs_lookup (work_dir ++ [part]) (w_fs w) = None ->
     fs_lookup (work_dir ++ [part]) (w_fs (snd (receive_file host msg w)))
     = Some (Node false data (S (w_clock w)))).
Proof.
  intros Hup.
  split; [apply looks_too_big_spec|].
  split; [intros H; unfold receive_file; rewrite Hup, H; reflexivity|].
  split.
  { intros H; unfold receive_file; rewrite Hup, H. split; [reflexivity|].
    apply says_accept_upload; discriminate. }
  intros Hsize.
  assert (Hsmall : looks_too_big file_size = false)
    by (destruct Hsize as [->| ->]; reflexivity).
  assert (Heq : receive_file host msg w = accept_upload host file_id original_name w)
    by (unfold receive_file; rewrite Hup, Hsmall; reflexivity).
  split; [exact Heq|].
  intros data part Hdl Hname Hrel work_dir Hfresh. rewrite Heq.
  apply accept_upload_stores; assumption.
Qed.

Lemma oversize_gate_witness :
  fs_lookup (Scenario.job ++ [lit "scan.png"])
    (w_fs (snd (receive_file Scenario.bare_host
                  (Scenario.document "scan.png" (Some 0%Z)) Scenario.fresh_world)))
  = Some (Node false (lit "hello") 2).
Proof.
  refine (proj2 (proj2 (proj2 (proj2
            (oversize_gate Scenario.bare_host
               (Scenario.document "scan.png" (Some 0%Z))
               (lit "file-1") (lit "scan.png") (Some 0%Z)
               Scenario.fresh_world _))) _)
            (lit "hello") (lit "scan.png") _ _ _ _).
  - reflexivity.
  - right. reflexivity.
  - reflexivity.
  - reflexivity.
  - discriminate.
  - vm_compute. reflexivity.
Defined.

(** A declared size of 21 MiB is turned away before any download; one of
    exactly 20 MiB is not. *)
Example oversize_rejected :
  run Scenario.bare_host END
      [CmdStart; Incoming (Scenario.document "big.pdf" (Some (21 * 1024 * 1024)%Z))]
      Scenario.fresh_world
  = (WAIT_FILE,
     mkWorld Scenario.base_fs 1 [] [ReplyText TxtWelcome; ReplyText TxtTooBig] [] ∅ 0).
Proof. vm_compute. reflexivity. Qed.

Example exact_limit_accepted :
  fst (run Scenario.bare_host END
         [CmdStart; Incoming (Scenario.document "big.pdf" (Some (20 * 1024 * 1024)%Z))]
         Scenario.fresh_world)
  = WAIT_NAME.
Proof. vm_compute. reflexivity. Qed.

(** ** Cleanup of the working directory *)

Lemma cancel_fs (w : World) : w_fs (snd (cancel w)) = w_fs w.
Proof.
  unfold cancel, bind, user_data_clear, reply_text.
  match goal with
  | |- context [send ?r ?w0] =>
      pose proof (send_fs r w0) as Hs; destruct (send r w0) as [[u|e] w1]
  end; cbn [snd ret] in *; rewrite Hs; reflexivity.
Qed.

(** C1 (fails on the code).  After /start, an upload and /cancel the
    conversation is over and [user_data] is empty, but the working
    directory and the upload in it are still there: [cancel] clears the
    dictionary and never touches the file system. *)
Theorem cancel_leaves_work_dir :
  let end_of_job :=
    run Scenario.bare_host END
        [CmdStart; Incoming (Scenario.document "a.docx" None); CmdCancel]
        Scenario.fresh_world in
  fst end_of_job = END /\
  w_user_data (snd end_of_job) = ∅ /\
  fs_is_dir Scenario.job (w_fs (snd end_of_job)) = true /\
  fs_lookup (Scenario.job ++ [lit "a.docx"]) (w_fs (snd end_of_job))
  = Some (Node false (lit "hello") 2).
Proof. vm_compute. repeat split; reflexivity. Qed.

(** The name step does remove the directory, on success and on failure. *)
Example name_step_cleans_up_on_success :
  let end_of_job :=
    run Scenario.bare_host END
        [CmdStart; Incoming (Scenario.document "a.txt" None);
         Incoming (Scenario.text "notes")]
        Scenario.fresh_world in
  fst end_of_job = END /\
  w_fs (snd end_of_job) = Scenario.base_fs /\
  w_sent (snd end_of_job) =
  [ReplyText TxtWelcome; ReplyText (TxtGotIt (lit "a")); ReplyText TxtConverting;
   ReplyDocument (lit "notes.pdf") (Scenario.pdf_magic ++ lit "hello");
   ReplyText TxtDone].
Proof. vm_compute. repeat split; reflexivity. Qed.

Example name_step_cleans_up_on_timeout :
  let end_of_job :=
    run (Scenario.office_host 120 []) END
        [CmdStart; Incoming (Scenario.document "a.docx" None);
         Incoming (Scenario.text "notes")]
        Scenario.fresh_world in
  fst end_of_job = END /\
  w_fs (snd end_of_job) = Scenario.base_fs /\
  last (w_sent (snd end_of_job)) = Some (ReplyText TxtTimedOut).
Proof. vm_compute. repeat split; reflexivity. Qed.

Example name_step_cleans_up_on_delivery_failure :
  let end_of_job :=
    run Scenario.bare_host END
        [CmdStart; Incoming (Scenario.document "a.txt" None);
         Incoming (Scenario.text "notes")]
        (mkWorld Scenario.base_fs 1 [] [] [true; true; true; false] ∅ 0) in
  fst end_of_job = END /\
  w_fs (snd end_of_job) = Scenario.base_fs /\
  last (w_sent (snd end_of_job))
  = Some (ReplyText (TxtConversionFailed TelegramError)).
Proof. vm_compute. repeat split; reflexivity. Qed.

(** ** Lost context *)

(** With nothing recorded, both paths of the name step are the current
    directory, which exists: the handler goes on to convert. *)
Lemma empty_context_converts (host : Host) (msg : Message) (w : World) :
  w_user_data w = ∅ ->
  fs_exists [] (w_fs w) = true ->
  receive_name_and_convert host msg w =
  (reply_text TxtConverting ;;
   try_finally
     (try_except
        (pdf_path <- convert_to_pdf host [] [] ;;
         f <- read_bytes pdf_path ;;
         reply_document
           (sanitize_filename (str_or (msg_text msg) []) default_max_len ++ lit ".pdf") f ;;
         reply_text TxtDone)
        conversion_failed)
     (user_data_clear ;; rmtree []) ;;
   ret END) w.
Proof.
  intros Hud Hcwd.
  unfold receive_name_and_convert.
  unfold bind at 1, user_data_get. rewrite Hud, lookup_empty. cbn [default].
  unfold bind at 1. cbn beta. rewrite Hud, lookup_empty. cbn [default].
  change (path_of_str []) with (@nil str).
  unfold bind at 1, path_exists. rewrite Hcwd.
  unfold bind at 1. rewrite Hcwd. reflexivity.
Qed.

(** C3 (fails on the code).  The name step with an empty [user_data] does
    not report the lost context: it answers "Converting", calls the
    dispatcher on the current directory (with an engine installed, a
    process is started) and then empties the current directory.  The
    state is reached when the reply of /cancel is lost after [user_data]
    has been cleared. *)
Theorem lost_context_not_reported :
  (let after := receive_name_and_convert Scenario.bare_host
                  (Scenario.text "report") Scenario.fresh_world in
   fst after = Ok END /\
   w_sent (snd after) =
     [ReplyText TxtConverting;
      ReplyText (TxtConversionFailed (RuntimeError not_found_msg))] /\
   fs_exists [lit "bot.py"] (w_fs (snd after)) = false) /\
  (let after := receive_name_and_convert (Scenario.office_host 5 [])
                  (Scenario.text "report") Scenario.fresh_world in
   w_procs (snd after) =
     [(soffice_cmd (lit "/usr/bin/soffice") [] [], Exited 0)] /\
   ~ In (ReplyText TxtLostContext) (w_sent (snd after))) /\
  (let after := run Scenario.bare_host END
                  [CmdStart; Incoming (Scenario.document "a.docx" None);
                   CmdCancel; Incoming (Scenario.text "report")]
                  Scenario.flaky_world in
   w_sent (snd after) =
     [ReplyText TxtWelcome; ReplyText (TxtGotIt (lit "a"));
      ReplyText TxtConverting;
      ReplyText (TxtConversionFailed (RuntimeError not_found_msg))] /\
   fs_exists [lit "bot.py"] (w_fs (snd after)) = false).
Proof.
  vm_compute. repeat split; try reflexivity.
  intros [H|[H|[]]]; discriminate H.
Qed.

(** When the recorded directory is gone from the disk the loss is
    reported and nothing is converted. *)
Example vanished_directory_reported :
  receive_name_and_convert (Scenario.office_host 5 [])
    (Scenario.text "report")
    (mkWorld Scenario.base_fs 1 [] [] []
       (<["work_dir" := lit "/tmp/tg_pdf_0"]>
          (<["input_path" := lit "/tmp/tg_pdf_0/a.docx"]> ∅)) 1)
  = (Ok END,
     mkWorld Scenario.base_fs 1 [] [ReplyText TxtLostContext] [] ∅ 1).
Proof. vm_compute. reflexivity. Qed.

(** ** The canonical output *)

Lemma bind_ok {A B} (m : M A) (k : A -> M B) (w w' : World) (b : B) :
  bind m k w = (Ok b, w') ->
  exists a w1, m w = (Ok a, w1) /\ k a w1 = (Ok b, w').
Proof.
  unfold bind. destruct (m w) as [[a|e] w1]; [eauto | discriminate].
Qed.

Lemma ret_ok {A} (a b : A) (w w' : World) :
  ret a w = (Ok b, w') -> a = b /\ w = w'.
Proof. unfold ret. intros [= -> ->]. auto. Qed.

Lemma read_bytes_ok (p : Path) (w w' : World) (data : bytes) :
  read_bytes p w = (Ok data, w') ->
  w' = w /\ exists t, fs_lookup p (w_fs w) = Some (Node false data t).
Proof.
  unfold read_bytes.
  destruct (fs_lookup p (w_fs w)) as [[dir dat t]|]; [|discriminate].
  destruct dir; simpl; [discriminate|]. intros [= -> ->]. eauto.
Qed.

Lemma read_bytes_file (p : Path) (w : World) (data : bytes) (t : nat) :
  fs_lookup p (w_fs w) = Some (Node false data t) ->
  read_bytes p w = (Ok data, w).
Proof. intros H. unfold read_bytes. rewrite H. reflexivity. Qed.

Lemma write_bytes_ok (p : Path) (data : bytes) (w w' : World) :
  write_bytes p data w = (Ok tt, w') ->
  w' = stamp p false data w /\
  fs_is_dir p (w_fs w) = false /\
  exists nd, fs_lookup (parent p) (w_fs w) = Some nd /\ n_dir nd = true.
Proof.
  unfold write_bytes.
  destruct (fs_is_dir p (w_fs w)); [discriminate|].
  destruct (fs_lookup (parent p) (w_fs w)) as [nd|]; [|discriminate].
  destruct (n_dir nd) eqn:E; [|discriminate].
  intros [= <-]. eauto.
Qed.

Lemma write_bytes_can (p : Path) (data : bytes) (w : World) (nd : node) :
  fs_is_dir p (w_fs w) = false ->
  fs_lookup (parent p) (w_fs w) = Some nd -> n_dir nd = true ->
  write_bytes p data w = (Ok tt, stamp p false data w).
Proof.
  intros Hp Hpar Hdir. unfold write_bytes. rewrite Hp, Hpar, Hdir. reflexivity.
Qed.

Lemma copyfile_ok (src dst : Path) (w w' : World) :
  copyfile src dst w = (Ok tt, w') ->
  src <> dst /\
  exists data, read_bytes src w = (Ok data, w) /\
               write_bytes dst data w = (Ok tt, w').
Proof.
  unfold copyfile.
  destruct (bool_decide (src = dst) && fs_exists src (w_fs w)) eqn:Hsame;
    [discriminate|].
  intros H. apply bind_ok in H. destruct H as (data & w1 & Hr & Hw).
  destruct (read_bytes_ok _ _ _ _ Hr) as [-> [t Ht]].
  split; [|eauto].
  intros ->. rewrite bool_decide_eq_true_2 in Hsame by reflexivity.
  unfold fs_exists in Hsame. rewrite Ht in Hsame. discriminate.
Qed.

Lemma copyfile_can (src dst : Path) (w w' : World) (data : bytes) :
  src <> dst ->
  read_bytes src w = (Ok data, w) ->
  write_bytes dst data w = (Ok tt, w') ->
  copyfile src dst w = (Ok tt, w').
Proof.
  intros Hne Hr Hw. unfold copyfile.
  rewrite bool_decide_eq_false_2 by exact Hne. simpl.
  unfold bind. rewrite Hr. exact Hw.
Qed.

Lemma stamp_lookup (p : Path) (dir : bool) (data : bytes) (w : World) :
  fs_lookup p (w_fs (stamp p dir data w)) = Some (Node dir data (w_clock w)).
Proof. apply fs_lookup_put_eq. Qed.

Lemma joinpath_output (d : Path) :
  joinpath d (lit "output.pdf") = d ++ [lit "output.pdf"].
Proof. reflexivity. Qed.

(** C2, amended.  When the dispatcher succeeds it returns [output.pdf]
    inside the working directory, whichever backend ran, and that entry is
    a file holding exactly what the backend produced: the bytes of the
    input for a PDF, the output of img2pdf or of reportlab for an image or
    a text, the bytes of the discovered file for the office engine.  The
    file is therefore non-empty whenever those bytes are. *)
Theorem canonical_output (host : Host) (input_path work_dir : Path)
    (w w' : World) (p : Path) :
  convert_to_pdf host input_path work_dir w = (Ok p, w') ->
  p = joinpath work_dir (lit "output.pdf") /\
  exists data t,
    fs_lookup p (w_fs w') = Some (Node false data t) /\
    match classify (lower (suffix input_path)) with
    | PassThrough => read_bytes input_path w = (Ok data, w)
    | Image =>
        exists img, read_bytes input_path w = (Ok img, w) /\
                    host_img2pdf host (w_clock w) img = Some data
    | PlainText =>
        exists text, read_bytes input_path w = (Ok text, w) /\
                     data = host_reportlab host (w_clock w) text
    | OfficeSuite =>
        exists out_pdf w1,
          convert_office_to_pdf host input_path work_dir default_timeout_sec w
          = (Ok out_pdf, w1) /\
          read_bytes out_pdf w1 = (Ok data, w1)
    end.
Proof.
  rewrite convert_to_pdf_arms. cbv zeta.
  destruct (classify (lower (suffix input_path))); intros H.
  - apply bind_ok in H. destruct H as ([] & w1 & Hc & Hret).
    apply ret_ok in Hret. destruct Hret as [<- <-]. split; [reflexivity|].
    apply copyfile_ok in Hc. destruct Hc as (_ & data & Hr & Hw).
    apply write_bytes_ok in Hw. destruct Hw as (-> & _).
    exists data, (w_clock w). split; [apply stamp_lookup | exact Hr].
  - apply bind_ok in H. destruct H as ([] & w1 & Hc & Hret).
    apply ret_ok in Hret. destruct Hret as [<- <-]. split; [reflexivity|].
    unfold convert_image_to_pdf in Hc.
    apply bind_ok in Hc. destruct Hc as (img & w0 & Hr & Hw).
    destruct (read_bytes_ok _ _ _ _ Hr) as [-> _].
    unfold bind, time_now in Hw.
    destruct (host_img2pdf host (w_clock w) img) as [pdf_bytes|] eqn:Himg;
      [|discriminate].
    apply write_bytes_ok in Hw. destruct Hw as (-> & _).
    exists pdf_bytes, (w_clock w). split; [apply stamp_lookup | eauto].
  - apply bind_ok in H. destruct H as ([] & w1 & Hc & Hret).
    apply ret_ok in Hret. destruct Hret as [<- <-]. split; [reflexivity|].
    unfold convert_text_to_pdf in Hc.
    apply bind_ok in Hc. destruct Hc as (text & w0 & Hr & Hw).
    destruct (read_bytes_ok _ _ _ _ Hr) as [-> _].
    unfold bind, time_now in Hw.
    apply write_bytes_ok in Hw. destruct Hw as (-> & _).
    exists (host_reportlab host (w_clock w) text), (w_clock w).
    split; [apply stamp_lookup | eauto].
  - apply bind_ok in H. destruct H as (out_pdf & w1 & Ho & H).
    apply bind_ok in H. destruct H as ([] & w2 & Hc & Hret).
    apply ret_ok in Hret. destruct Hret as [<- <-]. split; [reflexivity|].
    apply copyfile_ok in Hc. destruct Hc as (_ & data & Hr & Hw).
    apply write_bytes_ok in Hw. destruct Hw as (-> & _).
    exists data, (w_clock w1). split; [apply stamp_lookup | eauto].
Qed.

Lemma canonical_output_witness :
  Scenario.job ++ [lit "output.pdf"] = joinpath Scenario.job (lit "output.pdf") /\
  exists data t,
    fs_lookup (Scenario.job ++ [lit "output.pdf"])
      (w_fs (snd (convert_to_pdf Scenario.bare_host
                    (Scenario.job ++ [lit "a.txt"]) Scenario.job
                    (Scenario.job_world "a.txt" (lit "hi")))))
    = Some (Node false data t) /\
    exists text,
      read_bytes (Scenario.job ++ [lit "a.txt"]) (Scenario.job_world "a.txt" (lit "hi"))
      = (Ok text, Scenario.job_world "a.txt" (lit "hi")) /\
      data = host_reportlab Scenario.bare_host 3 text.
Proof.
  apply (canonical_output Scenario.bare_host
           (Scenario.job ++ [lit "a.txt"]) Scenario.job
           (Scenario.job_world "a.txt" (lit "hi"))).
  vm_compute. reflexivity.
Defined.

(** C2 as stated fails: the copy of an empty PDF is the canonical output,
    and it is empty. *)
Lemma canonical_output_may_be_empty :
  (let after :=
     convert_to_pdf Scenario.bare_host
       (Scenario.job ++ [lit "blank.pdf"]) Scenario.job
       (Scenario.job_world "blank.pdf" []) in
   fst after = Ok (Scenario.job ++ [lit "output.pdf"]) /\
   fs_lookup (Scenario.job ++ [lit "output.pdf"]) (w_fs (snd after))
   = Some (Node false [] 3)) /\
  ~ (forall host input_path work_dir w p w',
       convert_to_pdf host input_path work_dir w = (Ok p, w') ->
       p = joinpath work_dir (lit "output.pdf") /\
       exists nd, fs_lookup p (w_fs w') = Some nd /\ n_data nd <> []).
Proof.
  split; [vm_compute; split; reflexivity|].
  intros H.
  destruct (H Scenario.bare_host (Scenario.job ++ [lit "blank.pdf"]) Scenario.job
              (Scenario.job_world "blank.pdf" []) _ _ eq_refl)
    as (_ & nd & Hnd & Hdata).
  vm_compute in Hnd. injection Hnd as <-. apply Hdata. reflexivity.
Qed.

(** ** Running the dispatcher twice *)

Lemma last_write_bounds (q : Path) (ws : list (Path * bytes)) (k : nat)
    (data : bytes) (t : nat) :
  last_write q ws k = Some (data, t) -> (k <= t < k + length ws)%nat.
Proof.
  revert k. induction ws as [|[p dat] rest IH]; intros k; simpl; [discriminate|].
  destruct (last_write q rest (S k)) as [[dat' t']|] eqn:E.
  - intros [= <- <-]. specialize (IH _ E). lia.
  - case_bool_decide; [|discriminate]. intros [= <- <-]. lia.
Qed.

Lemma last_write_shift (q : Path) (ws : list (Path * bytes)) (k n : nat) :
  last_write q ws (k + n) =
  match last_write q ws k with
  | Some (data, t) => Some (data, (t + n)%nat)
  | None => None
  end.
Proof.
  revert k. induction ws as [|[p dat] rest IH]; intros k; simpl; [reflexivity|].
  change (S (k + n)) with (S k + n)%nat. rewrite IH.
  destruct (last_write q rest (S k)) as [[dat' t']|]; [reflexivity|].
  case_bool_decide; reflexivity.
Qed.

(** Two paths last written at the same time are the same path. *)
Lemma last_write_inj (q q' : Path) (ws : list (Path * bytes)) (k : nat)
    (data data' : bytes) (t : nat) :
  last_write q ws k = Some (data, t) ->
  last_write q' ws k = Some (data', t) ->
  q = q'.
Proof.
  revert k. induction ws as [|[p dat] rest IH]; intros k; simpl; [discriminate|].
  destruct (last_write q rest (S k)) as [[d1 t1]|] eqn:E1;
    destruct (last_write q' rest (S k)) as [[d2 t2]|] eqn:E2.
  - intros [= <- <-] [= <- <-]. exact (IH _ E1 E2).
  - intros [= <- <-]. case_bool_decide; [|discriminate]. intros [= <- <-].
    apply last_write_bounds in E1. lia.
  - case_bool_decide; [|discriminate]. intros [= <- <-] [= <- <-].
    apply last_write_bounds in E2. lia.
  - repeat case_bool_decide; try discriminate. congruence.
Qed.

Lemma apply_writes_clock (ws : list (Path * bytes)) (w : World) :
  w_clock (apply_writes ws w) = (w_clock w + length ws)%nat.
Proof.
  revert w. induction ws as [|[p dat] rest IH]; intros w; simpl; [lia|].
  rewrite IH. simpl. lia.
Qed.

Lemma apply_writes_lookup (q : Path) (ws : list (Path * bytes)) (w : World) :
  fs_lookup q (w_fs (apply_writes ws w)) =
  match last_write q ws (w_clock w) with
  | Some (data, t) => Some (Node false data t)
  | None => fs_lookup q (w_fs w)
  end.
Proof.
  revert w. induction ws as [|[p dat] rest IH]; intros w; simpl; [reflexivity|].
  rewrite IH. unfold stamp. cbn [w_clock w_fs].
  destruct (last_write q rest (S (w_clock w))) as [[d t]|]; [reflexivity|].
  rewrite fs_lookup_put. case_bool_decide; reflexivity.
Qed.

Lemma discover_output_pure (input_path out_dir : Path) (w w' : World) (r : result Path) :
  discover_output input_path out_dir w = (r, w') -> w' = w.
Proof.
  unfold discover_output, bind, path_exists, ret.
  destruct (fs_exists _ (w_fs w)); [intros [= _ <-]; reflexivity|].
  destruct (sorted_desc _ _); intros [= _ <-]; reflexivity.
Qed.

Lemma convert_office_ok (host : Host) (input_path out_dir : Path) (timeout_sec : Z)
    (w w' : World) (src : Path) :
  convert_office_to_pdf host input_path out_dir timeout_sec w = (Ok src, w') ->
  exists soffice,
    fst (find_soffice host w) = Ok (Some soffice) /\
    let cmd := soffice_cmd soffice input_path out_dir in
    let b := host_exec host cmd (w_fs w) in
    (b_seconds b <= timeout_sec)%Z /\ b_returncode b = 0%Z /\
    w' = add_proc cmd (Exited 0) (apply_writes (b_writes b) w) /\
    discover_output input_path out_dir w' = (Ok src, w').
Proof.
  unfold convert_office_to_pdf. intros H.
  apply bind_ok in H. destruct H as (so & w0 & Hloc & H).
  pose proof (find_soffice_pure host w) as Hpure. rewrite Hloc in Hpure.
  simpl in Hpure. subst w0.
  destruct so as [[|c t]|]; [discriminate| |discriminate].
  exists (c :: t). split; [rewrite Hloc; reflexivity|]. cbv zeta.
  apply bind_ok in H. destruct H as ([] & w1 & Hrun & Hdisc).
  unfold subprocess_run in Hrun.
  destruct (Z.ltb_spec timeout_sec
              (b_seconds (host_exec host (soffice_cmd (c :: t) input_path out_dir) (w_fs w))))
    as [|Hfast]; [discriminate|].
  destruct (Z.eqb_spec
              (b_returncode (host_exec host (soffice_cmd (c :: t) input_path out_dir) (w_fs w))) 0)
    as [Hzero|]; [|discriminate].
  injection Hrun as <-.
  pose proof (discover_output_pure _ _ _ _ _ Hdisc) as ->.
  rewrite Hzero in Hdisc |- *.
  split; [exact Hfast|]. split; [reflexivity|]. split; [reflexivity | exact Hdisc].
Qed.

Lemma convert_office_can (host : Host) (input_path out_dir : Path) (timeout_sec : Z)
    (w : World) (soffice : str) :
  fst (find_soffice host w) = Ok (Some soffice) ->
  let cmd := soffice_cmd soffice input_path out_dir in
  let b := host_exec host cmd (w_fs w) in
  (b_seconds b <= timeout_sec)%Z -> b_returncode b = 0%Z ->
  convert_office_to_pdf host input_path out_dir timeout_sec w =
  discover_output input_path out_dir
    (add_proc cmd (Exited 0) (apply_writes (b_writes b) w)).
Proof.
  intros Hloc cmd b Hfast Hzero.
  pose proof (find_soffice_nonempty host w soffice Hloc) as Hso.
  apply find_soffice_eq in Hloc.
  unfold convert_office_to_pdf, bind at 1. rewrite Hloc.
  destruct soffice as [|c t]; [congruence|].
  unfold bind. fold cmd.
  rewrite (subprocess_run_done host cmd timeout_sec w Hfast Hzero).
  reflexivity.
Qed.

Lemma fs_mtime_lookup (p : Path) (fs : FS) (nd : node) :
  fs_lookup p fs = Some nd -> fs_mtime p fs = n_mtime nd.
Proof. intros H. unfold fs_mtime. rewrite H. reflexivity. Qed.

Lemma fs_exists_lookup (p : Path) (fs : FS) :
  fs_exists p fs = true <-> fs_lookup p fs <> None.
Proof. unfold fs_exists. destruct (fs_lookup p fs); split; congruence. Qed.

Lemma fs_not_exists_lookup (p : Path) (fs : FS) :
  fs_exists p fs = false <-> fs_lookup p fs = None.
Proof. unfold fs_exists. destruct (fs_lookup p fs); split; congruence. Qed.

(** The office arm, run a second time in the directory it has just
    written to. *)
Lemma office_rerun (host : Host) (input_path work_dir : Path) (timeout_sec : Z)
    (w wA w1 : World) (src : Path) :
  glob_pdf work_dir (w_fs w) = [] ->
  joinpath work_dir (stem input_path ++ lit ".pdf") <> work_dir ++ [lit "output.pdf"] ->
  (forall cmd, host_exec host cmd (w_fs w1) = host_exec host cmd (w_fs w)) ->
  fst (find_soffice host w1) = fst (find_soffice host w) ->
  convert_office_to_pdf host input_path work_dir timeout_sec w = (Ok src, wA) ->
  copyfile src (work_dir ++ [lit "output.pdf"]) wA = (Ok tt, w1) ->
  exists wC w2 data t1 t2,
    convert_office_to_pdf host input_path work_dir timeout_sec w1 = (Ok src, wC) /\
    copyfile src (work_dir ++ [lit "output.pdf"]) wC = (Ok tt, w2) /\
    fs_lookup (work_dir ++ [lit "output.pdf"]) (w_fs w1) = Some (Node false data t1) /\
    fs_lookup (work_dir ++ [lit "output.pdf"]) (w_fs w2) = Some (Node false data t2).
Proof.
  intros Hfresh Hstem Hdet Hloc2 Hoff Hcp.
  set (pdf := work_dir ++ [lit "output.pdf"]) in *.
  apply convert_office_ok in Hoff.
  destruct Hoff as (so & Hloc & Hfast & Hzero & HwA & Hdisc).
  set (cmd := soffice_cmd so input_path work_dir) in *.
  set (ws := b_writes (host_exec host cmd (w_fs w))) in *.
  set (k0 := w_clock w).
  set (n := S (length ws)).
  apply copyfile_ok in Hcp. destruct Hcp as (Hne & data & Hr & Hw).
  destruct (read_bytes_ok _ _ _ _ Hr) as [_ [ts Hsrc]].
  apply write_bytes_ok in Hw. destruct Hw as (Hw1 & Hnotdir & nd & Hpar & Hnd).
  assert (HA : forall q, fs_lookup q (w_fs wA) =
                         match last_write q ws k0 with
                         | Some (dat, t) => Some (Node false dat t)
                         | None => fs_lookup q (w_fs w)
                         end).
  { intros q. rewrite HwA. unfold add_proc. cbn [w_fs]. apply apply_writes_lookup. }
  assert (HkA : w_clock wA = (k0 + length ws)%nat).
  { rewrite HwA. unfold add_proc. cbn [w_clock]. apply apply_writes_clock. }
  assert (H1 : forall q, fs_lookup q (w_fs w1) =
                         if bool_decide (pdf = q)
                         then Some (Node false data (k0 + length ws))
                         else fs_lookup q (w_fs wA)).
  { intros q. rewrite Hw1. unfold stamp. cbn [w_fs].
    rewrite fs_lookup_put, HkA. reflexivity. }
  assert (Hk1 : w_clock w1 = (k0 + n)%nat).
  { rewrite Hw1. unfold stamp. cbn [w_clock]. rewrite HkA. unfold n. lia. }
  set (wC := add_proc cmd (Exited 0) (apply_writes ws w1)).
  assert (HC : forall q, fs_lookup q (w_fs wC) =
                         match last_write q ws k0 with
                         | Some (dat, t) => Some (Node false dat (t + n))
                         | None => fs_lookup q (w_fs w1)
                         end).
  { intros q. unfold wC, add_proc. cbn [w_fs].
    rewrite apply_writes_lookup, Hk1, last_write_shift.
    destruct (last_write q ws k0) as [[dat t]|]; reflexivity. }
  assert (Hmono : forall q, fs_lookup q (w_fs wA) <> None ->
                            fs_lookup q (w_fs wC) <> None).
  { intros q. rewrite HC, H1, HA.
    destruct (last_write q ws k0) as [[dat t]|]; [congruence|].
    case_bool_decide; congruence. }
  assert (Hrun2 : convert_office_to_pdf host input_path work_dir timeout_sec w1 =
                  discover_output input_path work_dir wC).
  { rewrite (convert_office_can host input_path work_dir timeout_sec w1 so).
    - fold cmd. rewrite Hdet. reflexivity.
    - rewrite Hloc2. exact Hloc.
    - fold cmd. rewrite Hdet. exact Hfast.
    - fold cmd. rewrite Hdet. exact Hzero. }
  assert (Hdisc2 : discover_output input_path work_dir wC = (Ok src, wC)).
  { unfold discover_output, bind, path_exists in Hdisc |- *.
    set (E := joinpath work_dir (stem input_path ++ lit ".pdf")) in *.
    destruct (fs_exists E (w_fs wA)) eqn:HEA.
    - injection Hdisc as <-.
      apply fs_exists_lookup, Hmono, fs_exists_lookup in HEA.
      rewrite HEA. reflexivity.
    - assert (HEC : fs_exists E (w_fs wC) = false).
      { apply fs_not_exists_lookup in HEA. apply fs_not_exists_lookup.
        rewrite HC, H1. rewrite HA in HEA.
        destruct (last_write E ws k0) as [[dat t]|] eqn:EE; [discriminate|].
        rewrite bool_decide_eq_false_2 by congruence.
        rewrite HA, EE. exact HEA. }
      rewrite HEC.
      destruct (sorted_desc (fun p => fs_mtime p (w_fs wA)) (glob_pdf work_dir (w_fs wA)))
        as [|p r] eqn:ES; [discriminate|].
      injection Hdisc as ->.
      destruct (sorted_desc_head _ _ _ _ ES) as [Hin Hmax].
      apply glob_pdf_In in Hin. destruct Hin as (Hex & Hchild & Hend).
      assert (Hglob0 : forall q, child_of work_dir q = true ->
                                 endswith (name q) (lit ".pdf") = true ->
                                 fs_lookup q (w_fs w) = None).
      { intros q Hc He. destruct (fs_lookup q (w_fs w)) eqn:Eq; [|reflexivity].
        assert (Hq : In q (glob_pdf work_dir (w_fs w))).
        { apply glob_pdf_In. split; [|auto]. apply fs_exists_lookup. congruence. }
        rewrite Hfresh in Hq. destruct Hq. }
      destruct (last_write src ws k0) as [[ds tsrc]|] eqn:Esrc.
      2:{ rewrite HA, Esrc, (Hglob0 src Hchild Hend) in Hsrc. discriminate. }
      pose proof (last_write_bounds _ _ _ _ _ Esrc) as Hb.
      assert (HmC : fs_mtime src (w_fs wC) = (tsrc + n)%nat).
      { apply (fs_mtime_lookup _ _ (Node false ds (tsrc + n))).
        rewrite HC, Esrc. reflexivity. }
      destruct (sorted_desc_newest (fun p => fs_mtime p (w_fs wC))
                  (glob_pdf work_dir (w_fs wC)) src) as [r' Hr'].
      + apply glob_pdf_In. split; [|auto].
        apply fs_exists_lookup, Hmono, fs_exists_lookup. exact Hex.
      + intros q Hq Hqs. cbv beta. rewrite HmC.
        apply glob_pdf_In in Hq. destruct Hq as (Hqex & Hqc & Hqe).
        apply fs_exists_lookup in Hqex.
        destruct (last_write q ws k0) as [[dq tq]|] eqn:Eq.
        * rewrite (fs_mtime_lookup _ _ (Node false dq (tq + n)))
            by (rewrite HC, Eq; reflexivity).
          cbn [n_mtime].
          assert (HqA : In q (glob_pdf work_dir (w_fs wA))).
          { apply glob_pdf_In. split; [|auto].
            apply fs_exists_lookup. rewrite HA, Eq. discriminate. }
          specialize (Hmax q HqA). cbv beta in Hmax.
          rewrite (fs_mtime_lookup _ _ (Node false dq tq)) in Hmax
            by (rewrite HA, Eq; reflexivity).
          rewrite (fs_mtime_lookup _ _ (Node false ds tsrc)) in Hmax
            by (rewrite HA, Esrc; reflexivity).
          cbn [n_mtime] in Hmax.
          assert (tq <> tsrc).
          { intros ->. apply Hqs. exact (last_write_inj _ _ _ _ _ _ _ Eq Esrc). }
          lia.
        * rewrite HC, Eq, H1 in Hqex.
          destruct (decide (pdf = q)) as [<-|Hpq].
          -- rewrite (fs_mtime_lookup _ _ (Node false data (k0 + length ws)))
               by (rewrite HC, Eq, H1, bool_decide_eq_true_2; reflexivity).
             cbn [n_mtime]. unfold n. lia.
          -- rewrite bool_decide_eq_false_2 in Hqex by exact Hpq.
             rewrite HA, Eq, (Hglob0 q Hqc Hqe) in Hqex. congruence.
      + rewrite Hr'. reflexivity. }
  assert (HsrcC : exists t, fs_lookup src (w_fs wC) = Some (Node false data t)).
  { rewrite HC. rewrite HA in Hsrc.
    destruct (last_write src ws k0) as [[dat t]|] eqn:EE.
    - injection Hsrc as -> _. eauto.
    - rewrite H1, bool_decide_eq_false_2 by congruence.
      rewrite HA, EE. eauto. }
  destruct HsrcC as [tC HsrcC].
  assert (Hpdf_parent : pdf <> parent pdf).
  { unfold pdf. rewrite removelast_snoc. intros H. symmetry in H.
    exact (snoc_ne _ _ H). }
  assert (HparC : fs_lookup (parent pdf) (w_fs wC) = Some nd).
  { rewrite HC. rewrite HA in Hpar.
    destruct (last_write (parent pdf) ws k0) as [[dat t]|] eqn:Ep.
    - injection Hpar as <-. discriminate Hnd.
    - rewrite H1, bool_decide_eq_false_2 by exact Hpdf_parent.
      rewrite HA, Ep. exact Hpar. }
  assert (HpdfC : fs_is_dir pdf (w_fs wC) = false).
  { unfold fs_is_dir. rewrite HC.
    destruct (last_write pdf ws k0) as [[dat t]|]; [reflexivity|].
    rewrite H1, bool_decide_eq_true_2 by reflexivity. reflexivity. }
  exists wC, (stamp pdf false data wC), data, (k0 + length ws)%nat, (w_clock wC).
  split; [rewrite Hrun2; exact Hdisc2|].
  split.
  { apply (copyfile_can src pdf wC _ data Hne).
    - exact (read_bytes_file _ _ _ _ HsrcC).
    - exact (write_bytes_can _ _ _ _ HpdfC HparC Hnd). }
  split.
  - rewrite H1, bool_decide_eq_true_2 by reflexivity. reflexivity.
  - apply stamp_lookup.
Qed.

Lemma output_ne_parent (d : Path) :
  d ++ [lit "output.pdf"] <> parent (d ++ [lit "output.pdf"]).
Proof.
  rewrite removelast_snoc. intros H. symmetry in H. exact (snoc_ne _ _ H).
Qed.

Lemma suffix_output (d : Path) : suffix (d ++ [lit "output.pdf"]) = lit ".pdf".
Proof. unfold suffix, name. rewrite last_snoc. reflexivity. Qed.

Lemma written (p : Path) (out : bytes) (w w1 : World) :
  write_bytes p out w = (Ok tt, w1) ->
  fs_lookup p (w_fs w1) = Some (Node false out (w_clock w)).
Proof.
  intros H. apply write_bytes_ok in H. destruct H as (-> & _).
  apply stamp_lookup.
Qed.

Lemma write_twice (p : Path) (out out' : bytes) (w w1 : World) :
  p <> parent p ->
  write_bytes p out w = (Ok tt, w1) ->
  write_bytes p out' w1 = (Ok tt, stamp p false out' w1).
Proof.
  intros Hp H. apply write_bytes_ok in H.
  destruct H as (-> & _ & nd & Hpar & Hnd).
  apply (write_bytes_can _ _ _ nd).
  - unfold fs_is_dir. rewrite stamp_lookup. reflexivity.
  - unfold stamp. cbn [w_fs]. rewrite fs_lookup_put_ne by exact Hp. exact Hpar.
  - exact Hnd.
Qed.

Lemma read_after_write (p q : Path) (out data : bytes) (w w1 : World) :
  q <> p ->
  write_bytes p out w = (Ok tt, w1) ->
  read_bytes q w = (Ok data, w) ->
  read_bytes q w1 = (Ok data, w1).
Proof.
  intros Hq Hw Hr. apply write_bytes_ok in Hw. destruct Hw as (-> & _).
  destruct (read_bytes_ok _ _ _ _ Hr) as [_ [t Ht]].
  apply (read_bytes_file _ _ _ t). unfold stamp. cbn [w_fs].
  rewrite fs_lookup_put_ne by congruence. exact Ht.
Qed.

(** C8, amended.  Let the dispatcher succeed on an input and a working
    directory.  For a PDF input, a second call in the world the first one
    left succeeds and writes the same bytes to [output.pdf].  For an image
    or a text input the same holds provided that the encoder (img2pdf,
    reportlab) gives for the bytes of the input at the time of the second
    call what it gave at the time of the first; called as the code calls
    them, both write the time of the call into the PDF.  For an input of
    the office arm it holds provided that the working directory held no
    "*.pdf" entry before the first call, that the file expected from the
    engine is not [output.pdf] itself (the stem of the input is not
    "output"), and that the locator and the engine behave in the second
    call as in the first. *)
Theorem second_run_same_output (host : Host) (input_path work_dir : Path)
    (w w1 : World) (p : Path) :
  convert_to_pdf host input_path work_dir w = (Ok p, w1) ->
  (classify (lower (suffix input_path)) = Image ->
   forall img, read_bytes input_path w = (Ok img, w) ->
               host_img2pdf host (w_clock w1) img
               = host_img2pdf host (w_clock w) img) ->
  (classify (lower (suffix input_path)) = PlainText ->
   forall text, read_bytes input_path w = (Ok text, w) ->
                host_reportlab host (w_clock w1) text
                = host_reportlab host (w_clock w) text) ->
  (classify (lower (suffix input_path)) = OfficeSuite ->
   glob_pdf work_dir (w_fs w) = [] /\
   joinpath work_dir (stem input_path ++ lit ".pdf")
     <> joinpath work_dir (lit "output.pdf") /\
   (forall cmd, host_exec host cmd (w_fs w1) = host_exec host cmd (w_fs w)) /\
   fst (find_soffice host w1) = fst (find_soffice host w)) ->
  exists w2 data t1 t2,
    convert_to_pdf host input_path work_dir w1 = (Ok p, w2) /\
    fs_lookup p (w_fs w1) = Some (Node false data t1) /\
    fs_lookup p (w_fs w2) = Some (Node false data t2).
Proof.
  rewrite !convert_to_pdf_arms. cbv zeta. rewrite joinpath_output.
  set (pdf := work_dir ++ [lit "output.pdf"]).
  destruct (classify (lower (suffix input_path))) eqn:Harm;
    intros H Himage Htext Hoffice.
  - apply bind_ok in H. destruct H as ([] & w0 & Hc & Hret).
    apply ret_ok in Hret. destruct Hret as [<- ->].
    apply copyfile_ok in Hc. destruct Hc as (Hne & data & Hr & Hw).
    exists (stamp pdf false data w1), data, (w_clock w), (w_clock w1).
    split; [|split; [exact (written _ _ _ _ Hw) | apply stamp_lookup]].
    unfold bind.
    rewrite (copyfile_can input_path pdf w1 (stamp pdf false data w1) data Hne
               (read_after_write _ _ _ _ _ _ Hne Hw Hr)
               (write_twice _ _ _ _ _ (output_ne_parent _) Hw)).
    reflexivity.
  - assert (Hne : input_path <> pdf).
    { intros ->. unfold pdf in Harm. rewrite suffix_output in Harm. discriminate. }
    apply bind_ok in H. destruct H as ([] & w0 & Hc & Hret).
    apply ret_ok in Hret. destruct Hret as [<- ->].
    unfold convert_image_to_pdf in Hc |- *.
    apply bind_ok in Hc. destruct Hc as (img & w0 & Hr & Hw).
    destruct (read_bytes_ok _ _ _ _ Hr) as [-> _].
    specialize (Himage eq_refl img Hr).
    unfold bind at 1, time_now in Hw.
    destruct (host_img2pdf host (w_clock w) img) as [out|] eqn:Himg; [|discriminate].
    exists (stamp pdf false out w1), out, (w_clock w), (w_clock w1).
    split; [|split; [exact (written _ _ _ _ Hw) | apply stamp_lookup]].
    unfold bind, time_now.
    rewrite (read_after_write _ _ _ _ _ _ Hne Hw Hr). cbv beta iota.
    rewrite Himage.
    rewrite (write_twice pdf _ out _ _ (output_ne_parent _) Hw). reflexivity.
  - assert (Hne : input_path <> pdf).
    { intros ->. unfold pdf in Harm. rewrite suffix_output in Harm. discriminate. }
    apply bind_ok in H. destruct H as ([] & w0 & Hc & Hret).
    apply ret_ok in Hret. destruct Hret as [<- ->].
    unfold convert_text_to_pdf in Hc |- *.
    apply bind_ok in Hc. destruct Hc as (text & w0 & Hr & Hw).
    destruct (read_bytes_ok _ _ _ _ Hr) as [-> _].
    specialize (Htext eq_refl text Hr).
    unfold bind at 1, time_now in Hw.
    exists (stamp pdf false (host_reportlab host (w_clock w) text) w1),
           (host_reportlab host (w_clock w) text), (w_clock w), (w_clock w1).
    split; [|split; [exact (written _ _ _ _ Hw) | apply stamp_lookup]].
    unfold bind, time_now.
    rewrite (read_after_write _ _ _ _ _ _ Hne Hw Hr). cbv beta iota.
    rewrite Htext.
    rewrite (write_twice pdf _ (host_reportlab host (w_clock w) text) _ _
               (output_ne_parent _) Hw).
    reflexivity.
  - destruct (Hoffice eq_refl) as (Hfresh & Hstem & Hdet & Hloc).
    apply bind_ok in H. destruct H as (src & wA & Hoff & H).
    apply bind_ok in H. destruct H as ([] & w0 & Hcp & Hret).
    apply ret_ok in Hret. destruct Hret as [<- ->].
    destruct (office_rerun host input_path work_dir default_timeout_sec
                w wA w1 src Hfresh Hstem Hdet Hloc Hoff Hcp)
      as (wC & w2 & data & t1 & t2 & Hoff2 & Hcp2 & Hl1 & Hl2).
    exists w2, data, t1, t2. split; [|auto].
    fold pdf in Hcp2. unfold bind. rewrite Hoff2, Hcp2. reflexivity.
Qed.

Lemma second_run_same_output_witness :
  (exists w2 data t1 t2,
     convert_to_pdf (Scenario.office_host 5 [(lit "memo.pdf", Scenario.pdf_magic)])
       (Scenario.job ++ [lit "memo.docx"]) Scenario.job
       (snd (convert_to_pdf
               (Scenario.office_host 5 [(lit "memo.pdf", Scenario.pdf_magic)])
               (Scenario.job ++ [lit "memo.docx"]) Scenario.job
               (Scenario.job_world "memo.docx" (lit "memo"))))
     = (Ok (Scenario.job ++ [lit "output.pdf"]), w2) /\
     fs_lookup (Scenario.job ++ [lit "output.pdf"])
       (w_fs (snd (convert_to_pdf
                     (Scenario.office_host 5 [(lit "memo.pdf", Scenario.pdf_magic)])
                     (Scenario.job ++ [lit "memo.docx"]) Scenario.job
                     (Scenario.job_world "memo.docx" (lit "memo")))))
     = Some (Node false data t1) /\
     fs_lookup (Scenario.job ++ [lit "output.pdf"]) (w_fs w2)
     = Some (Node false data t2)) /\
  (exists w2 data t1 t2,
     convert_to_pdf Scenario.bare_host
       (Scenario.job ++ [lit "notes.txt"]) Scenario.job
       (snd (convert_to_pdf Scenario.bare_host
               (Scenario.job ++ [lit "notes.txt"]) Scenario.job
               (Scenario.job_world "notes.txt" (lit "hi"))))
     = (Ok (Scenario.job ++ [lit "output.pdf"]), w2) /\
     fs_lookup (Scenario.job ++ [lit "output.pdf"])
       (w_fs (snd (convert_to_pdf Scenario.bare_host
                     (Scenario.job ++ [lit "notes.txt"]) Scenario.job
                     (Scenario.job_world "notes.txt" (lit "hi")))))
     = Some (Node false data t1) /\
     fs_lookup (Scenario.job ++ [lit "output.pdf"]) (w_fs w2)
     = Some (Node false data t2)).
Proof.
  split.
  - apply (second_run_same_output
             (Scenario.office_host 5 [(lit "memo.pdf", Scenario.pdf_magic)])
             (Scenario.job ++ [lit "memo.docx"]) Scenario.job
             (Scenario.job_world "memo.docx" (lit "memo"))).
    + vm_compute. reflexivity.
    + intros _ img _. reflexivity.
    + intros _ text _. reflexivity.
    + intros _. split; [vm_compute; reflexivity|].
      split; [vm_compute; discriminate|].
      split; [intros cmd; reflexivity | vm_compute; reflexivity].
  - apply (second_run_same_output Scenario.bare_host
             (Scenario.job ++ [lit "notes.txt"]) Scenario.job
             (Scenario.job_world "notes.txt" (lit "hi"))).
    + vm_compute. reflexivity.
    + intros _ img _. reflexivity.
    + intros _ text _. reflexivity.
    + intros H. vm_compute in H. discriminate H.
Defined.

(** C8 as stated fails.  The upload is called "output.docx" and the engine
    names its PDF otherwise: the first call succeeds through the fallback,
    and the second call takes the [output.pdf] of the first for the
    expected file and fails to copy it onto itself.  The working directory
    was fresh and the engine did the same both times. *)
Lemma second_run_breaks :
  (let host := Scenario.office_host 5 [(lit "printed.pdf", Scenario.pdf_magic)] in
   let input_path := Scenario.job ++ [lit "output.docx"] in
   let w := Scenario.job_world "output.docx" (lit "doc") in
   let first := convert_to_pdf host input_path Scenario.job w in
   let second := convert_to_pdf host input_path Scenario.job (snd first) in
   glob_pdf Scenario.job (w_fs w) = [] /\
   fst first = Ok (Scenario.job ++ [lit "output.pdf"]) /\
   fst second = Raise (SameFileError (Scenario.job ++ [lit "output.pdf"])
                                     (Scenario.job ++ [lit "output.pdf"]))) /\
  ~ (forall host input_path work_dir w p w1,
       convert_to_pdf host input_path work_dir w = (Ok p, w1) ->
       exists w2 data t1 t2,
         convert_to_pdf host input_path work_dir w1 = (Ok p, w2) /\
         fs_lookup p (w_fs w1) = Some (Node false data t1) /\
         fs_lookup p (w_fs w2) = Some (Node false data t2)).
Proof.
  split; [vm_compute; repeat split; reflexivity|].
  intros H.
  destruct (H (Scenario.office_host 5 [(lit "printed.pdf", Scenario.pdf_magic)])
              (Scenario.job ++ [lit "output.docx"]) Scenario.job
              (Scenario.job_world "output.docx" (lit "doc")) _ _ eq_refl)
    as (w2 & data & t1 & t2 & H2 & _).
  vm_compute in H2. discriminate H2.
Qed.

(** The same happens in a directory that already holds a PDF when the
    engine writes none: the first call hands out the stale file, the
    second finds the copy of it to be the newest and fails. *)
Example stale_pdf_breaks_second_run :
  let host := Scenario.office_host 5 [] in
  let input_path := Scenario.job ++ [lit "memo.xyz"] in
  let w := mkWorld (w_fs (Scenario.job_world "memo.xyz" (lit "memo")) ++
                    [(Scenario.job ++ [lit "old.pdf"], Node false (lit "old") 2)])
                   3 [] [] [] ∅ 1 in
  let first := convert_to_pdf host input_path Scenario.job w in
  let second := convert_to_pdf host input_path Scenario.job (snd first) in
  fst first = Ok (Scenario.job ++ [lit "output.pdf"]) /\
  fst second = Raise (SameFileError (Scenario.job ++ [lit "output.pdf"])
                                    (Scenario.job ++ [lit "output.pdf"])).
Proof. vm_compute. split; reflexivity. Qed.

(** With encoders that write the time of the call into the PDF, a text
    and an image are converted twice with success, and the second
    [output.pdf] is not the first. *)
Example second_run_redated :
  let host := Scenario.dating_host in
  let out := Scenario.job ++ [lit "output.pdf"] in
  let run name :=
    let input_path := Scenario.job ++ [lit name] in
    let first :=
      convert_to_pdf host input_path Scenario.job
        (Scenario.job_world name (lit "hi")) in
    let second := convert_to_pdf host input_path Scenario.job (snd first) in
    (fst first, fst second,
     option_map n_data (fs_lookup out (w_fs (snd first))),
     option_map n_data (fs_lookup out (w_fs (snd second)))) in
  run "notes.txt"
  = (Ok out, Ok out,
     Some (Scenario.pdf_magic ++ [3%N] ++ lit "hi"),
     Some (Scenario.pdf_magic ++ [4%N] ++ lit "hi")) /\
  run "scan.png"
  = (Ok out, Ok out,
     Some (Scenario.pdf_magic ++ [3%N] ++ lit "hi"),
     Some (Scenario.pdf_magic ++ [4%N] ++ lit "hi")) /\
  ~ (forall host input_path work_dir w p w1,
       classify (lower (suffix input_path)) <> OfficeSuite ->
       convert_to_pdf host input_path work_dir w = (Ok p, w1) ->
       exists w2 data t1 t2,
         convert_to_pdf host input_path work_dir w1 = (Ok p, w2) /\
         fs_lookup p (w_fs w1) = Some (Node false data t1) /\
         fs_lookup p (w_fs w2) = Some (Node false data t2)).
Proof.
  split; [vm_compute; reflexivity|]. split; [vm_compute; reflexivity|].
  intros H.
  destruct (H Scenario.dating_host (Scenario.job ++ [lit "notes.txt"]) Scenario.job
              (Scenario.job_world "notes.txt" (lit "hi")) _ _
              ltac:(vm_compute; discriminate) eq_refl)
    as (w2 & data & t1 & t2 & H2 & H3 & H4).
  vm_compute in H2. injection H2 as <-.
  vm_compute in H3, H4. congruence.
Qed.

(** An upload called "output.docx" cannot be converted at all when the
    engine names its PDF after it. *)
Example output_docx_fails :
  fst (convert_to_pdf
         (Scenario.office_host 5 [(lit "output.pdf", Scenario.pdf_magic)])
         (Scenario.job ++ [lit "output.docx"]) Scenario.job
         (Scenario.job_world "output.docx" (lit "doc")))
  = Raise (SameFileError (Scenario.job ++ [lit "output.pdf"])
                         (Scenario.job ++ [lit "output.pdf"])).
Proof. vm_compute. reflexivity. Qed.

(** ** More on the name sanitizer *)

Lemma clean_space (c : N) : clean c -> isspace c = true -> c = 32%N.
Proof.
  unfold clean, allowed, isspace. intros Hc Hs.
  repeat match goal with
         | H : (_ || _)%bool = true |- _ => apply orb_true_iff in H; destruct H as [H|H]
         | H : (_ && _)%bool = true |- _ => apply andb_true_iff in H; destruct H
         | H : (_ <=? _)%N = true |- _ => apply N.leb_le in H
         | H : (_ =? _)%N = true |- _ => apply N.eqb_eq in H
         end; lia.
Qed.

Lemma isspace_32 : isspace 32 = true.
Proof. reflexivity. Qed.

Lemma not_space_ne (c : N) : isspace c = false -> c <> 32%N.
Proof. intros H ->. discriminate H. Qed.

Lemma lstrip_id (s : str) :
  Forall clean s -> head s <> Some 32%N -> lstrip s = s.
Proof.
  intros Hs Hh. destruct s as [|c t]; [reflexivity|]. simpl.
  destruct (isspace c) eqn:E; [|reflexivity].
  inversion Hs; subst. exfalso. apply Hh. simpl. f_equal.
  apply clean_space; assumption.
Qed.

Lemma head_rev {A} (l : list A) : head (rev l) = last l.
Proof.
  induction l as [|x l IH] using rev_ind; [reflexivity|].
  rewrite rev_unit, last_snoc. reflexivity.
Qed.

Lemma strip_id (s : str) :
  Forall clean s -> head s <> Some 32%N -> last s <> Some 32%N -> strip s = s.
Proof.
  intros Hs Hh Hl. unfold strip, rstrip. rewrite (lstrip_id s Hs Hh).
  rewrite lstrip_id; [apply rev_involutive | apply Forall_rev, Hs |].
  rewrite head_rev. exact Hl.
Qed.

Lemma is_dot_pdf_head (s : str) :
  is_dot_pdf s = true -> exists t, s = 46%N :: t.
Proof.
  destruct s as [|a [|b [|c [|d [|e t]]]]]; try discriminate. simpl.
  intros H. apply andb_true_iff in H. destruct H as [H _].
  apply andb_true_iff in H. destruct H as [H _].
  apply andb_true_iff in H. destruct H as [H _].
  unfold ci_match in H. simpl in H. rewrite orb_false_r in H.
  apply N.eqb_eq in H. subst a. eauto.
Qed.

Lemma is_dot_pdf_length (s : str) : is_dot_pdf s = true -> length s = 4%nat.
Proof. destruct s as [|a [|b [|c [|d [|e t]]]]]; try discriminate. reflexivity. Qed.

Lemma is_dot_pdf_clean (s : str) : Forall clean s -> is_dot_pdf s = false.
Proof.
  intros Hs. destruct (is_dot_pdf s) eqn:E; [|reflexivity].
  apply is_dot_pdf_head in E. destruct E as [t ->].
  inversion Hs; subst. discriminate.
Qed.

Lemma sub_pdf_suffix_clean (s : str) : Forall clean s -> sub_pdf_suffix s = s.
Proof.
  intros Hs. unfold sub_pdf_suffix.
  rewrite is_dot_pdf_clean by (apply Forall_drop, Hs).
  rewrite is_dot_pdf_clean by (apply Forall_take, Forall_drop, Hs).
  reflexivity.
Qed.

Lemma sub_runs_clean (b : bool) (s : str) :
  Forall clean s -> sub_runs (fun c => negb (allowed c)) 95 b s = s.
Proof.
  intros Hs. revert b. induction Hs as [|c t Hc Ht IH]; intros b; simpl; [reflexivity|].
  unfold clean in Hc. rewrite Hc. simpl. rewrite IH. reflexivity.
Qed.

Lemma double_space_tail (c : N) (t : str) : ~ double_space (c :: t) -> ~ double_space t.
Proof. intros H (a & b & ->). apply H. exists (c :: a), b. reflexivity. Qed.

Lemma sub_runs_single_spaced (s : str) :
  Forall clean s -> ~ double_space s ->
  sub_runs isspace 32 false s = s /\
  (head s <> Some 32%N -> sub_runs isspace 32 true s = s).
Proof.
  intros Hs. induction Hs as [|c t Hc Ht IH]; intros Hd; simpl; [auto|].
  destruct (IH (double_space_tail _ _ Hd)) as [IHf IHt].
  destruct (isspace c) eqn:E.
  - pose proof (clean_space c Hc E) as ->. split.
    + rewrite IHt; [reflexivity|].
      intros Hh. apply Hd. destruct t as [|c' t']; [discriminate|].
      injection Hh as ->. exists [], t'. reflexivity.
    + intros Hh. exfalso. apply Hh. reflexivity.
  - rewrite IHf. auto.
Qed.

Lemma slice_to_all (s : str) (n : Z) :
  (Z.of_nat (length s) <= n)%Z -> slice_to s n = s.
Proof.
  intros H. unfold slice_to. destruct (Z.leb_spec 0 n); [|lia].
  apply firstn_all2. lia.
Qed.

(** X1.  A safe name no longer than the bound is returned as it is. *)
Theorem sanitize_filename_safe_name (s : str) (max_len : Z) :
  safe_name s -> (Z.of_nat (length s) <= max_len)%Z ->
  sanitize_filename s max_len = s.
Proof.
  intros (Hne & Hs & Hh & Hl & Hd) Hlen. unfold sanitize_filename.
  rewrite (strip_id s Hs Hh Hl).
  rewrite bool_decide_eq_false_2 by exact Hne.
  rewrite (sub_pdf_suffix_clean s Hs), (sub_runs_clean false s Hs).
  rewrite (proj1 (sub_runs_single_spaced s Hs Hd)).
  rewrite (strip_id s Hs Hh Hl).
  rewrite bool_decide_eq_false_2 by exact Hne.
  apply slice_to_all, Hlen.
Qed.

Lemma has_double_space_spec (s : str) :
  double_space s -> has_double_space s = true.
Proof.
  intros (a & b & ->). induction a as [|c a IH]; simpl; [reflexivity|].
  destruct (a ++ 32%N :: 32%N :: b) eqn:E; [destruct a; discriminate|].
  rewrite IH. apply orb_true_r.
Qed.

Lemma safe_name_test (s : str) :
  s <> [] -> forallb allowed s = true ->
  head s <> Some 32%N -> last s <> Some 32%N -> has_double_space s = false ->
  safe_name s.
Proof.
  intros Hne Hs Hh Hl Hd. repeat split; try assumption.
  - apply List.Forall_forall. intros c Hc. rewrite forallb_forall in Hs.
    apply Hs. exact Hc.
  - intros H. apply has_double_space_spec in H. congruence.
Qed.

Lemma sanitize_filename_safe_name_witness :
  sanitize_filename (lit "Annual report 2024_v2-final") 64
  = lit "Annual report 2024_v2-final".
Proof.
  apply (sanitize_filename_safe_name (lit "Annual report 2024_v2-final") 64).
  - apply safe_name_test; [discriminate | reflexivity | discriminate
                           | discriminate | reflexivity].
  - vm_compute. discriminate.
Defined.

(** X2.  Typing the extension makes no difference: a safe name followed by
    ".pdf", in any mix of upper and lower case, gives the safe name. *)
Theorem sanitize_filename_typed_extension (s ext : str) (max_len : Z) :
  safe_name s -> is_dot_pdf ext = true ->
  (Z.of_nat (length s) <= max_len)%Z ->
  sanitize_filename (s ++ ext) max_len = s.
Proof.
  intros (Hne & Hs & Hh & Hl & Hd) Hext Hlen.
  pose proof (is_dot_pdf_length ext Hext) as Hlen4.
  assert (Hstrip : strip (s ++ ext) = s ++ ext).
  { unfold strip, rstrip.
    assert (Hl1 : lstrip (s ++ ext) = s ++ ext).
    { destruct s as [|c t]; [congruence|]. simpl.
      destruct (isspace c) eqn:E; [|reflexivity].
      inversion Hs; subst. exfalso. apply Hh. simpl. f_equal.
      apply clean_space; assumption. }
    rewrite Hl1.
    destruct ext as [|a [|b [|c [|d [|e t]]]]]; try discriminate.
    rewrite rev_app_distr. simpl.
    destruct (isspace d) eqn:E.
    - exfalso. simpl in Hext. apply andb_true_iff in Hext. destruct Hext as [_ Hf].
      unfold ci_match in Hf. simpl in Hf. apply orb_true_iff in Hf.
      destruct Hf as [Hf|Hf]; apply N.eqb_eq in Hf; subst d; discriminate.
    - change (d :: c :: b :: a :: rev s) with (rev [a; b; c; d] ++ rev s).
      rewrite <- rev_app_distr. apply rev_involutive. }
  unfold sanitize_filename. rewrite Hstrip.
  rewrite bool_decide_eq_false_2 by (destruct s; [congruence | discriminate]).
  assert (Hsub : sub_pdf_suffix (s ++ ext) = s).
  { unfold sub_pdf_suffix. rewrite length_app, Hlen4.
    replace (length s + 4 - 4)%nat with (length s) by lia.
    rewrite drop_app_length, Hext, take_app_length. reflexivity. }
  rewrite Hsub, (sub_runs_clean false s Hs).
  rewrite (proj1 (sub_runs_single_spaced s Hs Hd)).
  rewrite (strip_id s Hs Hh Hl).
  rewrite bool_decide_eq_false_2 by exact Hne.
  apply slice_to_all, Hlen.
Qed.

Lemma sanitize_filename_typed_extension_witness :
  sanitize_filename (lit "Annual report 2024_v2-final" ++ lit ".Pdf") 64
  = lit "Annual report 2024_v2-final".
Proof.
  apply (sanitize_filename_typed_extension
           (lit "Annual report 2024_v2-final") (lit ".Pdf") 64).
  - apply safe_name_test; [discriminate | reflexivity | discriminate
                           | discriminate | reflexivity].
  - reflexivity.
  - vm_compute. discriminate.
Defined.

Lemma lstrip_suffix (s : str) : exists pre, s = pre ++ lstrip s.
Proof.
  induction s as [|c t [pre IH]]; [exists []; reflexivity|]. simpl.
  destruct (isspace c); [|exists []; reflexivity].
  exists (c :: pre). simpl. f_equal. exact IH.
Qed.

Lemma lstrip_head (s : str) (c : N) :
  head (lstrip s) = Some c -> isspace c = false.
Proof.
  induction s as [|x t IH]; simpl; [discriminate|].
  destruct (isspace x) eqn:E; [exact IH|]. simpl. congruence.
Qed.

Lemma rstrip_prefix (s : str) : exists post, s = rstrip s ++ post.
Proof.
  unfold rstrip. destruct (lstrip_suffix (rev s)) as [pre H].
  exists (rev pre). rewrite <- rev_app_distr, <- H. symmetry. apply rev_involutive.
Qed.

Lemma rstrip_last (s : str) (c : N) :
  last (rstrip s) = Some c -> isspace c = false.
Proof. unfold rstrip. rewrite <- head_rev, rev_involutive. apply lstrip_head. Qed.

Lemma head_prefix {A} (p post : list A) : p <> [] -> head (p ++ post) = head p.
Proof. destruct p; [congruence | reflexivity]. Qed.

Lemma strip_head (s : str) (c : N) :
  head (strip s) = Some c -> isspace c = false.
Proof.
  unfold strip. intros H. destruct (rstrip_prefix (lstrip s)) as [post Hp].
  apply (lstrip_head s). rewrite Hp, head_prefix; [exact H|].
  intros E. rewrite E in H. discriminate.
Qed.

Lemma strip_last (s : str) (c : N) :
  last (strip s) = Some c -> isspace c = false.
Proof. apply rstrip_last. Qed.

Lemma double_space_app (pre s post : str) :
  double_space s -> double_space (pre ++ s ++ post).
Proof.
  intros (a & b & ->). exists (pre ++ a), (b ++ post).
  rewrite <- !app_assoc. reflexivity.
Qed.

Lemma strip_double_space (s : str) : double_space (strip s) -> double_space s.
Proof.
  unfold strip. intros H.
  destruct (lstrip_suffix s) as [pre Hpre].
  destruct (rstrip_prefix (lstrip s)) as [post Hpost].
  rewrite Hpre, Hpost. apply double_space_app, H.
Qed.

Lemma take_double_space (n : nat) (s : str) : double_space (take n s) -> double_space s.
Proof.
  intros H. rewrite <- (take_drop n s).
  apply (double_space_app [] (take n s) (drop n s)), H.
Qed.

Lemma sub_runs_spacing (b : bool) (s : str) :
  ~ double_space (sub_runs isspace 32 b s) /\
  (b = true -> head (sub_runs isspace 32 b s) <> Some 32%N).
Proof.
  revert b. induction s as [|c t IH]; intros b; simpl.
  - split; [|discriminate]. intros ([|x a] & b' & H); discriminate.
  - destruct (isspace c) eqn:E.
    + destruct b; [apply IH|].
      destruct (IH true) as [IHd IHh].
      split; [|discriminate].
      intros ([|x a] & b' & H).
      * simpl in H. injection H as H. apply (IHh eq_refl). rewrite H. reflexivity.
      * simpl in H. injection H as _ H. apply IHd. exists a, b'. exact H.
    + destruct (IH false) as [IHd _].
      split.
      * intros ([|x a] & b' & H).
        -- simpl in H. injection H as -> _. discriminate.
        -- simpl in H. injection H as _ H. apply IHd. exists a, b'. exact H.
      * intros _. simpl. intros [= ->]. discriminate.
Qed.

Lemma converted_spacing :
  head (lit "converted") <> Some 32%N /\ ~ double_space (lit "converted") /\
  last (lit "converted") <> Some 32%N.
Proof.
  split; [discriminate|]. split; [|discriminate].
  intros H. apply has_double_space_spec in H. discriminate.
Qed.

Lemma slice_to_take (s : str) (n : Z) : exists k, slice_to s n = take k s.
Proof. unfold slice_to. destruct (0 <=? n)%Z; eauto. Qed.

Lemma head_take_ne (k : nat) (s : str) :
  head s <> Some 32%N -> head (take k s) <> Some 32%N.
Proof. destruct k, s; simpl; congruence. Qed.

(** X3.  Whatever the input and the bound, the sanitized name does not
    start with a space and has no two spaces in a row; it ends with a
    space only if it was cut at the bound. *)
Theorem sanitize_filename_spacing (s : str) (max_len : Z) :
  head (sanitize_filename s max_len) <> Some 32%N /\
  ~ double_space (sanitize_filename s max_len) /\
  ((Z.of_nat (length (sanitize_filename s max_len)) < max_len)%Z ->
   last (sanitize_filename s max_len) <> Some 32%N).
Proof.
  unfold sanitize_filename.
  case_bool_decide as Hblank.
  { destruct converted_spacing as (Hh & Hd & Hl). auto. }
  set (name := strip (sub_runs isspace 32 false
                        (sub_runs (fun c => negb (allowed c)) 95 false
                           (sub_pdf_suffix (strip s))))).
  set (final := if bool_decide (name = []) then lit "converted" else name).
  assert (Hfinal : head final <> Some 32%N /\ ~ double_space final /\
                   last final <> Some 32%N).
  { unfold final. case_bool_decide as Hname; [apply converted_spacing|].
    split; [|split].
    - intros Hc. apply strip_head in Hc. discriminate.
    - intros Hc. apply strip_double_space in Hc.
      exact (proj1 (sub_runs_spacing false _) Hc).
    - intros Hc. apply strip_last in Hc. discriminate. }
  destruct Hfinal as (Hh & Hd & Hl).
  destruct (slice_to_take final max_len) as [k Hk].
  split; [rewrite Hk; apply head_take_ne, Hh|].
  split; [rewrite Hk; intros Hc; apply Hd; exact (take_double_space _ _ Hc)|].
  intros Hlen. unfold slice_to in *.
  destruct (Z.leb_spec 0 max_len) as [Hpos|Hneg].
  - rewrite length_take in Hlen. rewrite firstn_all2 by lia. exact Hl.
  - lia.
Qed.

(** ** The text backend *)

Section TextLayoutFacts.

Variable Cursor : Type.
Variable top : Cursor.
Variable down : Cursor -> Cursor.
Variable below : Cursor -> bool.

Local Abbreviation adv := (advance Cursor top down below).
Local Abbreviation line_fuel := (draw_line_fuel Cursor top down below).
Local Abbreviation one_line := (draw_line Cursor top down below).
Local Abbreviation all_lines := (draw_lines Cursor top down below).
Local Abbreviation whole_text := (draw_text Cursor top down below).

Lemma strings_app (a b : list (Draw Cursor)) : strings (a ++ b) = strings a ++ strings b.
Proof.
  induction a as [|[y s|] a IH]; simpl; [reflexivity | f_equal; exact IH | exact IH].
Qed.

Lemma strings_advance (y : Cursor) : strings (fst (adv y)) = [].
Proof. unfold advance. destruct (below (down y)); reflexivity. Qed.

Lemma draw_line_fuel_strings (fuel : nat) (line : str) (y : Cursor) :
  (length line <= fuel)%nat ->
  let ss := strings (fst (line_fuel fuel line y)) in
  concat ss = line /\
  Forall (fun s => length s <= 95)%nat ss /\
  Forall (fun s => length s = 95%nat) (removelast ss) /\
  ss <> [].
Proof.
  revert line y. induction fuel as [|fuel IH]; intros line y Hlen; simpl.
  - assert (length line = 0)%nat as Hz by lia.
    destruct line; [|discriminate Hz]. simpl.
    pose proof (strings_advance y) as Ha. destruct (adv y) as [brk y1].
    simpl in *. rewrite Ha.
    split; [reflexivity|].
    split; [constructor; [simpl; lia | constructor]|].
    split; [constructor | discriminate].
  - unfold max_chars_per_line.
    destruct (Nat.ltb_spec 95 (length line)) as [Hlong|Hshort].
    + pose proof (strings_advance y) as Ha. destruct (adv y) as [brk y1].
      assert (Hrest : (length (drop 95 line) <= fuel)%nat)
        by (rewrite length_drop; lia).
      specialize (IH (drop 95 line) y1 Hrest). cbv zeta in IH.
      destruct (line_fuel fuel (drop 95 line) y1) as [ops y2].
      simpl in *. rewrite strings_app, Ha. simpl.
      destruct IH as (Hcat & Hall & Hfull & Hne).
      split; [rewrite Hcat; apply take_drop|].
      split; [constructor; [rewrite length_take; lia | exact Hall]|].
      split; [|discriminate].
      destruct (strings ops) as [|s ss]; [congruence|].
      constructor; [rewrite length_take; lia | exact Hfull].
    + pose proof (strings_advance y) as Ha. destruct (adv y) as [brk y1].
      simpl in *. rewrite Ha. simpl. rewrite app_nil_r.
      split; [reflexivity|].
      split; [constructor; [exact Hshort | constructor]|].
      split; [constructor | discriminate].
Qed.

(** X4.  A line is cut at every 95th character and nowhere else: the
    pieces drawn for it, put together, are the line; there is at least
    one piece; none is longer than 95 characters and all but the last
    are exactly 95 long.  This holds for every cursor arithmetic. *)
Theorem draw_line_hard_wrap (line : str) (y : Cursor) :
  let pieces := strings (fst (one_line line y)) in
  concat pieces = line /\
  pieces <> [] /\
  Forall (fun s => length s <= 95)%nat pieces /\
  Forall (fun s => length s = 95%nat) (removelast pieces).
Proof.
  destruct (draw_line_fuel_strings (length line) line y (le_n _))
    as (H1 & H2 & H3 & H4).
  cbv zeta. unfold draw_line. auto.
Qed.

Lemma draw_lines_strings (lines : list str) (y : Cursor) :
  concat (strings (fst (all_lines lines y))) = concat (List.map rstrip_newline lines) /\
  Forall (fun s => length s <= 95)%nat (strings (fst (all_lines lines y))).
Proof.
  revert y. induction lines as [|l rest IH]; intros y; simpl.
  - split; [reflexivity | constructor].
  - destruct (draw_line_hard_wrap (rstrip_newline l) y) as (Hcat & _ & Hall & _).
    destruct (one_line (rstrip_newline l) y) as [ops y1]. simpl in *.
    specialize (IH y1). destruct (all_lines rest y1) as [ops' y2]. simpl in *.
    destruct IH as [IHcat IHall].
    rewrite strings_app, concat_app, Hcat, IHcat.
    split; [reflexivity | apply Forall_app; auto].
Qed.

End TextLayoutFacts.

Lemma splitlines_from_spec (n : nat) :
  forall s cur,
    (length s <= n)%nat ->
    Forall (fun c => is_linebreak c = false) cur ->
    concat (splitlines_from cur s) = rev cur ++ List.filter not_linebreak s /\
    Forall (Forall (fun c => is_linebreak c = false)) (splitlines_from cur s).
Proof.
  induction n as [|n IH]; intros s cur Hlen Hcur.
  - destruct s; [|simpl in Hlen; lia]. simpl.
    destruct cur as [|c cur'] eqn:E; [split; [reflexivity | constructor]|].
    rewrite <- E in *. simpl. rewrite !app_nil_r.
    split; [reflexivity|]. constructor; [apply Forall_rev, Hcur | constructor].
  - destruct s as [|c t]; simpl.
    { destruct cur as [|c cur'] eqn:E; [split; [reflexivity | constructor]|].
      rewrite <- E in *. simpl. rewrite !app_nil_r.
      split; [reflexivity|]. constructor; [apply Forall_rev, Hcur | constructor]. }
    simpl in Hlen. unfold not_linebreak at 1.
    destruct (is_linebreak c) eqn:Ebrk; simpl.
    + assert (Hdef : concat (splitlines_from [] t) = List.filter not_linebreak t /\
                     Forall (Forall (fun c => is_linebreak c = false)) (splitlines_from [] t)).
      { apply (IH t []); [lia | constructor]. }
      destruct (c =? 13)%N.
      * destruct t as [|c' t'].
        -- simpl. rewrite app_nil_r. split; [reflexivity|].
           constructor; [apply Forall_rev, Hcur | constructor].
        -- destruct (N.eqb_spec c' 10) as [->|Hne].
           ++ destruct (IH t' []) as [Hc Hf]; [simpl in Hlen; lia | constructor |].
              simpl. rewrite Hc. split; [reflexivity|].
              constructor; [apply Forall_rev, Hcur | exact Hf].
           ++ destruct Hdef as [Hc Hf]. rewrite Hc. split; [reflexivity|].
              constructor; [apply Forall_rev, Hcur | exact Hf].
      * destruct Hdef as [Hc Hf]. rewrite Hc. split; [reflexivity|].
        constructor; [apply Forall_rev, Hcur | exact Hf].
    + destruct (IH t (c :: cur)) as [Hc Hf]; [lia | constructor; assumption |].
      rewrite Hc. simpl. rewrite <- app_assoc. split; [reflexivity | exact Hf].
Qed.

Lemma rstrip_newline_id (l : str) :
  Forall (fun c => is_linebreak c = false) l -> rstrip_newline l = l.
Proof.
  intros H. unfold rstrip_newline.
  assert (Hr : lstrip_newline (rev l) = rev l).
  { apply Forall_rev in H. destruct (rev l) as [|c t]; [reflexivity|]. simpl.
    destruct (N.eqb_spec c 10) as [->|]; [|reflexivity].
    inversion H; subst. discriminate. }
  rewrite Hr. apply rev_involutive.
Qed.

(** X5.  Nothing but the line boundaries is lost when a text is drawn:
    the strings drawn, put together, are the text without its line-boundary
    characters, and no string drawn is longer than 95 characters.  This
    holds for every cursor arithmetic. *)
Theorem draw_text_keeps_text (Cursor : Type) (top : Cursor)
    (down : Cursor -> Cursor) (below : Cursor -> bool) (text : str) :
  concat (strings (draw_text Cursor top down below text))
  = List.filter not_linebreak text /\
  Forall (fun s => length s <= 95)%nat
         (strings (draw_text Cursor top down below text)).
Proof.
  unfold draw_text, splitlines.
  destruct (splitlines_from_spec (length text) text [] (le_n _)) as [Hcat Hlines];
    [constructor|].
  destruct (draw_lines_strings Cursor top down below (splitlines_from [] text) top)
    as [Hc Hall].
  split; [|exact Hall].
  simpl in Hcat. rewrite Hc, <- Hcat. f_equal.
  clear Hcat Hc Hall. induction Hlines as [|l ls Hl Hls IH]; simpl; [reflexivity|].
  rewrite (rstrip_newline_id l Hl), IH. reflexivity.
Qed.

Example draw_text_example :
  strings (draw_text_exact (lit "ab" ++ [13; 10]%N ++ [10%N] ++ lit "c" ++ [10%N]))
  = [lit "ab"; []; lit "c"].
Proof. vm_compute. reflexivity. Qed.

(** ** The pages of the text backend *)

Lemma page_breaks_app {Cursor} (a b : list (Draw Cursor)) :
  page_breaks (a ++ b) = (page_breaks a + page_breaks b)%nat.
Proof.
  induction a as [|[y s|] a IH]; simpl; [reflexivity | exact IH | f_equal; exact IH].
Qed.

Lemma positions_app {Cursor} (a b : list (Draw Cursor)) :
  positions (a ++ b) = positions a ++ positions b.
Proof.
  induction a as [|[y s|] a IH]; simpl; [reflexivity | f_equal; exact IH | exact IH].
Qed.

Local Abbreviation exact_advance :=
  (advance Z (a4_height - margin)%Z (fun y => y - line_height)%Z
           (fun y => y <? margin)%Z).
Local Abbreviation exact_line_fuel :=
  (draw_line_fuel Z (a4_height - margin)%Z (fun y => y - line_height)%Z
                  (fun y => y <? margin)%Z).
Local Abbreviation exact_lines :=
  (draw_lines Z (a4_height - margin)%Z (fun y => y - line_height)%Z
              (fun y => y <? margin)%Z).

Lemma div_mod_53 (a b : nat) :
  ((a + b) / 53 = a / 53 + (a mod 53 + b) / 53)%nat /\
  ((a + b) mod 53 = (a mod 53 + b) mod 53)%nat.
Proof.
  pose proof (Nat.div_mod_eq a 53) as Ha.
  pose proof (Nat.mod_upper_bound a 53 ltac:(lia)) as Hr.
  set (q := (a / 53)%nat) in *. set (r := (a mod 53)%nat) in *.
  replace (a + b)%nat with (r + b + q * 53)%nat by lia.
  rewrite Nat.div_add, Nat.Div0.mod_add by lia. lia.
Qed.

Lemma exact_advance_at (j : nat) :
  (j < 53)%nat ->
  exact_advance (cursor_at j) =
  (if (j =? 52)%nat then [ShowPage] else [], cursor_at ((j + 1) mod 53)).
Proof.
  intros Hj. unfold advance.
  destruct (Nat.eqb_spec j 52) as [->|Hne]; [reflexivity|].
  assert (Hb : (cursor_at j - line_height <? margin)%Z = false).
  { apply Z.ltb_ge. unfold cursor_at, a4_height, margin, line_height. lia. }
  rewrite Hb, Nat.mod_small by lia. f_equal.
  unfold cursor_at, line_height. lia.
Qed.

Lemma paged_step (j : nat) (s : str) :
  (j < 53)%nat ->
  paged j (DrawString (cursor_at j) s :: (if (j =? 52)%nat then [ShowPage] else []))
        (cursor_at ((j + 1) mod 53)).
Proof.
  intros Hj. unfold paged, lines_per_page.
  destruct (Nat.eqb_spec j 52) as [->|Hne]; [repeat split; reflexivity|].
  cbn [strings length page_breaks positions seq List.map].
  rewrite Nat.div_small, Nat.add_0_r, (Nat.mod_small j) by lia.
  repeat split; reflexivity.
Qed.

Lemma map_seq_from {A} (f : nat -> A) (a n : nat) :
  List.map f (seq a n) = List.map (fun i => f (a + i)%nat) (seq 0 n).
Proof.
  revert a f. induction n as [|n IH]; intros a f; simpl; [reflexivity|].
  rewrite Nat.add_0_r. f_equal.
  rewrite (IH (S a)), (IH 1%nat). apply map_ext. intros i. f_equal. lia.
Qed.

Lemma paged_app (j : nat) (ops1 ops2 : list (Draw Z)) (y1 y2 : Z) :
  paged j ops1 y1 ->
  paged ((j + length (strings ops1)) mod 53) ops2 y2 ->
  paged j (ops1 ++ ops2) y2.
Proof.
  unfold paged, lines_per_page. intros (Hp1 & Hy1 & Hpos1) (Hp2 & Hy2 & Hpos2).
  rewrite strings_app, length_app, page_breaks_app, positions_app.
  set (n1 := length (strings ops1)) in *. set (n2 := length (strings ops2)) in *.
  destruct (div_mod_53 (j + n1) n2) as [Hdiv Hmod].
  rewrite Nat.add_assoc.
  split; [rewrite Hdiv, Hp1, Hp2; reflexivity|].
  split; [rewrite Hmod; exact Hy2|].
  rewrite seq_app, map_app, Hpos1, Hpos2. f_equal.
  rewrite (map_seq_from _ (0 + n1) n2). apply map_ext. intros i.
  destruct (div_mod_53 (j + n1) i) as [_ Hi].
  rewrite <- Hi. f_equal. f_equal. lia.
Qed.

Lemma draw_line_fuel_paged (fuel : nat) :
  forall (line : str) (j : nat),
    (j < 53)%nat -> (length line <= fuel)%nat ->
    paged j (fst (exact_line_fuel fuel line (cursor_at j)))
            (snd (exact_line_fuel fuel line (cursor_at j))).
Proof.
  induction fuel as [|fuel IH]; intros line j Hj Hlen.
  - destruct line; [|simpl in Hlen; lia].
    cbn [draw_line_fuel length Nat.ltb Nat.leb max_chars_per_line].
    rewrite (exact_advance_at j Hj). exact (paged_step j [] Hj).
  - cbn [draw_line_fuel]. unfold max_chars_per_line.
    rewrite (exact_advance_at j Hj).
    destruct (Nat.ltb_spec 95 (length line)) as [Hlong|Hshort];
      [|exact (paged_step j line Hj)].
    assert (Hj' : ((j + 1) mod 53 < 53)%nat) by (apply Nat.mod_upper_bound; lia).
    assert (Hrest : (length (drop 95 line) <= fuel)%nat)
      by (rewrite length_drop; lia).
    specialize (IH (drop 95 line) ((j + 1) mod 53)%nat Hj' Hrest).
    destruct (exact_line_fuel fuel (drop 95 line) (cursor_at ((j + 1) mod 53)))
      as [ops y2].
    cbn [fst snd] in *.
    apply (paged_app j
             (DrawString (cursor_at j) (take 95 line)
                :: (if (j =? 52)%nat then [ShowPage] else []))
             ops (cursor_at ((j + 1) mod 53)) y2 (paged_step j _ Hj)).
    replace (length (strings (DrawString (cursor_at j) (take 95 line)
                                :: (if (j =? 52)%nat then [ShowPage] else []))))
      with 1%nat by (destruct (j =? 52)%nat; reflexivity).
    exact IH.
Qed.

Lemma draw_lines_paged (lines : list str) :
  forall j, (j < 53)%nat ->
    paged j (fst (exact_lines lines (cursor_at j)))
            (snd (exact_lines lines (cursor_at j))).
Proof.
  induction lines as [|l rest IH]; intros j Hj.
  - cbn [draw_lines fst snd]. unfold paged, lines_per_page.
    cbn [strings length page_breaks positions seq List.map].
    rewrite Nat.add_0_r, Nat.div_small, Nat.mod_small by lia.
    repeat split; reflexivity.
  - cbn [draw_lines]. unfold draw_line.
    pose proof (draw_line_fuel_paged (length (rstrip_newline l))
                  (rstrip_newline l) j Hj (le_n _)) as Hl.
    destruct (exact_line_fuel (length (rstrip_newline l)) (rstrip_newline l)
                (cursor_at j)) as [ops y1].
    cbn [fst snd] in Hl.
    assert (Hy1 : y1 = cursor_at ((j + length (strings ops)) mod 53))
      by exact (proj1 (proj2 Hl)).
    assert (Hj' : ((j + length (strings ops)) mod 53 < 53)%nat)
      by (apply Nat.mod_upper_bound; lia).
    specialize (IH _ Hj'). rewrite <- Hy1 in IH.
    destruct (exact_lines rest y1) as [ops' y2]. cbn [fst snd] in *.
    exact (paged_app j ops ops' y1 y2 Hl IH).
Qed.

(** X6.  With the cursor in exact arithmetic, a page holds 53 lines: the
    page is broken after every 53rd string drawn, and the string of index
    [i] is drawn [i mod 53] line heights below the top margin. *)
Theorem draw_text_pages (text : str) :
  let ops := draw_text_exact text in
  let n := length (strings ops) in
  page_breaks ops = (n / 53)%nat /\
  positions ops = List.map (fun i => cursor_at (i mod 53)) (seq 0 n).
Proof.
  cbv zeta. unfold draw_text_exact, draw_text.
  pose proof (draw_lines_paged (splitlines text) 0%nat ltac:(lia)) as H.
  change (cursor_at 0) with (a4_height - margin)%Z in H.
  destruct H as (Hp & _ & Hpos). split; [exact Hp | exact Hpos].
Qed.

Example draw_text_second_page :
  let ops := draw_text_exact (concat (repeat (lit "x" ++ [10%N]) 54)) in
  length (strings ops) = 54%nat /\ page_breaks ops = 1%nat /\
  nth 52 (positions ops) 0%Z = cursor_at 52 /\
  nth 53 (positions ops) 0%Z = cursor_at 0.
Proof. vm_compute. repeat split; reflexivity. Qed.

(** ** More on the backend locator *)

Lemma first_existing_some (cs : list str) (fs : FS) (s : str) :
  first_existing cs fs = Some s ->
  In s cs /\ fs_exists (path_of_str s) fs = true.
Proof.
  induction cs as [|c cs IH]; simpl; [discriminate|].
  destruct (fs_exists (path_of_str c) fs) eqn:E.
  - intros [= <-]. auto.
  - intros H. destruct (IH H). auto.
Qed.

Lemma first_existing_none (cs : list str) (fs : FS) :
  first_existing cs fs = None ->
  forall c, In c cs -> fs_exists (path_of_str c) fs = false.
Proof.
  induction cs as [|c cs IH]; simpl; [intros _ c []|].
  destruct (fs_exists (path_of_str c) fs) eqn:E; [discriminate|].
  intros H c' [<-|Hc]; auto.
Qed.

Lemma find_soffice_cases (host : Host) (w : World) :
  fst (find_soffice host w) =
  Ok (match on_path host "soffice" with
      | Some p => Some p
      | None =>
          match on_path host "libreoffice" with
          | Some p => Some p
          | None => first_existing (mac_candidates host) (w_fs w)
          end
      end).
Proof.
  unfold find_soffice, on_path.
  destruct (host_which host (lit "soffice")) as [[|c t]|];
    destruct (host_which host (lit "libreoffice")) as [[|c' t']|]; reflexivity.
Qed.

(** X7.  The locator looks on the search path for "soffice", then for
    "libreoffice", then at the two macOS places, and answers with the
    first it finds: a hit on the search path wins over the macOS places
    and "soffice" over "libreoffice"; what it answers is on the search
    path or exists on disk; it answers [None] only when neither name is on
    the search path and neither place exists; it changes nothing. *)
Theorem find_soffice_order (host : Host) (w : World) :
  snd (find_soffice host w) = w /\
  (forall p, on_path host "soffice" = Some p ->
             fst (find_soffice host w) = Ok (Some p)) /\
  (forall p, on_path host "soffice" = None ->
             on_path host "libreoffice" = Some p ->
             fst (find_soffice host w) = Ok (Some p)) /\
  (forall s, fst (find_soffice host w) = Ok (Some s) ->
             on_path host "soffice" = Some s \/
             on_path host "libreoffice" = Some s \/
             (In s (mac_candidates host) /\
              fs_exists (path_of_str s) (w_fs w) = true)) /\
  (fst (find_soffice host w) = Ok None ->
   on_path host "soffice" = None /\ on_path host "libreoffice" = None /\
   forall c, In c (mac_candidates host) ->
             fs_exists (path_of_str c) (w_fs w) = false).
Proof.
  split; [apply find_soffice_pure|].
  rewrite find_soffice_cases.
  destruct (on_path host "soffice") as [p1|] eqn:E1.
  { split; [intros p [= <-]; reflexivity|].
    split; [intros p Hn; discriminate Hn|].
    split; [intros s [= <-]; left; reflexivity | discriminate]. }
  split; [intros p Hp; discriminate Hp|].
  destruct (on_path host "libreoffice") as [p2|] eqn:E2.
  { split; [intros p _ [= <-]; reflexivity|].
    split; [intros s [= <-]; right; left; reflexivity | discriminate]. }
  split; [intros p _ Hp; discriminate Hp|].
  split.
  - intros s H. right. right. apply first_existing_some. congruence.
  - intros H. split; [reflexivity|]. split; [reflexivity|].
    apply first_existing_none. congruence.
Qed.

Lemma find_soffice_order_witness :
  fst (find_soffice (Scenario.office_host 5 []) Scenario.fresh_world)
  = Ok (Some (lit "/usr/bin/soffice")).
Proof.
  apply (proj1 (proj2 (find_soffice_order (Scenario.office_host 5 [])
                         Scenario.fresh_world))).
  reflexivity.
Defined.

(** ** More on the office backend *)

(** X8.  An engine that ends within the timeout with a non-zero code makes
    the office backend raise [CalledProcessError] with that code and the
    captured error output; the child is recorded as ended, the dispatcher
    passes the exception on unchanged, and the name step answers it with
    the text for a failed LibreOffice run, which is neither the timeout
    text nor the generic one. *)
Theorem office_nonzero_exit (host : Host) (input_path out_dir : Path)
    (timeout_sec : Z) (soffice : str) (w : World) :
  fst (find_soffice host w) = Ok (Some soffice) ->
  (b_seconds (host_exec host (soffice_cmd soffice input_path out_dir) (w_fs w))
   <= timeout_sec)%Z ->
  b_returncode (host_exec host (soffice_cmd soffice input_path out_dir) (w_fs w))
  <> 0%Z ->
  let cmd := soffice_cmd soffice input_path out_dir in
  let b := host_exec host cmd (w_fs w) in
  let e := CalledProcessError (b_returncode b) cmd (b_stderr b) in
  let w' := add_proc cmd (Exited (b_returncode b)) (apply_writes (b_writes b) w) in
  convert_office_to_pdf host input_path out_dir timeout_sec w = (Raise e, w') /\
  (timeout_sec = default_timeout_sec ->
   classify (lower (suffix input_path)) = OfficeSuite ->
   convert_to_pdf host input_path out_dir w = (Raise e, w')) /\
  conversion_failed e = reply_text (TxtLibreOfficeFailed e).
Proof.
  intros Hloc Hfast Hcode cmd b e w'.
  pose proof (find_soffice_nonempty host w soffice Hloc) as Hso.
  apply find_soffice_eq in Hloc.
  assert (Hoffice : convert_office_to_pdf host input_path out_dir timeout_sec w =
                    (Raise e, w')).
  { unfold convert_office_to_pdf, bind. rewrite Hloc.
    destruct soffice as [|c t]; [congruence|].
    unfold subprocess_run. fold cmd. fold b.
    apply Z.ltb_ge in Hfast. fold cmd in Hfast. fold b in Hfast. rewrite Hfast.
    apply Z.eqb_neq in Hcode. fold cmd in Hcode. fold b in Hcode. rewrite Hcode.
    reflexivity. }
  split; [exact Hoffice|]. split; [|reflexivity].
  intros -> Hc. rewrite convert_to_pdf_arms. cbv zeta. rewrite Hc.
  unfold bind at 1. rewrite Hoffice. reflexivity.
Qed.

(** ** The canonical name as an input name *)

(** X9.  An existing input that is [output.pdf] of the working directory
    is never converted: the dispatcher raises [SameFileError] and changes
    nothing. *)
Theorem output_pdf_as_input (host : Host) (work_dir : Path) (w : World) :
  fs_exists (work_dir ++ [lit "output.pdf"]) (w_fs w) = true ->
  convert_to_pdf host (work_dir ++ [lit "output.pdf"]) work_dir w =
  (Raise (SameFileError (work_dir ++ [lit "output.pdf"])
                        (work_dir ++ [lit "output.pdf"])), w).
Proof.
  intros Hex. rewrite convert_to_pdf_arms. cbv zeta.
  rewrite suffix_output, joinpath_output.
  change (classify (lower (lit ".pdf"))) with PassThrough. cbv iota.
  unfold bind, copyfile.
  rewrite bool_decide_eq_true_2 by reflexivity. rewrite Hex. reflexivity.
Qed.

Lemma last_write_In (q : Path) (ws : list (Path * bytes)) (k : nat) :
  In q (List.map fst ws) -> last_write q ws k <> None.
Proof.
  revert k. induction ws as [|[p dat] rest IH]; intros k; simpl; [intros []|].
  intros [->|Hin].
  - destruct (last_write q rest (S k)); [discriminate|].
    rewrite bool_decide_eq_true_2 by reflexivity. discriminate.
  - specialize (IH (S k) Hin).
    destruct (last_write q rest (S k)); [discriminate | congruence].
Qed.

(** X10.  The same for the office arm: when the stem of the input is
    "output" and the engine, ending well, writes [output.pdf] into the
    working directory, the file found is the canonical path itself and
    the dispatcher raises [SameFileError]. *)
Theorem office_output_stem (host : Host) (input_path work_dir : Path)
    (soffice : str) (w : World) :
  classify (lower (suffix input_path)) = OfficeSuite ->
  stem input_path = lit "output" ->
  fst (find_soffice host w) = Ok (Some soffice) ->
  let cmd := soffice_cmd soffice input_path work_dir in
  let b := host_exec host cmd (w_fs w) in
  (b_seconds b <= default_timeout_sec)%Z -> b_returncode b = 0%Z ->
  In (work_dir ++ [lit "output.pdf"]) (List.map fst (b_writes b)) ->
  convert_to_pdf host input_path work_dir w =
  (Raise (SameFileError (work_dir ++ [lit "output.pdf"])
                        (work_dir ++ [lit "output.pdf"])),
   add_proc cmd (Exited 0) (apply_writes (b_writes b) w)).
Proof.
  intros Harm Hstem Hloc cmd b Hfast Hzero Hin.
  rewrite convert_to_pdf_arms. cbv zeta. rewrite Harm, joinpath_output.
  unfold bind at 1.
  rewrite (convert_office_can host input_path work_dir default_timeout_sec w
             soffice Hloc Hfast Hzero).
  fold cmd. fold b.
  set (w' := add_proc cmd (Exited 0) (apply_writes (b_writes b) w)).
  assert (Hex : fs_exists (work_dir ++ [lit "output.pdf"]) (w_fs w') = true).
  { apply fs_exists_lookup. unfold w', add_proc. cbn [w_fs].
    rewrite apply_writes_lookup.
    pose proof (last_write_In _ _ (w_clock w) Hin) as Hl.
    destruct (last_write (work_dir ++ [lit "output.pdf"]) (b_writes b) (w_clock w))
      as [[dat t]|]; [discriminate | congruence]. }
  unfold discover_output, bind, path_exists. rewrite Hstem.
  change (joinpath work_dir (lit "output" ++ lit ".pdf"))
    with (work_dir ++ [lit "output.pdf"]).
  rewrite Hex. cbn [ret]. unfold copyfile.
  rewrite bool_decide_eq_true_2 by reflexivity. rewrite Hex. reflexivity.
Qed.

(** ** The pass-through arm *)

(** X11.  A PDF input that is a file, in a working directory that exists
    and whose [output.pdf] is not a directory and not the input, is
    converted: the dispatcher returns [output.pdf], which then holds the
    very bytes of the input, and the input is as it was. *)
Theorem pdf_is_copied (host : Host) (input_path work_dir : Path) (w : World)
    (data : bytes) (t : nat) :
  lower (suffix input_path) = lit ".pdf" ->
  fs_lookup input_path (w_fs w) = Some (Node false data t) ->
  input_path <> work_dir ++ [lit "output.pdf"] ->
  fs_is_dir work_dir (w_fs w) = true ->
  fs_is_dir (work_dir ++ [lit "output.pdf"]) (w_fs w) = false ->
  let w' := snd (convert_to_pdf host input_path work_dir w) in
  fst (convert_to_pdf host input_path work_dir w) = Ok (work_dir ++ [lit "output.pdf"]) /\
  fs_lookup (work_dir ++ [lit "output.pdf"]) (w_fs w')
  = Some (Node false data (w_clock w)) /\
  fs_lookup input_path (w_fs w') = Some (Node false data t).
Proof.
  intros Hext Hin Hne Hdir Hout.
  rewrite !convert_to_pdf_arms. cbv zeta. rewrite Hext, joinpath_output.
  change (classify (lit ".pdf")) with PassThrough. cbv iota.
  unfold fs_is_dir in Hdir.
  destruct (fs_lookup work_dir (w_fs w)) as [nd|] eqn:Hwd; [|discriminate].
  assert (Hcp : copyfile input_path (work_dir ++ [lit "output.pdf"]) w =
                (Ok tt, stamp (work_dir ++ [lit "output.pdf"]) false data w)).
  { apply (copyfile_can _ _ _ _ data Hne (read_bytes_file _ _ _ _ Hin)).
    apply (write_bytes_can _ _ _ nd Hout); [|exact Hdir].
    rewrite removelast_snoc. exact Hwd. }
  unfold bind. rewrite Hcp. cbn [ret fst snd].
  split; [reflexivity|]. split; [apply stamp_lookup|].
  unfold stamp. cbn [w_fs]. rewrite fs_lookup_put_ne by congruence. exact Hin.
Qed.

(** ** Paths and their strings *)

Lemma path_of_str_relative (s : str) :
  head s <> Some 47%N ->
  path_of_str s = List.filter keep_part (split_on 47 s).
Proof.
  intros H. unfold path_of_str. destruct s as [|c s']; [reflexivity|].
  destruct (N.eq_dec c 47%N) as [->|Hne]; [exfalso; apply H; reflexivity|].
  clear H.
  destruct c as [|p]; [reflexivity|].
  do 7 (try destruct p as [p|p|]; try reflexivity).
  all: congruence.
Qed.

Lemma path_of_str_absolute (s : str) :
  path_of_str (47%N :: s) = lit "/" :: List.filter keep_part (split_on 47 s).
Proof. reflexivity. Qed.

Lemma split_on_nosep (x : str) : ~ In 47%N x -> split_on 47 x = [x].
Proof.
  induction x as [|c x IH]; simpl; [reflexivity|]. intros H.
  destruct (N.eqb_spec c 47) as [->|Hne]; [exfalso; apply H; auto|].
  rewrite IH by (intros Hin; apply H; auto). reflexivity.
Qed.

Lemma split_on_sep (x rest : str) :
  ~ In 47%N x -> split_on 47 (x ++ 47%N :: rest) = x :: split_on 47 rest.
Proof.
  induction x as [|c x IH]; simpl; [reflexivity|]. intros H.
  destruct (N.eqb_spec c 47) as [->|Hne]; [exfalso; apply H; auto|].
  rewrite IH by (intros Hin; apply H; auto). reflexivity.
Qed.

Lemma split_on_join (ps : list str) :
  ps <> [] -> Forall wf_part ps -> split_on 47 (join_parts ps) = ps.
Proof.
  intros Hne Hps. induction Hps as [|x ps Hx Hps IH]; [congruence|].
  destruct Hx as (_ & _ & Hx).
  destruct ps as [|y ps']; [apply split_on_nosep, Hx|].
  change (join_parts (x :: y :: ps')) with (x ++ 47%N :: join_parts (y :: ps')).
  rewrite split_on_sep by exact Hx. f_equal. apply IH. discriminate.
Qed.

Lemma filter_keep_wf (ps : list str) :
  Forall wf_part ps -> List.filter keep_part ps = ps.
Proof.
  induction 1 as [|x ps (Hx1 & Hx2 & _) Hps IH]; simpl; [reflexivity|].
  unfold keep_part at 1.
  rewrite (bool_decide_eq_false_2 (x = [])), (bool_decide_eq_false_2 (x = lit "."))
    by assumption.
  simpl. rewrite IH. reflexivity.
Qed.

Lemma split_on_parts (s : str) : Forall (fun p => ~ In 47%N p) (split_on 47 s).
Proof.
  induction s as [|c s IH]; simpl; [repeat constructor; auto|].
  destruct (N.eqb_spec c 47) as [->|Hne]; [constructor; [auto | exact IH]|].
  destruct (split_on 47 s) as [|h r]; [repeat constructor; intros [?|[]]; congruence|].
  inversion IH; subst. constructor; [|assumption].
  intros [?|?]; [congruence | auto].
Qed.

Lemma filter_keep_parts (ps : list str) :
  Forall (fun p => ~ In 47%N p) ps -> Forall wf_part (List.filter keep_part ps).
Proof.
  induction 1 as [|x ps Hx Hps IH]; simpl; [constructor|].
  unfold keep_part at 1.
  destruct (decide (x = [])) as [->|H1]; [exact IH|].
  destruct (decide (x = lit ".")) as [->|H2]; [exact IH|].
  rewrite (bool_decide_eq_false_2 (x = [])), (bool_decide_eq_false_2 (x = lit "."))
    by assumption.
  simpl. constructor; [repeat split; assumption | exact IH].
Qed.

(** What [Path(s)] gives: parts without "/", none empty and none ".",
    after the root if there is one. *)
Lemma path_of_str_parts (s : str) :
  exists ps, Forall wf_part ps /\
             (path_of_str s = ps \/ path_of_str s = lit "/" :: ps).
Proof.
  destruct s as [|c s'].
  - exists []. split; [constructor | left; reflexivity].
  - destruct (N.eq_dec c 47%N) as [->|Hne].
    + exists (List.filter keep_part (split_on 47 s')).
      split; [apply filter_keep_parts, split_on_parts | right; reflexivity].
    + exists (List.filter keep_part (split_on 47 (c :: s'))).
      split; [apply filter_keep_parts, split_on_parts|].
      left. apply path_of_str_relative. simpl. congruence.
Qed.

Lemma wf_part_not_root (x : str) : wf_part x -> x <> lit "/".
Proof. intros (_ & _ & H) ->. apply H. left. reflexivity. Qed.

Lemma join_parts_head (ps : list str) :
  Forall wf_part ps -> head (join_parts ps) <> Some 47%N.
Proof.
  destruct 1 as [|x ps (Hx1 & _ & Hx3) Hps]; [discriminate|].
  assert (Hh : head x <> Some 47%N).
  { destruct x as [|c x']; [congruence|]. simpl. intros [= ->].
    apply Hx3. left. reflexivity. }
  destruct ps as [|y ps']; [exact Hh|].
  change (join_parts (x :: y :: ps')) with (x ++ 47%N :: join_parts (y :: ps')).
  destruct x; [congruence | exact Hh].
Qed.

(** A path of well-formed parts, with or without the root, is read back
    from its string. *)
Lemma path_str_round_trip (ps : list str) :
  Forall wf_part ps ->
  path_of_str (str_of_path ps) = ps /\
  path_of_str (str_of_path (lit "/" :: ps)) = lit "/" :: ps.
Proof.
  intros Hps. split.
  - destruct ps as [|x ps']; [reflexivity|].
    unfold str_of_path.
    rewrite bool_decide_eq_false_2
      by (apply wf_part_not_root; inversion Hps; assumption).
    rewrite path_of_str_relative by (apply join_parts_head, Hps).
    rewrite split_on_join by (discriminate || exact Hps).
    apply filter_keep_wf, Hps.
  - unfold str_of_path. rewrite bool_decide_eq_true_2 by reflexivity.
    rewrite path_of_str_absolute. f_equal.
    destruct ps as [|x ps']; [reflexivity|].
    rewrite split_on_join by (discriminate || exact Hps).
    apply filter_keep_wf, Hps.
Qed.

(** ** The file step *)

Lemma fs_put_fresh (p : Path) (nd : node) (fs : FS) :
  fs_lookup p fs = None -> fs_put p nd fs = fs ++ [(p, nd)].
Proof.
  induction fs as [|[q old] t IH]; simpl; [reflexivity|].
  case_bool_decide as Hq; [discriminate|]. intros Hn. rewrite IH by exact Hn.
  reflexivity.
Qed.

Lemma fs_remove_tree_fresh (d : Path) (nd : node) (fs : FS) :
  d <> [] ->
  (forall p x, In (p, x) fs -> within d p = false) ->
  fs_remove_tree d (fs_put d nd fs) = fs.
Proof.
  intros Hd Hout.
  assert (Hnone : fs_lookup d fs = None).
  { destruct (fs_lookup d fs) eqn:E; [|reflexivity].
    assert (Hin : fs_lookup d fs <> None) by congruence.
    apply fs_lookup_In in Hin. destruct Hin as [x Hin].
    pose proof (Hout d x Hin) as Hw. rewrite (within_refl d Hd) in Hw.
    discriminate. }
  rewrite (fs_put_fresh d nd fs Hnone). unfold fs_remove_tree.
  rewrite List.filter_app. simpl. rewrite (within_refl d Hd). simpl.
  rewrite bool_decide_eq_false_2 by exact Hd. rewrite app_nil_r.
  clear Hnone. induction fs as [|[p x] t IH]; simpl; [reflexivity|].
  rewrite (Hout p x) by (left; reflexivity). simpl.
  rewrite IH; [reflexivity|]. intros q y Hq. apply (Hout q y). right. exact Hq.
Qed.

Lemma send_frame (r : Reply) (w : World) :
  w_fs (snd (send r w)) = w_fs w /\
  w_user_data (snd (send r w)) = w_user_data w.
Proof. unfold send. destruct (w_net w) as [|[|] rest]; auto. Qed.

Lemma reply_then_ret {A} (t : Text) (x : A) (w : World) :
  let r := (reply_text t ;; ret x) w in
  snd r = snd (send (ReplyText t) w) /\
  (fst r = Ok x \/ exists e, fst r = Raise e).
Proof.
  cbv zeta. unfold bind, reply_text, ret.
  destruct (send (ReplyText t) w) as [[u|e] w']; simpl; eauto.
Qed.

Lemma next_tmp_ne (host : Host) (w : World) : next_tmp host w <> [].
Proof. unfold next_tmp. destruct (host_tmpdir host); discriminate. Qed.

Lemma download_done_world (d input_path : Path) (original_name : str) (w : World) :
  let r := download_done d input_path original_name w in
  w_fs (snd r) = w_fs w /\
  w_user_data (snd r) =
    <["input_path" := str_of_path input_path]>
      (<["work_dir" := str_of_path d]> (w_user_data w)) /\
  (fst r = Ok WAIT_NAME \/ exists e, fst r = Raise e).
Proof.
  cbv zeta.
  set (w2 := snd ((user_data_set "work_dir" (str_of_path d) ;;
                   user_data_set "input_path" (str_of_path input_path)) w)).
  set (t := TxtGotIt (sanitize_filename (stem (path_of_str original_name))
                        default_max_len)).
  assert (Heq : download_done d input_path original_name w =
                (reply_text t ;; ret WAIT_NAME) w2) by reflexivity.
  rewrite Heq.
  destruct (reply_then_ret t WAIT_NAME w2) as [Hs Hr]. cbv zeta in Hs, Hr.
  destruct (send_frame (ReplyText t) w2) as [Hf Hu].
  rewrite !Hs, Hf, Hu. split; [reflexivity|]. split; [reflexivity | exact Hr].
Qed.

Lemma download_failed_world (d : Path) (e : exn) (w : World) :
  fs_is_dir d (w_fs w) = true ->
  let r := download_failed d e w in
  w_fs (snd r) = fs_remove_tree d (w_fs w) /\
  w_user_data (snd r) = w_user_data w /\
  (fst r = Ok (Some WAIT_FILE) \/ exists e', fst r = Raise e').
Proof.
  intros Hdir. cbv zeta.
  assert (Hrm : download_failed d e w =
                (reply_text (TxtDownloadFailed e) ;; ret (Some WAIT_FILE))
                  (set_fs (fs_remove_tree d (w_fs w)) w)).
  { unfold download_failed, bind at 1, rmtree. rewrite Hdir. reflexivity. }
  rewrite Hrm.
  destruct (reply_then_ret (TxtDownloadFailed e) (Some WAIT_FILE)
              (set_fs (fs_remove_tree d (w_fs w)) w)) as [Hs Hr].
  cbv zeta in Hs, Hr.
  destruct (send_frame (ReplyText (TxtDownloadFailed e))
              (set_fs (fs_remove_tree d (w_fs w)) w)) as [Hf Hu].
  rewrite !Hs, Hf, Hu. auto.
Qed.

(** The two ways through the file step once the size is accepted. *)
Lemma accept_upload_outcome (host : Host) (file_id original_name : str) (w : World) :
  let d := next_tmp host w in
  let input_path := joinpath d original_name in
  let w1 := snd (mkdtemp host (lit "tg_pdf_") w) in
  (exists data,
     host_download host file_id = Some data /\
     write_bytes input_path data w1 = (Ok tt, stamp input_path false data w1) /\
     accept_upload host file_id original_name w =
     download_done d input_path original_name (stamp input_path false data w1)) \/
  (exists e,
     (host_download host file_id = None \/
      exists data, host_download host file_id = Some data /\
                   write_bytes input_path data w1 = (Raise e, w1)) /\
     accept_upload host file_id original_name w =
     match download_failed d e w1 with
     | (Ok None, w3) => download_done d input_path original_name w3
     | (Ok (Some s), w3) => (Ok s, w3)
     | (Raise e', w3) => (Raise e', w3)
     end).
Proof.
  cbv zeta.
  set (d := next_tmp host w). set (w1 := snd (mkdtemp host (lit "tg_pdf_") w)).
  set (body := (match host_download host file_id with
                | None => raise TelegramError
                | Some data => write_bytes (joinpath d original_name) data
                end ;; ret (@None state))).
  assert (Hstep : accept_upload host file_id original_name w =
                  match body w1 with
                  | (Ok None, w2) => download_done d (joinpath d original_name) original_name w2
                  | (Ok (Some s), w2) => (Ok s, w2)
                  | (Raise e, w2) =>
                      match download_failed d e w2 with
                      | (Ok None, w3) =>
                          download_done d (joinpath d original_name) original_name w3
                      | (Ok (Some s), w3) => (Ok s, w3)
                      | (Raise e', w3) => (Raise e', w3)
                      end
                  end).
  { unfold accept_upload, mkdtemp. unfold bind at 1. fold (next_tmp host w). fold d.
    unfold bind at 1, try_except. fold body.
    change (mkWorld _ _ _ _ _ _ _) with w1.
    destruct (body w1) as [[[s|]|e] w2]; [reflexivity | reflexivity|].
    change (rmtree d ;; reply_text (TxtDownloadFailed e) ;; ret (Some WAIT_FILE))
      with (download_failed d e).
    destruct (download_failed d e w2) as [[[s|]|e'] w3]; reflexivity. }
  rewrite Hstep. unfold body, bind.
  destruct (host_download host file_id) as [data|].
  - destruct (write_bytes (joinpath d original_name) data w1) as [[[]|e] w2] eqn:Hw.
    + left. exists data. split; [reflexivity|].
      destruct (write_bytes_ok _ _ _ _ Hw) as (-> & _).
      split; [exact Hw | reflexivity].
    + right. exists e.
      assert (w2 = w1) as ->.
      { unfold write_bytes in Hw.
        destruct (fs_is_dir _ (w_fs w1)); [congruence|].
        destruct (fs_lookup _ (w_fs w1)) as [nd|]; [|congruence].
        destruct (n_dir nd); congruence. }
      split; [right; exists data; auto | reflexivity].
  - right. exists TelegramError. split; [left; reflexivity | reflexivity].
Qed.

(** X12.  The file step makes no half-made workspace.  With nothing yet
    under the name of the new directory, after the step either the
    directory exists and holds the downloaded bytes at the input path, or,
    when the download or the write fails, the file system and
    [user_data] are exactly as before and the step does not go on to the
    name step. *)
Theorem accept_upload_all_or_nothing (host : Host) (file_id original_name : str)
    (w : World) :
  (forall p x, In (p, x) (w_fs w) -> within (next_tmp host w) p = false) ->
  let d := next_tmp host w in
  let w' := snd (accept_upload host file_id original_name w) in
  (exists data,
     host_download host file_id = Some data /\
     w_fs w' = fs_put (joinpath d original_name) (Node false data (S (w_clock w)))
                 (fs_put d (Node true [] (w_clock w)) (w_fs w))) \/
  (w_fs w' = w_fs w /\ w_user_data w' = w_user_data w /\
   fst (accept_upload host file_id original_name w) <> Ok WAIT_NAME).
Proof.
  intros Hout d w'. unfold w'. clear w'.
  destruct (accept_upload_outcome host file_id original_name w)
    as [(data & Hdl & _ & ->)|(e & _ & ->)]; fold d.
  - left. exists data. split; [exact Hdl|].
    match goal with
    | |- context [download_done ?a ?b ?c ?w0] =>
        destruct (download_done_world a b c w0) as (Hfs & _)
    end.
    cbv zeta in Hfs. rewrite Hfs. reflexivity.
  - right.
    set (w1 := snd (mkdtemp host (lit "tg_pdf_") w)).
    assert (Hdir : fs_is_dir d (w_fs w1) = true).
    { unfold fs_is_dir, w1, mkdtemp. cbn [snd w_fs]. fold (next_tmp host w). fold d.
      unfold stamp. cbn [w_fs]. rewrite fs_lookup_put_eq. reflexivity. }
    destruct (download_failed_world d e w1 Hdir) as (H1 & H2 & H3).
    cbv zeta in H1, H2, H3.
    assert (Hclean : fs_remove_tree d (w_fs w1) = w_fs w).
    { unfold w1, mkdtemp. cbn [snd w_fs]. fold (next_tmp host w). fold d.
      unfold stamp. cbn [w_fs].
      exact (fs_remove_tree_fresh d _ _ (next_tmp_ne host w) Hout). }
    rewrite Hclean in H1.
    destruct (download_failed d e w1) as [[[s|]|e'] w3]; cbn [fst snd] in *.
    + destruct H3 as [[= ->]|[e' H3]]; [|discriminate].
      split; [exact H1|]. split; [exact H2 | discriminate].
    + destruct H3 as [H3|[e' H3]]; discriminate.
    + split; [exact H1|]. split; [exact H2 | discriminate].
Qed.

Lemma download_failed_result (d : Path) (e : exn) (w : World) :
  fst (download_failed d e w) = Ok (Some WAIT_FILE) \/
  exists e', fst (download_failed d e w) = Raise e'.
Proof.
  assert (Heq : exists w0, download_failed d e w =
                           (reply_text (TxtDownloadFailed e) ;; ret (Some WAIT_FILE)) w0).
  { unfold download_failed, bind at 1, rmtree.
    destruct (fs_is_dir d (w_fs w)); eexists; reflexivity. }
  destruct Heq as [w0 ->]. exact (proj2 (reply_then_ret _ _ w0)).
Qed.

Lemma digits_no_slash (u : Decimal.uint) :
  ~ In 47%N (lit (NilEmpty.string_of_uint u)).
Proof.
  induction u; simpl; [tauto|..]; intros [H|H]; try discriminate H; auto.
Qed.

Lemma next_tmp_name_wf (n : nat) :
  wf_part (lit "tg_pdf_" ++ lit (NilEmpty.string_of_uint (Nat.to_uint n))).
Proof.
  split; [discriminate|]. split; [discriminate|].
  intros H. apply in_app_or in H. destruct H as [H|H].
  - simpl in H. repeat destruct H as [H|H]; try discriminate H. exact H.
  - exact (digits_no_slash _ H).
Qed.

Lemma root_round_trip (ps : list str) :
  Forall wf_part ps ->
  path_of_str (str_of_path (lit "/" :: ps)) = lit "/" :: ps.
Proof. intros H. exact (proj2 (path_str_round_trip ps H)). Qed.

Lemma joinpath_rooted (ps : list str) (s : str) :
  Forall wf_part ps ->
  exists qs, Forall wf_part qs /\ joinpath (lit "/" :: ps) s = lit "/" :: qs.
Proof.
  intros Hps. unfold joinpath.
  destruct (path_of_str_parts s) as (qs & Hqs & [Hq|Hq]); rewrite Hq.
  - exists (ps ++ qs). split; [apply Forall_app; auto|].
    assert (Hrel : is_absolute qs = false).
    { destruct qs as [|q qs']; [reflexivity|]. simpl.
      apply bool_decide_eq_false_2, wf_part_not_root.
      inversion Hqs; assumption. }
    rewrite Hrel. reflexivity.
  - exists qs. split; [exact Hqs | reflexivity].
Qed.

Lemma accept_upload_recorded (host : Host) (file_id original_name : str)
    (w : World) :
  fst (accept_upload host file_id original_name w) = Ok WAIT_NAME ->
  let d := next_tmp host w in
  let w' := snd (accept_upload host file_id original_name w) in
  w_user_data w' =
    <["input_path" := str_of_path (joinpath d original_name)]>
      (<["work_dir" := str_of_path d]> (w_user_data w)) /\
  fs_is_dir d (w_fs w') = true /\
  fs_exists (joinpath d original_name) (w_fs w') = true.
Proof.
  intros Hok d w'. unfold w'. clear w'.
  destruct (accept_upload_outcome host file_id original_name w)
    as [(data & Hdl & Hw & Heq)|(e & _ & Heq)]; fold d in Heq; rewrite Heq in Hok |- *.
  - fold d in Hw.
    match goal with
    | |- context [download_done ?a ?b ?c ?w0] =>
        destruct (download_done_world a b c w0) as (Hfs & Hud & _)
    end.
    cbv zeta in Hfs, Hud. rewrite Hfs, Hud.
    split; [reflexivity|].
    apply write_bytes_ok in Hw. destruct Hw as (_ & Hnd & nd & Hpar & Hdir).
    unfold fs_is_dir, fs_exists, stamp. cbn [w_fs].
    rewrite fs_lookup_put_eq. split; [|reflexivity].
    destruct (decide (joinpath d original_name = d)) as [Heqd|Hne].
    + exfalso. rewrite Heqd in Hnd. unfold fs_is_dir, mkdtemp in Hnd.
      cbn [snd w_fs] in Hnd. fold (next_tmp host w) in Hnd. fold d in Hnd.
      unfold stamp in Hnd. cbn [w_fs] in Hnd. rewrite fs_lookup_put_eq in Hnd.
      discriminate.
    + rewrite fs_lookup_put_ne by exact Hne.
      unfold mkdtemp. cbn [snd w_fs]. fold (next_tmp host w). fold d.
      unfold stamp. cbn [w_fs]. rewrite fs_lookup_put_eq. reflexivity.
  - exfalso.
    destruct (download_failed_result d e (snd (mkdtemp host (lit "tg_pdf_") w)))
      as [H|[e' H]];
      destruct (download_failed d e (snd (mkdtemp host (lit "tg_pdf_") w)))
        as [[[s|]|e''] w3]; cbn [fst] in *; congruence.
Qed.

(** [Path(str(p))] is [p] for the paths that the file step records. *)
Lemma recorded_paths (host : Host) (w : World) (ps : list str) (s : str) :
  host_tmpdir host = lit "/" :: ps -> Forall wf_part ps ->
  path_of_str (str_of_path (next_tmp host w)) = next_tmp host w /\
  path_of_str (str_of_path (joinpath (next_tmp host w) s))
  = joinpath (next_tmp host w) s.
Proof.
  intros Htmp Hps.
  assert (Hd : next_tmp host w = lit "/" :: (ps ++ [lit "tg_pdf_" ++
                 lit (NilEmpty.string_of_uint (Nat.to_uint (w_tmp w)))])).
  { unfold next_tmp. rewrite Htmp. reflexivity. }
  assert (Hdwf : Forall wf_part (ps ++ [lit "tg_pdf_" ++
                 lit (NilEmpty.string_of_uint (Nat.to_uint (w_tmp w)))])).
  { apply Forall_app. split; [exact Hps|].
    constructor; [apply next_tmp_name_wf | constructor]. }
  rewrite Hd. split; [apply root_round_trip, Hdwf|].
  destruct (joinpath_rooted _ s Hdwf) as (qs & Hqs & ->).
  apply root_round_trip, Hqs.
Qed.

(** X13.  What the file step records, the name step reads back: when the
    temporary directory of the host is an absolute path, after a file step
    that goes on to the name step the two entries of [user_data], read as
    the name step reads them, are the directory just made and the input
    path in it, whatever the name of the upload; the directory exists and
    so does the input. *)
Theorem file_step_context_round_trip (host : Host) (file_id original_name : str)
    (w : World) (ps : list str) :
  host_tmpdir host = lit "/" :: ps -> Forall wf_part ps ->
  fst (accept_upload host file_id original_name w) = Ok WAIT_NAME ->
  let d := next_tmp host w in
  let w' := snd (accept_upload host file_id original_name w) in
  path_of_str (default [] (w_user_data w' !! "work_dir")) = d /\
  path_of_str (default [] (w_user_data w' !! "input_path"))
  = joinpath d original_name /\
  fs_is_dir d (w_fs w') = true /\
  fs_exists (joinpath d original_name) (w_fs w') = true.
Proof.
  intros Htmp Hps Hok d w'.
  destruct (accept_upload_recorded host file_id original_name w Hok)
    as (Hud & Hdir & Hex).
  destruct (recorded_paths host w ps original_name Htmp Hps) as (Hr1 & Hr2).
  unfold w'. rewrite Hud.
  rewrite lookup_insert_ne by discriminate.
  rewrite !lookup_insert_eq. cbn [default].
  split; [exact Hr1|]. split; [exact Hr2|]. split; [exact Hdir | exact Hex].
Qed.

(** X14.  A name of the upload that is an absolute path decides where the
    upload is written: the working directory plays no part, and the bytes
    land at that very path if its directory exists. *)
Theorem absolute_name_escapes (host : Host) (file_id original_name : str)
    (data : bytes) (w : World) (nd : node) :
  is_absolute (path_of_str original_name) = true ->
  host_download host file_id = Some data ->
  path_of_str original_name <> next_tmp host w ->
  fs_is_dir (path_of_str original_name) (w_fs w) = false ->
  fs_lookup (parent (path_of_str original_name)) (w_fs w) = Some nd ->
  n_dir nd = true ->
  joinpath (next_tmp host w) original_name = path_of_str original_name /\
  fs_lookup (path_of_str original_name)
            (w_fs (snd (accept_upload host file_id original_name w)))
  = Some (Node false data (S (w_clock w))).
Proof.
  intros Habs Hdl Hne Hnd Hpar Hdir.
  assert (Hjoin : joinpath (next_tmp host w) original_name = path_of_str original_name).
  { unfold joinpath. rewrite Habs. reflexivity. }
  split; [exact Hjoin|].
  set (target := path_of_str original_name) in *.
  set (d := next_tmp host w) in *.
  set (w1 := snd (mkdtemp host (lit "tg_pdf_") w)).
  assert (Hfs1 : w_fs w1 = fs_put d (Node true [] (w_clock w)) (w_fs w)) by reflexivity.
  assert (Hw : write_bytes target data w1 = (Ok tt, stamp target false data w1)).
  { destruct (decide (d = parent target)) as [Hp|Hp].
    - apply (write_bytes_can _ _ _ (Node true [] (w_clock w))).
      + unfold fs_is_dir. rewrite Hfs1, fs_lookup_put_ne by congruence. exact Hnd.
      + rewrite Hfs1, <- Hp. apply fs_lookup_put_eq.
      + reflexivity.
    - apply (write_bytes_can _ _ _ nd).
      + unfold fs_is_dir. rewrite Hfs1, fs_lookup_put_ne by congruence. exact Hnd.
      + rewrite Hfs1, fs_lookup_put_ne by exact Hp. exact Hpar.
      + exact Hdir. }
  destruct (accept_upload_outcome host file_id original_name w)
    as [(data' & Hdl' & _ & ->)|(e & [Hnone|(data' & Hdl' & Hw')] & _)].
  - fold d. rewrite Hjoin. fold target. fold w1.
    assert (data' = data) as -> by congruence.
    match goal with
    | |- context [download_done ?a ?b ?c ?w0] =>
        destruct (download_done_world a b c w0) as (Hfs & _)
    end.
    cbv zeta in Hfs. rewrite Hfs. apply stamp_lookup.
  - congruence.
  - exfalso. fold d in Hw'. rewrite Hjoin in Hw'. fold target in Hw'. fold w1 in Hw'.
    assert (data' = data) as -> by congruence. congruence.
Qed.

(** ** The name step and the working directory *)

Section KeepsDir.

Variable d : Path.

Lemma keeps_frame {A} (m : M A) :
  (forall w, w_fs (snd (m w)) = w_fs w) -> keeps_dir d m.
Proof. intros H w Hd. rewrite H. exact Hd. Qed.

Lemma keeps_ret {A} (a : A) : keeps_dir d (ret a).
Proof. apply keeps_frame. reflexivity. Qed.

Lemma keeps_raise {A} (e : exn) : keeps_dir d (@raise A e).
Proof. apply keeps_frame. reflexivity. Qed.

Lemma keeps_bind {A B} (m : M A) (k : A -> M B) :
  keeps_dir d m -> (forall a, keeps_dir d (k a)) -> keeps_dir d (bind m k).
Proof.
  intros Hm Hk w Hd. unfold bind. specialize (Hm w Hd).
  destruct (m w) as [[a|e] w1]; simpl in *; [apply Hk, Hm | exact Hm].
Qed.

Lemma keeps_try_except {A} (m : M A) (h : exn -> M A) :
  keeps_dir d m -> (forall e, keeps_dir d (h e)) -> keeps_dir d (try_except m h).
Proof.
  intros Hm Hh w Hd. unfold try_except. specialize (Hm w Hd).
  destruct (m w) as [[a|e] w1]; simpl in *; [exact Hm | apply Hh, Hm].
Qed.

Lemma keeps_send (r : Reply) : keeps_dir d (send r).
Proof. apply keeps_frame. intros w. apply send_fs. Qed.

Lemma keeps_read_bytes (p : Path) : keeps_dir d (read_bytes p).
Proof.
  apply keeps_frame. intros w. unfold read_bytes.
  destruct (fs_lookup p (w_fs w)) as [nd|]; [destruct (n_dir nd)|]; reflexivity.
Qed.

(** A write never turns a directory into a file. *)
Lemma keeps_write_bytes (p : Path) (data : bytes) : keeps_dir d (write_bytes p data).
Proof.
  intros w Hd. unfold write_bytes.
  destruct (fs_is_dir p (w_fs w)) eqn:Hp; [exact Hd|].
  destruct (fs_lookup (parent p) (w_fs w)) as [nd|]; [|exact Hd].
  destruct (n_dir nd); [|exact Hd].
  unfold stamp, fs_is_dir in *. cbn [snd w_fs].
  rewrite fs_lookup_put_ne; [exact Hd|]. intros ->. congruence.
Qed.

Lemma keeps_copyfile (src dst : Path) : keeps_dir d (copyfile src dst).
Proof.
  intros w Hd. unfold copyfile.
  destruct (bool_decide (src = dst) && fs_exists src (w_fs w)); [exact Hd|].
  revert w Hd. apply keeps_bind; [apply keeps_read_bytes|].
  intros data. apply keeps_write_bytes.
Qed.

Lemma last_write_Some_In (q : Path) (ws : list (Path * bytes)) (k : nat) :
  last_write q ws k <> None -> In q (List.map fst ws).
Proof.
  revert k. induction ws as [|[p dat] rest IH]; intros k; simpl; [congruence|].
  destruct (last_write q rest (S k)) eqn:E.
  - intros _. right. apply (IH (S k)). congruence.
  - case_bool_decide as Hp; [auto | congruence].
Qed.

Variable host : Host.
Hypothesis Hspares : spares host d.

Lemma keeps_subprocess_run (cmd : list str) (timeout : Z) :
  keeps_dir d (subprocess_run host cmd timeout).
Proof.
  intros w Hd. unfold subprocess_run.
  destruct (timeout <? _)%Z; [exact Hd|].
  assert (Hw : fs_is_dir d (w_fs (apply_writes (b_writes (host_exec host cmd (w_fs w))) w))
               = true).
  { unfold fs_is_dir. rewrite apply_writes_lookup.
    destruct (last_write d _ (w_clock w)) eqn:E; [|exact Hd].
    exfalso. apply (Hspares cmd (w_fs w)).
    apply (last_write_Some_In _ _ (w_clock w)). congruence. }
  destruct (_ =? 0)%Z; exact Hw.
Qed.

Lemma keeps_find_soffice : keeps_dir d (find_soffice host).
Proof. apply keeps_frame. intros w. rewrite find_soffice_pure. reflexivity. Qed.

Lemma keeps_discover_output (input_path out_dir : Path) :
  keeps_dir d (discover_output input_path out_dir).
Proof.
  apply keeps_frame. intros w.
  destruct (discover_output input_path out_dir w) as [r w'] eqn:E.
  apply discover_output_pure in E. subst w'. reflexivity.
Qed.

Lemma keeps_convert_to_pdf (input_path work_dir : Path) :
  keeps_dir d (convert_to_pdf host input_path work_dir).
Proof.
  rewrite convert_to_pdf_arms. cbv zeta.
  destruct (classify (lower (suffix input_path))).
  - apply keeps_bind; [apply keeps_copyfile | intros; apply keeps_ret].
  - apply keeps_bind; [|intros; apply keeps_ret].
    apply keeps_bind; [apply keeps_read_bytes | intros img].
    apply keeps_bind; [apply keeps_frame; reflexivity | intros now].
    destruct (host_img2pdf host now img);
      [apply keeps_write_bytes | apply keeps_raise].
  - apply keeps_bind; [|intros; apply keeps_ret].
    apply keeps_bind; [apply keeps_read_bytes | intros text].
    apply keeps_bind; [apply keeps_frame; reflexivity | intros now].
    apply keeps_write_bytes.
  - apply keeps_bind.
    + unfold convert_office_to_pdf.
      apply keeps_bind; [apply keeps_find_soffice | intros [[|c t]|]];
        try apply keeps_raise.
      apply keeps_bind; [apply keeps_subprocess_run | intros; apply keeps_discover_output].
    + intros out_pdf.
      apply keeps_bind; [apply keeps_copyfile | intros; apply keeps_ret].
Qed.

Lemma keeps_conversion_failed (e : exn) : keeps_dir d (conversion_failed e).
Proof. destruct e; apply keeps_send. Qed.

End KeepsDir.

Lemma send_delivered (r : Reply) (w : World) :
  head (w_net w) <> Some false ->
  exists w2, send r w = (Ok tt, w2) /\ w_fs w2 = w_fs w /\
             w_user_data w2 = w_user_data w.
Proof.
  intros H. unfold send. destruct (w_net w) as [|[|] rest]; simpl in *;
    try (exfalso; apply H; reflexivity); eexists; repeat split.
Qed.

Lemma within_not_nil (d p : Path) : d <> [] -> within d p = true -> p <> [].
Proof.
  intros Hd Hw ->. unfold within in Hw. apply andb_true_iff in Hw.
  destruct Hw as [Hw _]. apply bool_decide_eq_true in Hw.
  rewrite take_nil in Hw. congruence.
Qed.

Lemma name_step_final_world (host : Host) (msg : Message) (w : World)
    (d : Path) :
  path_of_str (default [] (w_user_data w !! "work_dir")) = d ->
  fs_is_dir d (w_fs w) = true ->
  fs_exists (path_of_str (default [] (w_user_data w !! "input_path"))) (w_fs w) = true ->
  head (w_net w) <> Some false ->
  spares host d ->
  exists w3,
    fs_is_dir d (w_fs w3) = true /\
    snd (receive_name_and_convert host msg w)
    = set_fs (fs_remove_tree d (w_fs w3)) (set_user_data ∅ w3).
Proof.
  intros Hwd Hdir Hin Hnet Hsp.
  set (input_path := path_of_str (default [] (w_user_data w !! "input_path"))) in *.
  set (body := try_except
                 (pdf_path <- convert_to_pdf host input_path d ;;
                  f <- read_bytes pdf_path ;;
                  reply_document
                    (sanitize_filename (str_or (msg_text msg) []) default_max_len
                     ++ lit ".pdf") f ;;
                  reply_text TxtDone)
                 conversion_failed).
  assert (Hstep : receive_name_and_convert host msg w =
                  (reply_text TxtConverting ;;
                   try_finally body (user_data_clear ;; rmtree d) ;;
                   ret END) w).
  { unfold receive_name_and_convert.
    unfold bind at 1, user_data_get. unfold bind at 1.
    rewrite Hwd. fold input_path.
    unfold bind at 1, path_exists. unfold bind at 1.
    assert (Hex : fs_exists d (w_fs w) = true).
    { unfold fs_exists. unfold fs_is_dir in Hdir.
      destruct (fs_lookup d (w_fs w)); [reflexivity | discriminate]. }
    rewrite Hex, Hin. reflexivity. }
  assert (Hkeep : keeps_dir d body).
  { unfold body. apply keeps_try_except; [|apply keeps_conversion_failed].
    apply keeps_bind; [apply keeps_convert_to_pdf, Hsp | intros pdf_path].
    apply keeps_bind; [apply keeps_read_bytes | intros f].
    apply keeps_bind; [apply keeps_send | intros; apply keeps_send]. }
  assert (Hfinal : exists w3,
            fs_is_dir d (w_fs w3) = true /\
            snd ((reply_text TxtConverting ;;
                  try_finally body (user_data_clear ;; rmtree d) ;;
                  ret END) w)
            = set_fs (fs_remove_tree d (w_fs w3)) (set_user_data ∅ w3)).
  { unfold bind at 1, reply_text.
    destruct (send_delivered (ReplyText TxtConverting) w Hnet) as (w2 & -> & Hfs2 & _).
    assert (Hdir2 : fs_is_dir d (w_fs w2) = true) by (rewrite Hfs2; exact Hdir).
    specialize (Hkeep w2 Hdir2).
    unfold bind, try_finally.
    destruct (body w2) as [r w3]. cbn [snd] in Hkeep.
    exists w3. split; [exact Hkeep|].
    unfold user_data_clear, rmtree. cbn [w_fs set_user_data].
    rewrite Hkeep. destruct r; reflexivity. }
  rewrite Hstep. exact Hfinal.
Qed.

(** X15.  Once the name step has sent "Converting", the working directory
    does not survive it.  Let the directory recorded in [user_data] be a
    directory other than the current one, let the recorded input exist,
    and let no child process write to the path of the directory itself.
    Then, whatever the conversion and the delivery do (success, timeout,
    failed engine, undecodable input, failed send), after the step
    nothing is left at or below the directory and [user_data] is
    empty. *)
Theorem name_step_removes_work_dir (host : Host) (msg : Message) (w : World)
    (d : Path) :
  path_of_str (default [] (w_user_data w !! "work_dir")) = d ->
  d <> [] ->
  fs_is_dir d (w_fs w) = true ->
  fs_exists (path_of_str (default [] (w_user_data w !! "input_path"))) (w_fs w) = true ->
  head (w_net w) <> Some false ->
  spares host d ->
  let w' := snd (receive_name_and_convert host msg w) in
  w_user_data w' = ∅ /\
  forall p, within d p = true -> fs_lookup p (w_fs w') = None.
Proof.
  intros Hwd Hd Hdir Hin Hnet Hsp.
  destruct (name_step_final_world host msg w d Hwd Hdir Hin Hnet Hsp)
    as (w3 & _ & Hw3).
  cbv zeta. rewrite Hw3.
  split; [reflexivity|]. intros p Hp. cbn [w_fs set_fs].
  apply fs_remove_tree_lookup; [exact Hp | exact (within_not_nil d p Hd Hp)].
Qed.

(** X16.  A job that reaches the name step leaves no directory behind.
    After a file step that accepts the upload and goes on to the name
    step, the name step, run on any message in the world the file step
    left, ends with nothing at or below the directory the file step made
    and with an empty [user_data], provided the "Converting" reply is
    delivered, the temporary directory of the host is an absolute path
    and no child process writes to the path of the directory itself. *)
Theorem job_leaves_no_directory (host : Host) (upload answer : Message)
    (file_id original_name : str) (file_size : option Z) (w : World)
    (ps : list str) :
  upload_of upload = Some (file_id, original_name, file_size) ->
  looks_too_big file_size = false ->
  host_tmpdir host = lit "/" :: ps -> Forall wf_part ps ->
  spares host (next_tmp host w) ->
  fst (receive_file host upload w) = Ok WAIT_NAME ->
  head (w_net (snd (receive_file host upload w))) <> Some false ->
  let w' := snd (receive_name_and_convert host answer
                   (snd (receive_file host upload w))) in
  w_user_data w' = ∅ /\
  forall p, within (next_tmp host w) p = true -> fs_lookup p (w_fs w') = None.
Proof.
  intros Hup Hsize Htmp Hps Hsp Hok Hnet.
  assert (Heq : receive_file host upload w = accept_upload host file_id original_name w)
    by (unfold receive_file; rewrite Hup, Hsize; reflexivity).
  rewrite Heq in *.
  destruct (accept_upload_recorded host file_id original_name w Hok)
    as (Hud & Hdir & Hex).
  destruct (recorded_paths host w ps original_name Htmp Hps) as (Hr1 & Hr2).
  destruct (name_step_final_world host answer
              (snd (accept_upload host file_id original_name w))
              (next_tmp host w)) as (w3 & _ & Hw3); try assumption.
  - rewrite Hud. rewrite lookup_insert_ne by discriminate.
    rewrite lookup_insert_eq. exact Hr1.
  - rewrite Hud, lookup_insert_eq.
    change (fs_exists
              (path_of_str (str_of_path (joinpath (next_tmp host w) original_name)))
              (w_fs (snd (accept_upload host file_id original_name w))) = true).
    rewrite Hr2. exact Hex.
  - cbv zeta. rewrite Hw3.
    split; [reflexivity|]. intros p Hp. cbn [w_fs set_fs].
    apply fs_remove_tree_lookup; [exact Hp|].
    exact (within_not_nil _ p (next_tmp_ne host w) Hp).
Qed.

Section SaysHandlers.

Variable P : Reply -> Prop.
Variable host : Host.

Lemma says_try_finally {A} (m : M A) (fin : M unit) :
  says P m -> says P fin -> says P (try_finally m fin).
Proof.
  intros Hm Hf w. unfold try_finally.
  destruct (Hm w) as (rs & Hs & Hrs). destruct (m w) as [r w1]; simpl in Hs.
  destruct (Hf w1) as (rs' & Hs' & Hrs').
  exists (rs ++ rs'). split; [|apply Forall_app; auto].
  destruct (fin w1) as [[u|e] w2]; simpl in *; rewrite Hs', Hs, app_assoc;
    reflexivity.
Qed.

Lemma says_read_bytes (p : Path) : says P (read_bytes p).
Proof.
  apply says_silent. intros w. unfold read_bytes.
  destruct (fs_lookup p (w_fs w)) as [nd|]; [|reflexivity].
  destruct (n_dir nd); reflexivity.
Qed.

Lemma says_copyfile (src dst : Path) : says P (copyfile src dst).
Proof.
  intros w. unfold copyfile.
  destruct (bool_decide (src = dst) && fs_exists src (w_fs w)).
  - exists []. rewrite app_nil_r. split; [reflexivity | constructor].
  - apply (says_bind P (read_bytes src) (fun data => write_bytes dst data));
      [apply says_read_bytes | intros; apply says_write_bytes].
Qed.

Lemma apply_writes_sent (ws : list (Path * bytes)) (w : World) :
  w_sent (apply_writes ws w) = w_sent w.
Proof.
  revert w. induction ws as [|[p data] t IH]; intros w; simpl; [reflexivity|].
  rewrite IH. reflexivity.
Qed.

Lemma says_subprocess_run (cmd : list str) (timeout : Z) :
  says P (subprocess_run host cmd timeout).
Proof.
  apply says_silent. intros w. unfold subprocess_run.
  destruct (timeout <? b_seconds (host_exec host cmd (w_fs w)))%Z; [reflexivity|].
  destruct (b_returncode (host_exec host cmd (w_fs w)) =? 0)%Z; simpl;
    apply apply_writes_sent.
Qed.

Lemma says_find_soffice : says P (find_soffice host).
Proof.
  apply says_silent. intros w. unfold find_soffice.
  destruct (match host_which host (lit "soffice") with
            | Some (c :: t) => Some (c :: t)
            | _ => host_which host (lit "libreoffice")
            end) as [[|c t]|]; reflexivity.
Qed.

Lemma says_discover_output (input_path out_dir : Path) :
  says P (discover_output input_path out_dir).
Proof.
  unfold discover_output.
  apply says_bind; [apply says_silent; reflexivity | intros [|]].
  - apply says_ret.
  - apply says_silent. intros w.
    destruct (sorted_desc _ _); reflexivity.
Qed.

Lemma says_convert_to_pdf (input_path work_dir : Path) :
  says P (convert_to_pdf host input_path work_dir).
Proof.
  unfold convert_to_pdf.
  destruct (bool_decide _).
  { apply says_bind; [apply says_copyfile | intros; apply says_ret]. }
  destruct (mem _ IMAGE_EXTS).
  { apply says_bind; [|intros; apply says_ret].
    unfold convert_image_to_pdf.
    apply says_bind; [apply says_read_bytes | intros img].
    apply says_bind; [apply says_silent; reflexivity | intros now].
    destruct (host_img2pdf host now img);
      [apply says_write_bytes | apply says_raise]. }
  destruct (mem _ TEXT_EXTS).
  { apply says_bind; [|intros; apply says_ret].
    unfold convert_text_to_pdf.
    apply says_bind; [apply says_read_bytes | intros text].
    apply says_bind; [apply says_silent; reflexivity | intros now].
    apply says_write_bytes. }
  rewrite orb_true_r.
  apply says_bind.
  - unfold convert_office_to_pdf.
    apply says_bind; [apply says_find_soffice | intros [[|c t]|]];
      try apply says_raise.
    apply says_bind; [apply says_subprocess_run | intros _].
    apply says_discover_output.
  - intros out. apply says_bind; [apply says_copyfile | intros; apply says_ret].
Qed.

Lemma says_receive_name_and_convert (msg : Message) :
  P (ReplyText TxtLostContext) -> P (ReplyText TxtConverting) ->
  P (ReplyText TxtDone) -> P (ReplyText TxtTimedOut) ->
  (forall e, P (ReplyText (TxtLibreOfficeFailed e))) ->
  (forall e, P (ReplyText (TxtConversionFailed e))) ->
  (forall data,
     P (ReplyDocument
          (sanitize_filename (str_or (msg_text msg) []) default_max_len
           ++ lit ".pdf") data)) ->
  says P (receive_name_and_convert host msg).
Proof.
  intros Hlost Hconv Hdone Htime Hlo Hfail Hdoc. unfold receive_name_and_convert.
  apply says_bind; [apply says_silent; reflexivity | intros wd].
  apply says_bind; [apply says_silent; reflexivity | intros ip].
  apply says_bind; [apply says_silent; reflexivity | intros e1].
  apply says_bind; [apply says_silent; reflexivity | intros e2].
  destruct (negb e1 || negb e2).
  - apply says_bind; [apply says_send, Hlost | intros _].
    apply says_bind; [apply says_silent; reflexivity | intros _; apply says_ret].
  - apply says_bind; [apply says_send, Hconv | intros _].
    apply says_bind; [|intros; apply says_ret].
    apply says_try_finally.
    + apply says_try_except.
      * apply says_bind; [apply says_convert_to_pdf | intros pdf].
        apply says_bind; [apply says_read_bytes | intros f].
        apply says_bind; [apply says_send, Hdoc | intros _].
        apply says_send, Hdone.
      * intros e. unfold conversion_failed.
        destruct e; apply says_send; auto.
    + apply says_bind; [apply says_silent; reflexivity | intros _].
      apply says_rmtree.
Qed.

End SaysHandlers.

(** X17.  Whatever the user types as a name, whatever the recorded
    context, the host and the outcome of the conversion, every document
    that the name step sends carries a file name made of a non-empty stem
    of at most 64 characters, each an ASCII letter, a digit, a space, an
    underscore or a hyphen, followed by ".pdf". *)
Theorem name_step_document_name (host : Host) (msg : Message) :
  says safely_named (receive_name_and_convert host msg).
Proof.
  apply says_receive_name_and_convert; try exact I; try (intros e; exact I).
  intros data. simpl.
  exists (sanitize_filename (str_or (msg_text msg) []) default_max_len).
  split; [reflexivity|].
  split; [apply sanitize_filename_nonempty; reflexivity|].
  split; [|apply sanitize_filename_clean].
  pose proof (sanitize_filename_length (str_or (msg_text msg) []) default_max_len)
    as Hlen.
  unfold default_max_len in *. lia.
Qed.

Lemma upload_of_is_upload (m : Message) :
  is_upload m = true -> upload_of m <> None.
Proof.
  unfold is_upload, upload_of.
  destruct (msg_document m) as [doc|]; [discriminate|].
  destruct (msg_photo m) as [|ph t] eqn:Hph; [discriminate|].
  intros _. destruct (last (ph :: t)) eqn:Hlast; [discriminate|].
  apply last_None in Hlast. discriminate.
Qed.

(** X18.  The prompt "Please send a document or a photo." of the file
    step is never sent: the handler table hands the file step only
    messages that carry a document or a photo, so in no state and on no
    update does a handler reached through the table send it; a message
    without an upload that arrives while a file is awaited gets no
    answer at all and changes nothing. *)
Theorem prompt_for_upload_unreachable (host : Host) (s : state) (u : Update) :
  says (fun r => r <> ReplyText TxtSendDocumentOrPhoto) (dispatch host s u) /\
  forall m w, is_upload m = false ->
    dispatch host WAIT_FILE (Incoming m) w = (Ok WAIT_FILE, w).
Proof.
  split.
  - assert (Hstart : says (fun r => r <> ReplyText TxtSendDocumentOrPhoto) start).
    { apply says_bind; [apply says_send; discriminate | intros; apply says_ret]. }
    assert (Hcancel : says (fun r => r <> ReplyText TxtSendDocumentOrPhoto) cancel).
    { apply says_bind; [apply says_silent; reflexivity | intros _].
      apply says_bind; [apply says_send; discriminate | intros; apply says_ret]. }
    destruct s, u as [| |m]; simpl; try assumption; try apply says_ret.
    + destruct (is_upload m) eqn:Hup; [|apply says_ret].
      apply upload_of_is_upload in Hup. unfold receive_file.
      destruct (upload_of m) as [[[file_id original_name] file_size]|];
        [|congruence].
      destruct (looks_too_big file_size).
      * apply says_bind; [apply says_send; discriminate | intros; apply says_ret].
      * apply says_accept_upload; discriminate.
    + destruct (is_plain_text m); [|apply says_ret].
      apply says_receive_name_and_convert; discriminate.
  - intros m w Hup. simpl. rewrite Hup. reflexivity.
Qed.

Lemma prompt_for_upload_unreachable_witness :
  dispatch Scenario.bare_host WAIT_FILE (Incoming (Scenario.text "hello"))
    Scenario.fresh_world
  = (Ok WAIT_FILE, Scenario.fresh_world).
Proof.
  apply (proj2 (prompt_for_upload_unreachable Scenario.bare_host WAIT_FILE
                  CmdStart)).
  reflexivity.
Defined.

(** ** The extras at concrete inputs *)

Lemma sanitize_filename_spacing_witness :
  last (sanitize_filename (lit "  my   report .pdf") 64) <> Some 32%N.
Proof.
  apply (proj2 (proj2 (sanitize_filename_spacing (lit "  my   report .pdf") 64))).
  vm_compute. reflexivity.
Defined.

Lemma office_nonzero_exit_witness :
  convert_to_pdf Faults.crashing_host
    (Scenario.job ++ [lit "a.docx"]) Scenario.job
    (Scenario.job_world "a.docx" (lit "doc"))
  = (Raise (CalledProcessError 77
              (soffice_cmd (lit "/usr/bin/soffice")
                 (Scenario.job ++ [lit "a.docx"]) Scenario.job)
              (lit "boom")),
     add_proc (soffice_cmd (lit "/usr/bin/soffice")
                 (Scenario.job ++ [lit "a.docx"]) Scenario.job)
              (Exited 77) (Scenario.job_world "a.docx" (lit "doc"))).
Proof.
  refine (proj1 (proj2
            (office_nonzero_exit Faults.crashing_host
               (Scenario.job ++ [lit "a.docx"]) Scenario.job 90
               (lit "/usr/bin/soffice")
               (Scenario.job_world "a.docx" (lit "doc")) _ _ _)) _ _).
  - vm_compute. reflexivity.
  - vm_compute. discriminate.
  - vm_compute. discriminate.
  - reflexivity.
  - vm_compute. reflexivity.
Defined.

Lemma output_pdf_as_input_witness :
  convert_to_pdf Scenario.bare_host
    (Scenario.job ++ [lit "output.pdf"]) Scenario.job
    (Scenario.job_world "output.pdf" Scenario.pdf_magic)
  = (Raise (SameFileError (Scenario.job ++ [lit "output.pdf"])
                          (Scenario.job ++ [lit "output.pdf"])),
     Scenario.job_world "output.pdf" Scenario.pdf_magic).
Proof.
  apply (output_pdf_as_input Scenario.bare_host Scenario.job
           (Scenario.job_world "output.pdf" Scenario.pdf_magic)).
  vm_compute. reflexivity.
Defined.

Lemma office_output_stem_witness :
  fst (convert_to_pdf
         (Scenario.office_host 5 [(lit "output.pdf", Scenario.pdf_magic)])
         (Scenario.job ++ [lit "output.docx"]) Scenario.job
         (Scenario.job_world "output.docx" (lit "doc")))
  = Raise (SameFileError (Scenario.job ++ [lit "output.pdf"])
                         (Scenario.job ++ [lit "output.pdf"])).
Proof.
  rewrite (office_output_stem
             (Scenario.office_host 5 [(lit "output.pdf", Scenario.pdf_magic)])
             (Scenario.job ++ [lit "output.docx"]) Scenario.job
             (lit "/usr/bin/soffice")
             (Scenario.job_world "output.docx" (lit "doc"))).
  - reflexivity.
  - vm_compute. reflexivity.
  - vm_compute. reflexivity.
  - vm_compute. reflexivity.
  - vm_compute. discriminate.
  - vm_compute. reflexivity.
  - vm_compute. left. reflexivity.
Defined.

Lemma pdf_is_copied_witness :
  fs_lookup (Scenario.job ++ [lit "output.pdf"])
    (w_fs (snd (convert_to_pdf Scenario.bare_host
                  (Scenario.job ++ [lit "scan.PDF"]) Scenario.job
                  (Scenario.job_world "scan.PDF" Scenario.pdf_magic))))
  = Some (Node false Scenario.pdf_magic 3).
Proof.
  refine (proj1 (proj2
            (pdf_is_copied Scenario.bare_host
               (Scenario.job ++ [lit "scan.PDF"]) Scenario.job
               (Scenario.job_world "scan.PDF" Scenario.pdf_magic)
               Scenario.pdf_magic 2 _ _ _ _ _))).
  - vm_compute. reflexivity.
  - vm_compute. reflexivity.
  - vm_compute. discriminate.
  - vm_compute. reflexivity.
  - vm_compute. reflexivity.
Defined.

Lemma accept_upload_all_or_nothing_witness :
  let host := Scenario.bare_host in
  let w := Scenario.fresh_world in
  let w' := snd (accept_upload host (lit "file-1") (lit "notes.txt") w) in
  (exists data,
     host_download host (lit "file-1") = Some data /\
     w_fs w' = fs_put (joinpath (next_tmp host w) (lit "notes.txt"))
                 (Node false data (S (w_clock w)))
                 (fs_put (next_tmp host w) (Node true [] (w_clock w)) (w_fs w))) \/
  (w_fs w' = w_fs w /\ w_user_data w' = w_user_data w /\
   fst (accept_upload host (lit "file-1") (lit "notes.txt") w) <> Ok WAIT_NAME).
Proof.
  apply (accept_upload_all_or_nothing Scenario.bare_host (lit "file-1")
           (lit "notes.txt") Scenario.fresh_world).
  intros p x [H|[H|[H|[]]]]; inversion H; vm_compute; reflexivity.
Defined.

Lemma file_step_context_round_trip_witness :
  path_of_str (default [] (w_user_data Faults.pending_world !! "work_dir"))
  = Scenario.job /\
  path_of_str (default [] (w_user_data Faults.pending_world !! "input_path"))
  = Scenario.job ++ [lit "notes.txt"] /\
  fs_is_dir Scenario.job (w_fs Faults.pending_world) = true /\
  fs_exists (Scenario.job ++ [lit "notes.txt"]) (w_fs Faults.pending_world) = true.
Proof.
  apply (file_step_context_round_trip Scenario.bare_host (lit "file-1")
           (lit "notes.txt") Scenario.fresh_world [lit "tmp"]).
  - reflexivity.
  - constructor; [|constructor].
    split; [discriminate|]. split; [discriminate|].
    vm_compute. intuition discriminate.
  - vm_compute. reflexivity.
Defined.

Lemma absolute_name_escapes_witness :
  fs_lookup [lit "/"; lit "tmp"; lit "stray.txt"]
    (w_fs (snd (accept_upload Scenario.bare_host (lit "file-1")
                  (lit "/tmp/stray.txt") Scenario.fresh_world)))
  = Some (Node false (lit "hello") 2).
Proof.
  refine (proj2 (absolute_name_escapes Scenario.bare_host (lit "file-1")
                   (lit "/tmp/stray.txt") (lit "hello") Scenario.fresh_world
                   Scenario.dir_node _ _ _ _ _ _)).
  - vm_compute. reflexivity.
  - reflexivity.
  - vm_compute. discriminate.
  - vm_compute. reflexivity.
  - vm_compute. reflexivity.
  - reflexivity.
Defined.

Lemma name_step_removes_work_dir_witness :
  let w' := snd (receive_name_and_convert Scenario.bare_host
                   (Scenario.text "report") Faults.pending_world) in
  w_user_data w' = ∅ /\
  forall p, within Scenario.job p = true -> fs_lookup p (w_fs w') = None.
Proof.
  apply (name_step_removes_work_dir Scenario.bare_host (Scenario.text "report")
           Faults.pending_world Scenario.job).
  - vm_compute. reflexivity.
  - discriminate.
  - vm_compute. reflexivity.
  - vm_compute. reflexivity.
  - vm_compute. discriminate.
  - intros cmd fs. simpl. tauto.
Defined.

Lemma job_leaves_no_directory_witness :
  let w' := snd (receive_name_and_convert Scenario.bare_host
                   (Scenario.text "report")
                   (snd (receive_file Scenario.bare_host
                           (Scenario.document "notes.txt" (Some 2048%Z))
                           Scenario.fresh_world))) in
  w_user_data w' = ∅ /\
  forall p, within Scenario.job p = true -> fs_lookup p (w_fs w') = None.
Proof.
  apply (job_leaves_no_directory Scenario.bare_host
           (Scenario.document "notes.txt" (Some 2048%Z)) (Scenario.text "report")
           (lit "file-1") (lit "notes.txt") (Some 2048%Z) Scenario.fresh_world
           [lit "tmp"]).
  - reflexivity.
  - reflexivity.
  - reflexivity.
  - constructor; [|constructor].
    split; [discriminate|]. split; [discriminate|].
    vm_compute. intuition discriminate.
  - intros cmd fs. simpl. tauto.
  - vm_compute. reflexivity.
  - vm_compute. discriminate.
Defined.

(** ** Re-entry *)

Lemma lit_inj (a b : string) : lit a = lit b -> a = b.
Proof.
  unfold lit. intros H.
  assert (Hl : list_ascii_of_string a = list_ascii_of_string b).
  { revert H. generalize (list_ascii_of_string a) (list_ascii_of_string b).
    induction l as [|x l IH]; intros [|y l'] H; simpl in H; try discriminate;
      [reflexivity|].
    injection H as Hxy Hl. f_equal; [|apply IH, Hl].
    rewrite <- (ascii_N_embedding x), <- (ascii_N_embedding y), Hxy.
    reflexivity. }
  rewrite <- (string_of_list_ascii_of_string a),
          <- (string_of_list_ascii_of_string b), Hl.
  reflexivity.
Qed.

Lemma next_tmp_serial (host : Host) (w w' : World) :
  w_tmp w <> w_tmp w' -> next_tmp host w <> next_tmp host w'.
Proof.
  intros Hne Heq. apply Hne. unfold next_tmp in Heq.
  apply app_inv_head in Heq. injection Heq as Heq.
  apply lit_inj in Heq.
  apply (f_equal NilEmpty.uint_of_string) in Heq.
  rewrite !NilEmpty.usu in Heq. injection Heq as Heq.
  apply Unsigned.to_uint_inj, Heq.
Qed.

Lemma next_tmp_length (host : Host) (w w' : World) :
  length (next_tmp host w) = length (next_tmp host w').
Proof. unfold next_tmp. rewrite !length_app. reflexivity. Qed.

Lemma within_same_length (d p : Path) :
  length d = length p -> d <> p -> within d p = false.
Proof.
  intros Hlen Hne. unfold within.
  rewrite Hlen, firstn_all.
  rewrite bool_decide_eq_false_2 by congruence. reflexivity.
Qed.

Lemma fs_remove_tree_other (d p : Path) (fs : FS) :
  within d p = false -> fs_lookup p (fs_remove_tree d fs) = fs_lookup p fs.
Proof.
  intros Hout. unfold fs_remove_tree.
  induction fs as [|[q nd] t IH]; [reflexivity|].
  cbn [List.filter fst fs_lookup].
  destruct (decide (q = p)) as [->|Hne].
  - rewrite Hout. cbn [negb orb fs_lookup].
    rewrite bool_decide_eq_true_2 by reflexivity. reflexivity.
  - rewrite (bool_decide_eq_false_2 (q = p)) by exact Hne.
    destruct (negb (within d q) || bool_decide (q = [])); [|exact IH].
    cbn [fs_lookup]. rewrite bool_decide_eq_false_2 by exact Hne. exact IH.
Qed.

Lemma send_serial (r : Reply) (w : World) : w_tmp (snd (send r w)) = w_tmp w.
Proof. unfold send. destruct (w_net w) as [|[|] rest]; reflexivity. Qed.

Lemma start_frame (w : World) :
  w_fs (snd (start w)) = w_fs w /\ w_tmp (snd (start w)) = w_tmp w.
Proof.
  unfold start. destruct (reply_then_ret TxtWelcome WAIT_FILE w) as [-> _].
  split; [apply send_frame | apply send_serial].
Qed.

(** An accepted upload: the serial moves on by one, and the file system
    gains the directory and the input and nothing else. *)
Lemma accept_upload_accepted (host : Host) (file_id original_name : str)
    (w : World) :
  fst (accept_upload host file_id original_name w) = Ok WAIT_NAME ->
  let d := next_tmp host w in
  let w' := snd (accept_upload host file_id original_name w) in
  w_tmp w' = S (w_tmp w) /\
  exists data,
    fs_is_dir (joinpath d original_name)
      (fs_put d (Node true [] (w_clock w)) (w_fs w)) = false /\
    w_fs w' = fs_put (joinpath d original_name)
                (Node false data (S (w_clock w)))
                (fs_put d (Node true [] (w_clock w)) (w_fs w)).
Proof.
  intros Hok d w'. unfold w'. clear w'.
  destruct (accept_upload_outcome host file_id original_name w)
    as [(data & Hdl & Hw & Heq)|(e & _ & Heq)]; fold d in Heq; rewrite Heq in Hok |- *.
  - fold d in Hw.
    match goal with
    | |- context [download_done ?a ?b ?c ?w0] =>
        destruct (download_done_world a b c w0) as (Hfs & _ & _);
          assert (Htmp : w_tmp (snd (download_done a b c w0)) = w_tmp w0)
    end.
    { unfold download_done, bind, user_data_set. cbn [fst snd].
      match goal with
      | |- context [reply_text ?t ?w0] =>
          pose proof (send_serial (ReplyText t) w0) as Hs;
            unfold reply_text; destruct (send (ReplyText t) w0) as [[u|e] w1]
      end; simpl in *; rewrite Hs; reflexivity. }
    cbv zeta in Hfs. rewrite Hfs, Htmp.
    split; [reflexivity|]. exists data.
    apply write_bytes_ok in Hw. destruct Hw as (_ & Hnd & _).
    split; [exact Hnd | reflexivity].
  - exfalso.
    destruct (download_failed_result d e (snd (mkdtemp host (lit "tg_pdf_") w)))
      as [H|[e' H]];
      destruct (download_failed d e (snd (mkdtemp host (lit "tg_pdf_") w)))
        as [[[s|]|e''] w3]; cbn [fst] in *; congruence.
Qed.

Lemma receive_file_accepted (host : Host) (m : Message) (w : World) :
  fst (dispatch host WAIT_FILE (Incoming m) w) = Ok WAIT_NAME ->
  exists file_id original_name,
    dispatch host WAIT_FILE (Incoming m) w
    = accept_upload host file_id original_name w.
Proof.
  cbn [dispatch]. destruct (is_upload m); [|discriminate].
  unfold receive_file.
  destruct (upload_of m) as [[[file_id original_name] file_size]|].
  - destruct (looks_too_big file_size); [|eauto].
    intros H. exfalso.
    destruct (reply_then_ret TxtTooBig WAIT_FILE w) as [_ [Hr|[e Hr]]];
      cbv zeta in Hr; rewrite Hr in H; discriminate.
  - intros H. exfalso.
    destruct (reply_then_ret TxtSendDocumentOrPhoto WAIT_FILE w) as [_ [Hr|[e Hr]]];
      cbv zeta in Hr; rewrite Hr in H; discriminate.
Qed.

Section KeepsOther.

Variable d : Path.

Lemma keeps_try_finally {A} (m : M A) (fin : M unit) :
  keeps_dir d m -> keeps_dir d fin -> keeps_dir d (try_finally m fin).
Proof.
  intros Hm Hf w Hd. unfold try_finally.
  specialize (Hm w Hd). destruct (m w) as [r w1]. cbn [snd] in Hm.
  specialize (Hf w1 Hm). destruct (fin w1) as [[u|e] w2]; exact Hf.
Qed.

Lemma keeps_rmtree (other : Path) :
  within other d = false -> keeps_dir d (rmtree other).
Proof.
  intros Hout w Hd. unfold rmtree.
  destruct (fs_is_dir other (w_fs w)); [|exact Hd].
  cbn [snd w_fs set_fs]. unfold fs_is_dir in *.
  rewrite fs_remove_tree_other by exact Hout. exact Hd.
Qed.

(** The name step removes the directory it finds recorded and no other. *)
Lemma keeps_name_step (host : Host) (msg : Message) (w : World) :
  spares host d ->
  within (path_of_str (default [] (w_user_data w !! "work_dir"))) d = false ->
  fs_is_dir d (w_fs w) = true ->
  fs_is_dir d (w_fs (snd (receive_name_and_convert host msg w))) = true.
Proof.
  intros Hsp Hout Hd.
  set (work_dir := path_of_str (default [] (w_user_data w !! "work_dir"))) in *.
  set (input_path := path_of_str (default [] (w_user_data w !! "input_path"))).
  set (rest :=
         wd_exists <- path_exists work_dir ;;
         ip_exists <- path_exists input_path ;;
         if negb wd_exists || negb ip_exists then
           reply_text TxtLostContext ;; user_data_clear ;; ret END
         else
           reply_text TxtConverting ;;
           try_finally
             (try_except
                (pdf_path <- convert_to_pdf host input_path work_dir ;;
                 f <- read_bytes pdf_path ;;
                 reply_document
                   (sanitize_filename (str_or (msg_text msg) []) default_max_len
                    ++ lit ".pdf") f ;;
                 reply_text TxtDone)
                conversion_failed)
             (user_data_clear ;; rmtree work_dir) ;;
           ret END).
  assert (Hstep : receive_name_and_convert host msg w = rest w) by reflexivity.
  rewrite Hstep.
  assert (Hkeep : keeps_dir d rest); [|exact (Hkeep w Hd)].
  unfold rest.
  apply keeps_bind; [apply keeps_frame; reflexivity | intros e1].
  apply keeps_bind; [apply keeps_frame; reflexivity | intros e2].
  destruct (negb e1 || negb e2).
  - apply keeps_bind; [apply keeps_send | intros _].
    apply keeps_bind; [apply keeps_frame; reflexivity | intros _; apply keeps_ret].
  - apply keeps_bind; [apply keeps_send | intros _].
    apply keeps_bind; [|intros; apply keeps_ret].
    apply keeps_try_finally.
    + apply keeps_try_except; [|apply keeps_conversion_failed].
      apply keeps_bind; [apply keeps_convert_to_pdf, Hsp | intros pdf_path].
      apply keeps_bind; [apply keeps_read_bytes | intros f].
      apply keeps_bind; [apply keeps_send | intros; apply keeps_send].
    + apply keeps_bind; [apply keeps_frame; reflexivity | intros _].
      apply keeps_rmtree, Hout.
Qed.

End KeepsOther.

(** X19.  Re-entry orphans the working directory.  A first upload is
    accepted, the user sends /start again (the table allows re-entry) and
    a second upload is accepted.  Then the directory made for the first
    upload is still on disk while [user_data] names another one, and the
    name step that follows, whatever it does, leaves the first directory
    where it is: nothing removes it any more. *)
Theorem reentry_orphans_work_dir (host : Host) (m1 m2 m3 : Message) (w : World)
    (ps : list str) :
  host_tmpdir host = lit "/" :: ps -> Forall wf_part ps ->
  spares host (next_tmp host w) ->
  let r1 := dispatch host WAIT_FILE (Incoming m1) w in
  let r2 := dispatch host WAIT_NAME CmdStart (snd r1) in
  let r3 := dispatch host WAIT_FILE (Incoming m2) (snd r2) in
  let r4 := dispatch host WAIT_NAME (Incoming m3) (snd r3) in
  fst r1 = Ok WAIT_NAME -> fst r2 = Ok WAIT_FILE -> fst r3 = Ok WAIT_NAME ->
  fs_is_dir (next_tmp host w) (w_fs (snd r3)) = true /\
  path_of_str (default [] (w_user_data (snd r3) !! "work_dir"))
  <> next_tmp host w /\
  fs_is_dir (next_tmp host w) (w_fs (snd r4)) = true.
Proof.
  intros Htmp Hps Hsp r1 r2 r3 r4 H1 _ H3.
  destruct (receive_file_accepted host m1 w H1) as (f1 & n1 & E1).
  assert (E2 : r2 = start (snd r1)) by reflexivity.
  destruct (receive_file_accepted host m2 (snd r2) H3) as (f2 & n2 & E3).
  fold r1 in E1. fold r3 in E3.
  set (d1 := next_tmp host w). set (w2 := snd r2) in *.
  set (d2 := next_tmp host w2).
  (* the first step *)
  assert (A1 : fst (accept_upload host f1 n1 w) = Ok WAIT_NAME)
    by (rewrite <- E1; exact H1).
  destruct (accept_upload_accepted host f1 n1 w A1) as (T1 & _).
  destruct (accept_upload_recorded host f1 n1 w A1) as (_ & D1 & _).
  cbv zeta in T1, D1. rewrite <- E1 in T1, D1. fold d1 in D1.
  (* /start *)
  destruct (start_frame (snd r1)) as (F2 & T2). rewrite <- E2 in F2, T2.
  fold w2 in F2, T2.
  assert (D2 : fs_is_dir d1 (w_fs w2) = true) by (rewrite F2; exact D1).
  assert (Hne : d2 <> d1).
  { apply next_tmp_serial. rewrite T2, T1. lia. }
  (* the second step *)
  assert (A3 : fst (accept_upload host f2 n2 w2) = Ok WAIT_NAME)
    by (rewrite <- E3; exact H3).
  destruct (accept_upload_accepted host f2 n2 w2 A3) as (_ & data & Hnd & F3).
  destruct (accept_upload_recorded host f2 n2 w2 A3) as (U3 & _ & _).
  destruct (recorded_paths host w2 ps n2 Htmp Hps) as (R3 & _).
  cbv zeta in F3, U3. rewrite <- E3 in F3, U3. fold d2 in Hnd, F3, U3, R3.
  assert (D2' : fs_is_dir d1 (fs_put d2 (Node true [] (w_clock w2)) (w_fs w2)) = true).
  { unfold fs_is_dir in *. rewrite fs_lookup_put_ne by exact Hne. exact D2. }
  assert (D3 : fs_is_dir d1 (w_fs (snd r3)) = true).
  { rewrite F3. unfold fs_is_dir in *.
    rewrite fs_lookup_put_ne; [exact D2'|].
    intros Heq. rewrite Heq in Hnd. unfold fs_is_dir in Hnd. congruence. }
  assert (W3 : path_of_str (default [] (w_user_data (snd r3) !! "work_dir")) = d2).
  { rewrite U3. rewrite lookup_insert_ne by discriminate.
    rewrite lookup_insert_eq. exact R3. }
  split; [exact D3|]. split; [rewrite W3; exact Hne|].
  unfold r4. cbn [dispatch]. destruct (is_plain_text m3); [|exact D3].
  apply keeps_name_step; [exact Hsp | | exact D3].
  rewrite W3. apply within_same_length; [apply next_tmp_length | exact Hne].
Qed.

Lemma reentry_orphans_work_dir_witness :
  let host := Scenario.bare_host in
  let r1 := dispatch host WAIT_FILE (Incoming (Scenario.document "a.txt" None))
              Scenario.fresh_world in
  let r2 := dispatch host WAIT_NAME CmdStart (snd r1) in
  let r3 := dispatch host WAIT_FILE (Incoming (Scenario.document "b.txt" None))
              (snd r2) in
  let r4 := dispatch host WAIT_NAME (Incoming (Scenario.text "b")) (snd r3) in
  fs_is_dir Scenario.job (w_fs (snd r3)) = true /\
  path_of_str (default [] (w_user_data (snd r3) !! "work_dir")) <> Scenario.job /\
  fs_is_dir Scenario.job (w_fs (snd r4)) = true.
Proof.
  apply (reentry_orphans_work_dir Scenario.bare_host
           (Scenario.document "a.txt" None) (Scenario.document "b.txt" None)
           (Scenario.text "b") Scenario.fresh_world [lit "tmp"]).
  - reflexivity.
  - constructor; [|constructor].
    split; [discriminate|]. split; [discriminate|].
    vm_compute. intuition discriminate.
  - intros cmd fs. simpl. tauto.
  - vm_compute. reflexivity.
  - vm_compute. reflexivity.
  - vm_compute. reflexivity.
Defined.

(** ** Uploads without a name of their own *)

(** X20.  The names the file step makes up decide the backend.  A photo
    (a message without a document) is stored as "photo.jpg", under the id
    and the size of its last, largest, rendition, and the dispatcher gives
    it to img2pdf; a document whose name is missing or empty is stored as
    "file", which has no extension, and the dispatcher gives it to the
    office engine. *)
Theorem made_up_names_route (host : Host) (m : Message) (d : Path) (w : World) :
  (forall ph,
     msg_document m = None -> last (msg_photo m) = Some ph ->
     upload_of m = Some (photo_file_id ph, lit "photo.jpg", photo_file_size ph) /\
     convert_to_pdf host (joinpath d (lit "photo.jpg")) d w
     = (convert_image_to_pdf host (d ++ [lit "photo.jpg"])
          (d ++ [lit "output.pdf"]) ;;
        ret (d ++ [lit "output.pdf"])) w) /\
  (forall doc,
     msg_document m = Some doc ->
     doc_file_name doc = None \/ doc_file_name doc = Some [] ->
     upload_of m = Some (doc_file_id doc, lit "file", doc_file_size doc) /\
     convert_to_pdf host (joinpath d (lit "file")) d w
     = (out_pdf <- convert_office_to_pdf host (d ++ [lit "file"]) d
                     default_timeout_sec ;;
        copyfile out_pdf (d ++ [lit "output.pdf"]) ;;
        ret (d ++ [lit "output.pdf"])) w).
Proof.
  split.
  - intros ph Hdoc Hph. unfold upload_of. rewrite Hdoc, Hph.
    split; [reflexivity|].
    change (joinpath d (lit "photo.jpg")) with (d ++ [lit "photo.jpg"]).
    unfold convert_to_pdf.
    assert (Hs : suffix (d ++ [lit "photo.jpg"]) = lit ".jpg")
      by (unfold suffix, name; rewrite last_snoc; reflexivity).
    rewrite Hs. reflexivity.
  - intros doc Hdoc Hname. unfold upload_of. rewrite Hdoc.
    split; [destruct Hname as [-> | ->]; reflexivity|].
    change (joinpath d (lit "file")) with (d ++ [lit "file"]).
    unfold convert_to_pdf.
    assert (Hs : suffix (d ++ [lit "file"]) = [])
      by (unfold suffix, name; rewrite last_snoc; reflexivity).
    rewrite Hs. reflexivity.
Qed.

Lemma made_up_names_route_witness :
  upload_of (mkMessage None [mkPhotoSize (lit "small") (Some 10%Z);
                             mkPhotoSize (lit "large") (Some 90%Z)] None)
  = Some (lit "large", lit "photo.jpg", Some 90%Z).
Proof.
  refine (proj1 (proj1 (made_up_names_route Scenario.bare_host
                          (mkMessage None [mkPhotoSize (lit "small") (Some 10%Z);
                                           mkPhotoSize (lit "large") (Some 90%Z)]
                             None)
                          Scenario.job Scenario.fresh_world)
                   (mkPhotoSize (lit "large") (Some 90%Z)) _ _)); reflexivity.
Defined.

(** ** A whole job *)

Lemma joinpath_part (d : Path) (s part : str) :
  path_of_str s = [part] -> part <> lit "/" -> joinpath d s = d ++ [part].
Proof.
  intros Hs Hp. unfold joinpath. rewrite Hs. cbn [is_absolute].
  rewrite bool_decide_eq_false_2 by exact Hp. reflexivity.
Qed.

Lemma accept_upload_delivered (host : Host) (file_id original_name part : str)
    (data : bytes) (w : World) :
  host_download host file_id = Some data ->
  path_of_str original_name = [part] -> part <> lit "/" ->
  fs_lookup (next_tmp host w ++ [part]) (w_fs w) = None ->
  w_net w = [] ->
  let d := next_tmp host w in
  accept_upload host file_id original_name w =
  (Ok WAIT_NAME,
   mkWorld (fs_put (d ++ [part]) (Node false data (S (w_clock w)))
              (fs_put d (Node true [] (w_clock w)) (w_fs w)))
           (S (S (w_clock w))) (w_procs w)
           (w_sent w ++
            [ReplyText (TxtGotIt (sanitize_filename (stem [part]) default_max_len))])
           []
           (<["input_path" := str_of_path (d ++ [part])]>
              (<["work_dir" := str_of_path d]> (w_user_data w)))
           (S (w_tmp w))).
Proof.
  intros Hdl Hname Hpart Hfresh Hnet d.
  destruct (accept_upload_outcome host file_id original_name w)
    as [(data' & Hdl' & Hw & Heq)|(e & Hfail & Heq)].
  - rewrite Hdl in Hdl'. injection Hdl' as <-.
    rewrite Heq. fold d. rewrite (joinpath_part d _ _ Hname Hpart).
    unfold download_done. rewrite Hname.
    destruct w as [fs c procs sent net ud tmp]. cbn [w_net] in Hnet. subst net.
    reflexivity.
  - exfalso.
    assert (Hcan : write_bytes (joinpath d original_name) data
                     (snd (mkdtemp host (lit "tg_pdf_") w))
                   = (Ok tt, stamp (joinpath d original_name) false data
                               (snd (mkdtemp host (lit "tg_pdf_") w)))).
    { rewrite (joinpath_part d _ _ Hname Hpart).
      apply (write_bytes_can _ _ _ (Node true [] (w_clock w))); [| |reflexivity].
      - unfold fs_is_dir, mkdtemp, stamp. cbn [snd w_fs].
        fold (next_tmp host w). fold d.
        rewrite fs_lookup_put_ne by apply snoc_ne.
        fold d in Hfresh. rewrite Hfresh. reflexivity.
      - rewrite removelast_snoc. unfold mkdtemp, stamp. cbn [snd w_fs].
        fold (next_tmp host w). fold d. apply fs_lookup_put_eq. }
    destruct Hfail as [Hn|(data' & Hdl' & Hw)]; [congruence|].
    rewrite Hdl in Hdl'. injection Hdl' as <-.
    fold d in Hw. rewrite Hcan in Hw. discriminate.
Qed.

Lemma convert_pdf_can (host : Host) (input_path work_dir : Path) (w : World)
    (data : bytes) (t : nat) (nd : node) :
  lower (suffix input_path) = lit ".pdf" ->
  fs_lookup input_path (w_fs w) = Some (Node false data t) ->
  input_path <> work_dir ++ [lit "output.pdf"] ->
  fs_lookup work_dir (w_fs w) = Some nd -> n_dir nd = true ->
  fs_is_dir (work_dir ++ [lit "output.pdf"]) (w_fs w) = false ->
  convert_to_pdf host input_path work_dir w =
  (Ok (work_dir ++ [lit "output.pdf"]),
   stamp (work_dir ++ [lit "output.pdf"]) false data w).
Proof.
  intros Hext Hin Hne Hwd Hdir Hout.
  rewrite convert_to_pdf_arms. cbv zeta. rewrite Hext, joinpath_output.
  change (classify (lit ".pdf")) with PassThrough. cbv iota.
  assert (Hcp : copyfile input_path (work_dir ++ [lit "output.pdf"]) w =
                (Ok tt, stamp (work_dir ++ [lit "output.pdf"]) false data w)).
  { apply (copyfile_can _ _ _ _ data Hne (read_bytes_file _ _ _ _ Hin)).
    apply (write_bytes_can _ _ _ nd Hout); [|exact Hdir].
    rewrite removelast_snoc. exact Hwd. }
  unfold bind. rewrite Hcp. reflexivity.
Qed.

(** The name step on a recorded PDF, every reply delivered. *)
Lemma name_step_pdf (host : Host) (msg : Message) (w : World) (d : Path)
    (part : str) (data : bytes) (t : nat) (nd : node) :
  path_of_str (default [] (w_user_data w !! "work_dir")) = d ->
  path_of_str (default [] (w_user_data w !! "input_path")) = d ++ [part] ->
  lower (suffix (d ++ [part])) = lit ".pdf" ->
  part <> lit "output.pdf" ->
  fs_lookup d (w_fs w) = Some nd -> n_dir nd = true ->
  fs_lookup (d ++ [part]) (w_fs w) = Some (Node false data t) ->
  fs_is_dir (d ++ [lit "output.pdf"]) (w_fs w) = false ->
  w_net w = [] ->
  receive_name_and_convert host msg w =
  (Ok END,
   mkWorld (fs_remove_tree d
              (fs_put (d ++ [lit "output.pdf"]) (Node false data (w_clock w))
                 (w_fs w)))
           (S (w_clock w)) (w_procs w)
           (w_sent w ++
            [ReplyText TxtConverting;
             ReplyDocument
               (sanitize_filename (str_or (msg_text msg) []) default_max_len
                ++ lit ".pdf") data;
             ReplyText TxtDone])
           [] ∅ (w_tmp w)).
Proof.
  intros Hwd Hip Hext Hpart Hd Hdir Hin Hout Hnet.
  set (body := try_except
                 (pdf_path <- convert_to_pdf host (d ++ [part]) d ;;
                  f <- read_bytes pdf_path ;;
                  reply_document
                    (sanitize_filename (str_or (msg_text msg) []) default_max_len
                     ++ lit ".pdf") f ;;
                  reply_text TxtDone)
                 conversion_failed).
  assert (Hstep : receive_name_and_convert host msg w =
                  (reply_text TxtConverting ;;
                   try_finally body (user_data_clear ;; rmtree d) ;;
                   ret END) w).
  { unfold receive_name_and_convert.
    unfold bind at 1, user_data_get. unfold bind at 1.
    rewrite Hwd, Hip.
    unfold bind at 1, path_exists. unfold bind at 1.
    unfold fs_exists. rewrite Hd, Hin. reflexivity. }
  rewrite Hstep. clear Hstep Hwd Hip.
  destruct w as [fs c procs sent net ud tmp].
  cbn [w_fs w_net w_clock w_procs w_sent w_tmp w_user_data] in *. subst net.
  set (w1 := mkWorld fs c procs (sent ++ [ReplyText TxtConverting]) [] ud tmp).
  assert (H1 : reply_text TxtConverting (mkWorld fs c procs sent [] ud tmp)
               = (Ok tt, w1)) by reflexivity.
  set (out := d ++ [lit "output.pdf"]) in *.
  assert (H2 : convert_to_pdf host (d ++ [part]) d w1
               = (Ok out, stamp out false data w1)).
  { apply (convert_pdf_can host _ d w1 data t nd); try assumption.
    intros Heq. apply app_inv_head in Heq. congruence. }
  assert (H3 : read_bytes out (stamp out false data w1)
               = (Ok data, stamp out false data w1)).
  { apply (read_bytes_file _ _ _ c). apply stamp_lookup. }
  set (w2 := mkWorld (fs_put out (Node false data c) fs) (S c) procs
               (sent ++ [ReplyText TxtConverting] ++
                [ReplyDocument
                   (sanitize_filename (str_or (msg_text msg) []) default_max_len
                    ++ lit ".pdf") data] ++ [ReplyText TxtDone])
               [] ud tmp).
  assert (H4 : body w1 = (Ok tt, w2)).
  { unfold body, try_except. unfold bind at 1. rewrite H2.
    unfold bind at 1. rewrite H3.
    unfold w2, w1, stamp, bind, reply_document, reply_text, send.
    cbn [w_net w_fs w_clock w_procs w_sent w_user_data w_tmp tail].
    rewrite <- !app_assoc. reflexivity. }
  assert (H5 : fs_is_dir d (w_fs w2) = true).
  { unfold w2, fs_is_dir. cbn [w_fs].
    rewrite fs_lookup_put_ne by (unfold out; intros Heq; symmetry in Heq;
                                 exact (snoc_ne _ _ Heq)).
    rewrite Hd. exact Hdir. }
  unfold bind at 1. rewrite H1.
  unfold bind at 1, try_finally. rewrite H4.
  unfold bind at 1, user_data_clear, rmtree.
  cbn [w_fs set_user_data]. rewrite H5.
  unfold w2, ret, set_fs, set_user_data.
  cbn [w_net w_fs w_clock w_procs w_sent w_user_data w_tmp].
  reflexivity.
Qed.

Lemma within_snoc (d : Path) (x : str) : d <> [] -> within d (d ++ [x]) = true.
Proof.
  intros Hd. unfold within. rewrite take_app_length.
  rewrite bool_decide_eq_true_2 by reflexivity.
  rewrite (bool_decide_eq_false_2 (d = [])) by exact Hd. reflexivity.
Qed.

Lemma suffix_snoc (d : Path) (x : str) : suffix (d ++ [x]) = suffix [x].
Proof. unfold suffix, name. rewrite last_snoc. reflexivity. Qed.

Lemma fs_remove_tree_put (d p : Path) (nd : node) (fs : FS) :
  within d p = true -> p <> [] ->
  fs_remove_tree d (fs_put p nd fs) = fs_remove_tree d fs.
Proof.
  intros Hin Hp. unfold fs_remove_tree.
  induction fs as [|[q old] t IH]; cbn [fs_put List.filter fst].
  - rewrite Hin. rewrite bool_decide_eq_false_2 by exact Hp. reflexivity.
  - case_bool_decide as Hq; cbn [List.filter fst].
    + subst q. rewrite Hin. rewrite bool_decide_eq_false_2 by exact Hp.
      reflexivity.
    + rewrite IH. reflexivity.
Qed.

Lemma fresh_lookup (d p : Path) (fs : FS) :
  (forall q x, In (q, x) fs -> within d q = false) ->
  within d p = true -> fs_lookup p fs = None.
Proof.
  intros Hfresh Hin. destruct (fs_lookup p fs) as [nd|] eqn:E; [|reflexivity].
  assert (Hne : fs_lookup p fs <> None) by congruence.
  apply fs_lookup_In in Hne. destruct Hne as (x & Hx).
  rewrite (Hfresh p x Hx) in Hin. discriminate.
Qed.

(** X21.  A PDF comes back as it was sent.  Let the upload be a document
    with a plain file name ending in ".pdf", in any mix of case, other than
    "output.pdf"; let the download succeed, every reply be delivered, the
    temporary directory be an absolute path and nothing exist yet under
    the name of the new working directory.  Then the file step goes on to
    the name step, the name step ends the conversation, and the replies
    of the two steps are exactly: the prompt for a name, "Converting", one
    document that holds the very bytes downloaded under the sanitized name
    followed by ".pdf", and "Done".  Afterwards the file system is what it
    was before the upload and [user_data] is empty. *)
Theorem pdf_round_trip (host : Host) (upload answer : Message)
    (file_id original_name part : str) (file_size : option Z) (data : bytes)
    (w : World) (ps : list str) :
  upload_of upload = Some (file_id, original_name, file_size) ->
  looks_too_big file_size = false ->
  host_download host file_id = Some data ->
  path_of_str original_name = [part] -> part <> lit "/" ->
  lower (suffix [part]) = lit ".pdf" -> part <> lit "output.pdf" ->
  host_tmpdir host = lit "/" :: ps -> Forall wf_part ps ->
  (forall p x, In (p, x) (w_fs w) -> within (next_tmp host w) p = false) ->
  w_net w = [] ->
  let r1 := receive_file host upload w in
  let r2 := receive_name_and_convert host answer (snd r1) in
  fst r1 = Ok WAIT_NAME /\ fst r2 = Ok END /\
  w_sent (snd r2) =
    w_sent w ++
    [ReplyText (TxtGotIt (sanitize_filename (stem [part]) default_max_len));
     ReplyText TxtConverting;
     ReplyDocument
       (sanitize_filename (str_or (msg_text answer) []) default_max_len
        ++ lit ".pdf") data;
     ReplyText TxtDone] /\
  w_fs (snd r2) = w_fs w /\ w_user_data (snd r2) = ∅.
Proof.
  intros Hup Hsize Hdl Hname Hpart Hext Hout Htmp Hps Hfresh Hnet r1 r2.
  set (d := next_tmp host w) in *.
  assert (Hd : d <> []) by apply next_tmp_ne.
  assert (Hr1 : r1 = accept_upload host file_id original_name w)
    by (unfold r1, receive_file; rewrite Hup, Hsize; reflexivity).
  assert (Hin_fresh : fs_lookup (d ++ [part]) (w_fs w) = None)
    by (apply (fresh_lookup d); [exact Hfresh | apply within_snoc, Hd]).
  assert (Hout_fresh : fs_lookup (d ++ [lit "output.pdf"]) (w_fs w) = None)
    by (apply (fresh_lookup d); [exact Hfresh | apply within_snoc, Hd]).
  pose proof (accept_upload_delivered host file_id original_name part data w
                Hdl Hname Hpart Hin_fresh Hnet) as H1.
  cbv zeta in H1. fold d in H1. rewrite <- Hr1 in H1.
  destruct (recorded_paths host w ps original_name Htmp Hps) as (R1 & R2).
  fold d in R1, R2. rewrite (joinpath_part d _ _ Hname Hpart) in R2.
  assert (Hne_in : d ++ [part] <> d)
    by (intros Heq; symmetry in Heq; exact (snoc_ne _ _ Heq)).
  assert (Hne_out : d ++ [lit "output.pdf"] <> d)
    by (intros Heq; symmetry in Heq; exact (snoc_ne _ _ Heq)).
  assert (Hne_io : d ++ [part] <> d ++ [lit "output.pdf"])
    by (intros Heq; apply app_inv_head in Heq; congruence).
  match type of H1 with
  | _ = (_, ?W) =>
      pose proof (name_step_pdf host answer W d part data (S (w_clock w))
                    (Node true [] (w_clock w))) as H2
  end.
  cbn [w_fs w_user_data w_net w_clock w_procs w_sent w_tmp] in H2.
  unfold r2. rewrite H1. cbn [snd]. rewrite H2.
  - cbn [fst snd w_sent w_fs w_user_data].
    split; [reflexivity|]. split; [reflexivity|].
    split; [rewrite <- app_assoc; reflexivity|].
    split; [|reflexivity].
    do 2 (rewrite fs_remove_tree_put;
            [| apply within_snoc, Hd | intros Heq; destruct d; discriminate]).
    apply fs_remove_tree_fresh; assumption.
  - rewrite lookup_insert_ne by discriminate. rewrite lookup_insert_eq. exact R1.
  - rewrite lookup_insert_eq. exact R2.
  - rewrite suffix_snoc. exact Hext.
  - exact Hout.
  - rewrite fs_lookup_put_ne by exact Hne_in. apply fs_lookup_put_eq.
  - reflexivity.
  - apply fs_lookup_put_eq.
  - unfold fs_is_dir.
    rewrite fs_lookup_put_ne by exact Hne_io.
    rewrite fs_lookup_put_ne by congruence.
    rewrite Hout_fresh. reflexivity.
  - reflexivity.
Qed.

Lemma pdf_round_trip_witness :
  let r1 := receive_file Scenario.bare_host (Scenario.document "Scan 1.PDF" None)
              Scenario.fresh_world in
  let r2 := receive_name_and_convert Scenario.bare_host
              (Scenario.text "  my scan.pdf ") (snd r1) in
  fst r1 = Ok WAIT_NAME /\ fst r2 = Ok END /\
  w_sent (snd r2) =
    [ReplyText (TxtGotIt (lit "Scan 1")); ReplyText TxtConverting;
     ReplyDocument (lit "my scan.pdf") (lit "hello"); ReplyText TxtDone] /\
  w_fs (snd r2) = Scenario.base_fs /\ w_user_data (snd r2) = ∅.
Proof.
  apply (pdf_round_trip Scenario.bare_host (Scenario.document "Scan 1.PDF" None)
           (Scenario.text "  my scan.pdf ") (lit "file-1") (lit "Scan 1.PDF")
           (lit "Scan 1.PDF") None (lit "hello") Scenario.fresh_world [lit "tmp"]).
  - reflexivity.
  - reflexivity.
  - reflexivity.
  - vm_compute. reflexivity.
  - vm_compute. discriminate.
  - vm_compute. reflexivity.
  - vm_compute. discriminate.
  - reflexivity.
  - constructor; [|constructor].
    split; [discriminate|]. split; [discriminate|].
    vm_compute. intuition discriminate.
  - intros p x [H|[H|[H|[]]]]; inversion H; vm_compute; reflexivity.
  - reflexivity.
Defined.
